(** * telegram-expense-bot: the expense parser, the amount normalizer,
      the ledger aggregation and the monthly summary upsert of [bot.py]

    The development embeds the data-transforming part of [bot.py]:
    [to_int], [ExpenseBot.parse_expense_message],
    [ExpenseBot.add_expense_to_sheet], [ExpenseBot.update_monthly_summary],
    [ExpenseBot.get_today_summary] and [ExpenseBot.get_monthly_summary],
    the text with which the handler [summary] answers, and what the
    handler [handle_expense] does to the worksheets.

    Modelling conventions.
    - A Python [str] is the [string] of its UTF-8 bytes, and [Str.chars]
      gives its characters.  The character classes of [re], of
      [str.strip] and of [int], and the case mappings [str.lower] and
      [str.title], are defined here on ASCII; so is the whitespace of
      Unicode.  Beyond ASCII the alphanumeric characters, the decimal
      digits and the case mappings are those of the interpreter's Unicode
      database, which is a parameter ([python]), as is the text of a
      float.
    - A Python value read from, or written to, a worksheet cell is a
      [pyval]; a float is a [spec_float] (sign, mantissa, exponent), so
      that [int(x)] on a float is exact integer arithmetic.
    - [int] refuses a decimal literal of more than 4300 digits, CPython's
      default limit.
    - A [dict] is a [gmap] with [string] keys.
    - Code that can raise returns a [result]; [try ... except] is a match
      on it.
    - The worksheets are grids of cells (a list of rows).  They stand for
      the external spreadsheet behind [gspread]: reading returns the cells
      as they were written.  The conversion of number-like text that
      [gspread] applies when it builds records, and its checks of the
      header row, are not modelled; a statement that depends on how a
      text cell is read back says which texts it is about.  The calls to the spreadsheet are taken to
      succeed, and the text messages of a chat are handled one after the
      other.
    - Recording an expense reads the clock three times: for the row
      (line 276), for the month prefix of the aggregation (line 326) and
      for the period label of the summary row (line 327); each reading is
      an argument of its own.  A view is taken to be computed within one
      reading of the clock. *)

From Stdlib Require Import ZArith String Ascii List Lia Bool.
From Stdlib Require Import SpecFloat.
From stdpp Require Import gmap strings list fin_maps.

Open Scope string_scope.

(** ** Exceptions *)

Inductive exn := ValueError | OverflowError | KeyError | ZeroDivisionError.

Inductive result (A : Type) :=
| Ok (a : A)
| Raise (e : exn).
Arguments Ok {A} a.
Arguments Raise {A} e.

Definition rbind {A B} (r : result A) (k : A -> result B) : result B :=
  match r with
  | Ok a => k a
  | Raise e => Raise e
  end.

Notation "x <-! r ;; k" := (rbind r (fun x => k))
  (at level 100, r at next level, right associativity).

(** ** Characters *)

Module Char.

Definition code (c : ascii) : N := N_of_ascii c.

Definition between (lo hi : N) (c : ascii) : bool :=
  (lo <=? code c)%N && (code c <=? hi)%N.

(** [Py_UNICODE_ISSPACE] on ASCII: TAB..CR, FS..US and the blank. *)
Definition is_space (c : ascii) : bool :=
  between 9 13 c || between 28 31 c || (code c =? 32)%N.

Definition is_digit (c : ascii) : bool := between 48 57 c.
Definition is_upper (c : ascii) : bool := between 65 90 c.
Definition is_lower (c : ascii) : bool := between 97 122 c.
Definition is_cased (c : ascii) : bool := is_upper c || is_lower c.

(** [\w]: alphanumerics and the underscore. *)
Definition is_word (c : ascii) : bool :=
  is_cased c || is_digit c || (code c =? 95)%N.

(** [.] without DOTALL: anything but the line feed. *)
Definition is_dot (c : ascii) : bool := negb (code c =? 10)%N.

Definition lower (c : ascii) : ascii :=
  if is_upper c then ascii_of_N (code c + 32) else c.

Definition upper (c : ascii) : ascii :=
  if is_lower c then ascii_of_N (code c - 32) else c.

Definition digit_val (c : ascii) : Z := Z.of_N (code c) - 48.

(** The bytes of UTF-8: an ASCII character is one byte below 128; a
    character beyond ASCII is a leading byte followed by continuation
    bytes, which are the bytes [10xxxxxx]. *)
Definition is_ascii (c : ascii) : bool := (code c <? 128)%N.

Definition is_continuation (c : ascii) : bool := between 128 191 c.

(** The UTF-8 bytes of the character with code point [n]. *)
Definition utf8 (n : N) : string :=
  let byte (k : N) := ascii_of_N k in
  let continuation (k : N) := ascii_of_N (128 + k mod 64)%N in
  if (n <? 128)%N then String (byte n) EmptyString
  else if (n <? 2048)%N then
    String (byte (192 + n / 64)%N) (String (continuation n) EmptyString)
  else if (n <? 65536)%N then
    String (byte (224 + n / 4096)%N)
      (String (continuation (n / 64)%N) (String (continuation n) EmptyString))
  else
    String (byte (240 + n / 262144)%N)
      (String (continuation (n / 4096)%N)
         (String (continuation (n / 64)%N)
            (String (continuation n) EmptyString))).

(** [Py_UNICODE_ISSPACE] beyond ASCII: U+0085, U+00A0, U+1680,
    U+2000..U+200A, U+2028, U+2029, U+202F, U+205F and U+3000. *)
Definition unicode_whitespace : list string :=
  List.map utf8
    [133; 160; 5760; 8192; 8193; 8194; 8195; 8196; 8197; 8198; 8199; 8200;
     8201; 8202; 8232; 8233; 8239; 8287; 12288]%N.

End Char.

(** ** Strings *)

Module Str.

Fixpoint all (p : ascii -> bool) (s : string) : bool :=
  match s with
  | EmptyString => true
  | String c s' => p c && all p s'
  end.

Fixpoint filter (p : ascii -> bool) (s : string) : string :=
  match s with
  | EmptyString => EmptyString
  | String c s' => if p c then String c (filter p s') else filter p s'
  end.

Fixpoint map (f : ascii -> ascii) (s : string) : string :=
  match s with
  | EmptyString => EmptyString
  | String c s' => String (f c) (map f s')
  end.

Definition is_empty (s : string) : bool :=
  match s with
  | EmptyString => true
  | _ => false
  end.

Definition eqb (a b : string) : bool := bool_decide (a = b).

(** A text of ASCII characters only. *)
Definition is_ascii (s : string) : bool := all Char.is_ascii s.

(** The characters of a text, each as the text of its UTF-8 bytes: a
    character is a byte together with the continuation bytes that follow
    it. *)
Fixpoint chars (s : string) : list string :=
  match s with
  | EmptyString => []
  | String c s' =>
      let l := chars s' in
      match s' with
      | String d _ =>
          if Char.is_continuation d then
            match l with
            | g :: rest => String c g :: rest
            | [] => [String c EmptyString]
            end
          else String c EmptyString :: l
      | EmptyString => [String c EmptyString]
      end
  end.

(** [''.join(l)] *)
Definition text (l : list string) : string := foldr String.append EmptyString l.

(** [c.isspace()] for a character [c]. *)
Definition isspace (c : string) : bool :=
  match c with
  | String a EmptyString => Char.is_space a
  | _ => bool_decide (c ∈ Char.unicode_whitespace)
  end.

Fixpoint lstrip_chars (l : list string) : list string :=
  match l with
  | [] => []
  | c :: l' => if isspace c then lstrip_chars l' else l
  end.

Fixpoint rstrip_chars (l : list string) : list string :=
  match l with
  | [] => []
  | c :: l' =>
      match rstrip_chars l' with
      | [] => if isspace c then [] else [c]
      | r => c :: r
      end
  end.

Definition strip_chars (l : list string) : list string :=
  rstrip_chars (lstrip_chars l).

(** [str.strip()]: the whitespace characters at both ends are dropped. *)
Definition strip (s : string) : string := text (strip_chars (chars s)).

(** [str.lower()] on a text of ASCII characters. *)
Definition lower (s : string) : string := map Char.lower s.

(** [str.title()] on a text of ASCII characters: a cased character is
    upper-cased when the character before it is not cased, lower-cased
    when it is. *)
Fixpoint title_from (previous_is_cased : bool) (s : string) : string :=
  match s with
  | EmptyString => EmptyString
  | String c s' =>
      String (if previous_is_cased then Char.lower c else Char.upper c)
             (title_from (Char.is_cased c) s')
  end.

Definition title (s : string) : string := title_from false s.

(** [str.startswith] *)
Fixpoint startswith (s p : string) {struct p} : bool :=
  match p, s with
  | EmptyString, _ => true
  | String a p', String b s' => if ascii_dec a b then startswith s' p' else false
  | String _ _, EmptyString => false
  end.

End Str.

(** ** The categories (bot.py, line 333) *)

Definition categories : list string :=
  ["makan"; "transport"; "belanja"; "hiburan"; "kesehatan"; "lainnya"].

(** The bucket a category text is summed into. *)
Definition bucket (category : string) : string :=
  if bool_decide (category ∈ categories) then category else "lainnya".

(** ** The interpreter

    What the program takes from CPython and is not defined here: the
    text [str(x)] of a float, and the part of the Unicode character
    database beyond ASCII that [re], [int], [str.lower] and [str.title]
    consult.  A character is given by its UTF-8 bytes.

    The laws are facts of that database: an alphanumeric character or a
    decimal digit is not whitespace; the value of a decimal digit is one
    of 0..9; lower-casing twice is lower-casing once; and title-casing a
    text does not change which of the six categories, if any, its
    lower-cased form is. *)

(** A case mapping: the ASCII mapping on ASCII text, the mapping of the
    database on any other text. *)
Definition case_mapping (ascii_mapping unicode_mapping : string -> string)
           (s : string) : string :=
  if Str.is_ascii s then ascii_mapping s else unicode_mapping s.

Record python := {
  float_repr : spec_float -> string;
  unicode_alnum : string -> bool;
  unicode_decimal : string -> option Z;
  unicode_lower : string -> string;
  unicode_title : string -> string;
  unicode_alnum_not_space :
    forall c, unicode_alnum c = true -> Str.isspace c = false;
  unicode_decimal_not_space :
    forall c v, unicode_decimal c = Some v -> Str.isspace c = false;
  unicode_decimal_range :
    forall c v, unicode_decimal c = Some v -> (0 <= v <= 9)%Z;
  unicode_lower_lower :
    forall s,
      Str.is_ascii s = false ->
      case_mapping Str.lower unicode_lower (unicode_lower s) = unicode_lower s;
  unicode_title_bucket :
    forall s,
      Str.is_ascii s = false ->
      bucket (case_mapping Str.lower unicode_lower (unicode_title s))
      = bucket (case_mapping Str.lower unicode_lower s)
}.

(** CPython's default limit on the digits of a decimal literal given to
    [int] ([sys.int_info.default_max_str_digits]). *)
Definition int_max_str_digits : Z := 4300.

Module Py.

Section Interpreter.
Variable py : python.

(** [\w]: an alphanumeric character or the underscore. *)
Definition is_word (c : string) : bool :=
  match c with
  | String a EmptyString => Char.is_word a
  | _ => unicode_alnum py c
  end.

(** The value of a decimal digit ([\d]), [None] for any other character. *)
Definition digit (c : string) : option Z :=
  match c with
  | String a EmptyString =>
      if Char.is_digit a then Some (Char.digit_val a) else None
  | _ => unicode_decimal py c
  end.

Definition is_digit (c : string) : bool := bool_decide (is_Some (digit c)).

(** [str.lower()] and [str.title()] *)
Definition lower (s : string) : string :=
  case_mapping Str.lower (unicode_lower py) s.

Definition title (s : string) : string :=
  case_mapping Str.title (unicode_title py) s.

(** [int(s)] in base 10.  Surrounding whitespace is dropped; an optional
    sign is followed by digits, where single underscores may separate
    digits; more than [int_max_str_digits] digits are refused.  [None]
    stands for the [ValueError] that [int] raises. *)
Fixpoint int_digits (acc : Z) (s : list string) : option Z :=
  match s with
  | [] => Some acc
  | c :: s' =>
      match digit c with
      | Some v => int_digits (acc * 10 + v) s'
      | None =>
          if Str.eqb c "_" then
            match s' with
            | d :: s'' =>
                match digit d with
                | Some v => int_digits (acc * 10 + v) s''
                | None => None
                end
            | [] => None
            end
          else None
      end
  end.

Definition int_unsigned (s : list string) : option Z :=
  match s with
  | c :: s' =>
      match digit c with
      | Some v => int_digits v s'
      | None => None
      end
  | [] => None
  end.

Definition int (s : string) : option Z :=
  let t := Str.strip_chars (Str.chars s) in
  if (int_max_str_digits <? Z.of_nat (length (List.filter is_digit t)))%Z
  then None
  else
    match t with
    | c :: t' =>
        if Str.eqb c "-" then Z.opp <$> int_unsigned t'
        else if Str.eqb c "+" then int_unsigned t'
        else int_unsigned t
    | [] => None
    end.

End Interpreter.

End Py.

(** ** [int(str)] on ASCII text

    [int] as [to_int] calls it, on a text of ASCII characters: surrounding
    whitespace is dropped; an optional sign is followed by digits, where
    single underscores may separate digits; more than
    [int_max_str_digits] digits are refused.  [None] stands for the
    [ValueError] that [int] raises. *)

Fixpoint int_digits (acc : Z) (s : string) : option Z :=
  match s with
  | EmptyString => Some acc
  | String c s' =>
      if Char.is_digit c then int_digits (acc * 10 + Char.digit_val c) s'
      else if (Char.code c =? 95)%N then
        match s' with
        | String d s'' =>
            if Char.is_digit d
            then int_digits (acc * 10 + Char.digit_val d) s''
            else None
        | EmptyString => None
        end
      else None
  end.

Definition int_unsigned (s : string) : option Z :=
  match s with
  | String c s' =>
      if Char.is_digit c then int_digits (Char.digit_val c) s' else None
  | EmptyString => None
  end.

(** The number of digits of a text. *)
Definition count_digits (s : string) : Z :=
  Z.of_nat (String.length (Str.filter Char.is_digit s)).

Definition py_int (s : string) : option Z :=
  let t := Str.strip s in
  if (int_max_str_digits <? count_digits t)%Z then None
  else
    match t with
    | String c t' =>
        if (Char.code c =? 45)%N then Z.opp <$> int_unsigned t'
        else if (Char.code c =? 43)%N then int_unsigned t'
        else int_unsigned t
    | EmptyString => None
    end.

(** ** Python values *)

Inductive pyval :=
| PyNone
| PyBool (b : bool)
| PyInt (z : Z)
| PyFloat (f : spec_float)
| PyStr (s : string).

Definition str_of_bool (b : bool) : string := if b then "True" else "False".

(** [int(x)] on a float truncates towards zero; it raises on the
    infinities ([OverflowError]) and on NaN ([ValueError]). *)
Definition int_of_float (f : spec_float) : result Z :=
  match f with
  | S754_zero _ => Ok 0%Z
  | S754_infinity _ => Raise OverflowError
  | S754_nan => Raise ValueError
  | S754_finite s m e =>
      let a := match e with
               | Zneg p => Z.shiftr (Zpos m) (Zpos p)
               | _ => Z.shiftl (Zpos m) e
               end in
      Ok (cond_Zopp s a)
  end.

(** ** [to_int] (bot.py, lines 52-66) *)

(** The string path: [s = str(value).strip()] onwards. *)
Definition keep_digit_or_minus (c : ascii) : bool :=
  Char.is_digit c || (Char.code c =? 45)%N.

Definition to_int_text (text : string) : result Z :=
  let s := Str.strip text in
  let s := Str.filter keep_digit_or_minus s in
  if Str.eqb s "" || Str.eqb s "-" then Ok 0%Z
  else
    match py_int s with
    | Some z => Ok z
    | None => Ok 0%Z
    end.

Definition to_int (value : pyval) : result Z :=
  match value with
  | PyInt z => Ok z
  | PyFloat f => int_of_float f
  | PyNone => Ok 0%Z
  | PyBool b => to_int_text (str_of_bool b)
  | PyStr s => to_int_text s
  end.

(** ** The fragment of [re] used by the parser

    A backtracking matcher in continuation-passing style over the
    characters of the subject: greedy repetition tries the longest run
    first and gives characters back one at a time; a group records the
    text its body consumed. *)

Module Re.

Inductive cls := Word | Space | Digit | Dot.

Definition newline : string := String (ascii_of_N 10) EmptyString.

(** [.] without DOTALL: any character but the line feed. *)
Definition is_dot (ch : string) : bool := negb (Str.eqb ch newline).

Definition cls_ok (py : python) (c : cls) : string -> bool :=
  match c with
  | Word => Py.is_word py
  | Space => Str.isspace
  | Digit => Py.is_digit py
  | Dot => is_dot
  end.

Inductive regex :=
| Bol                      (* ^ *)
| Eol                      (* $ *)
| Plus (c : cls)           (* c+ *)
| Group (r : regex)        (* ( r ) *)
| Seq (r1 r2 : regex).     (* r1 r2 *)

Section Matcher.
Variable py : python.
Context {R : Type}.

(** [c*] at position [pos] of the subject, [s] being what is left. *)
Fixpoint star (c : cls) (pos : nat) (s : list string)
         (k : nat -> list string -> option R) : option R :=
  match s with
  | a :: s' =>
      if cls_ok py c a then
        match star c (S pos) s' k with
        | Some r => Some r
        | None => k pos s
        end
      else k pos s
  | [] => k pos s
  end.

Definition plus (c : cls) (pos : nat) (s : list string)
           (k : nat -> list string -> option R) : option R :=
  match s with
  | a :: s' => if cls_ok py c a then star c (S pos) s' k else None
  | [] => None
  end.

Fixpoint run (r : regex) (pos : nat) (s : list string) (groups : list string)
         (k : nat -> list string -> list string -> option R) : option R :=
  match r with
  | Bol => if Nat.eqb pos 0 then k pos s groups else None
  | Eol =>
      (* the end, or just before a line feed that ends the subject *)
      if bool_decide (s = []) || bool_decide (s = [newline])
      then k pos s groups else None
  | Plus c => plus c pos s (fun pos' s' => k pos' s' groups)
  | Group r' =>
      run r' pos s groups
          (fun pos' s' groups' =>
             k pos' s' (groups' ++ [Str.text (take (pos' - pos) s)])%list)
  | Seq r1 r2 =>
      run r1 pos s groups (fun pos' s' groups' => run r2 pos' s' groups' k)
  end.
End Matcher.

(** [re.match(pattern, s)]: anchored at the start; the groups on success. *)
Definition re_match (py : python) (r : regex) (s : string)
  : option (list string) :=
  run py r 0 (Str.chars s) [] (fun _ _ groups => Some groups).

End Re.

(** ** [ExpenseBot.parse_expense_message] (bot.py, lines 258-271) *)

(** [r'^(\w+)\s+(\d+)\s+(.+)$']; [re.IGNORECASE] changes nothing for a
    pattern made of character classes only. *)
Definition pattern : Re.regex :=
  Re.Seq Re.Bol
    (Re.Seq (Re.Group (Re.Plus Re.Word))
       (Re.Seq (Re.Plus Re.Space)
          (Re.Seq (Re.Group (Re.Plus Re.Digit))
             (Re.Seq (Re.Plus Re.Space)
                (Re.Seq (Re.Group (Re.Plus Re.Dot)) Re.Eol))))).

(** The result is [Some (kategori, jumlah, deskripsi)], or [None] for the
    triple [(None, None, None)]. *)
Definition parse_expense_message (py : python) (message_text : string)
  : option (string * Z * string) :=
  match Re.re_match py pattern (Str.strip message_text) with
  | Some [g1; g2; g3] =>
      let kategori := Py.lower py g1 in
      match Py.int py g2 with
      | Some jumlah => Some (kategori, jumlah, g3)
      | None => None
      end
  | _ => None
  end.

(** ** Decimal text of integers *)

From Stdlib Require Import DecimalString.

(** [str(n)] for an [int]. *)
Definition str_of_int (z : Z) : string := NilZero.string_of_int (Z.to_int z).

Fixpoint repeat_char (c : ascii) (n : nat) : string :=
  match n with
  | O => EmptyString
  | S n' => String c (repeat_char c n')
  end.

(** Zero padding on the left, as [%m], [%d], [%H], [%M], [%S] and [%Y] do. *)
Definition zfill (width : nat) (s : string) : string :=
  repeat_char "0" (width - String.length s) +:+ s.

(** Commas between groups of three digits, as the [,] of a format
    specification does. *)
Fixpoint group3 (digits : string) : string :=
  match digits with
  | EmptyString => EmptyString
  | String c rest =>
      let n := String.length rest in
      if Nat.eqb (n mod 3) 0 && negb (Nat.eqb n 0)
      then String c (String "," (group3 rest))
      else String c (group3 rest)
  end.

(** [f"{z:,}"] *)
Definition format_thousands (z : Z) : string :=
  let digits := group3 (str_of_int (Z.abs z)) in
  if (z <? 0)%Z then String "-" digits else digits.

(** ** [datetime.now()] and [strftime] *)

Record datetime := {
  year : nat;
  month : nat;
  day : nat;
  hour : nat;
  minute : nat;
  second : nat
}.

Definition month_names : list string :=
  ["January"; "February"; "March"; "April"; "May"; "June"; "July";
   "August"; "September"; "October"; "November"; "December"].

Definition dec (n : nat) : string := str_of_int (Z.of_nat n).

Definition fmt_Y (d : datetime) : string := zfill 4 (dec (year d)).
Definition fmt_m (d : datetime) : string := zfill 2 (dec (month d)).
Definition fmt_d (d : datetime) : string := zfill 2 (dec (day d)).
Definition fmt_B (d : datetime) : string :=
  default "" (month_names !! (month d - 1)).

(** [strftime("%Y-%m-%d")] *)
Definition strftime_Ymd (d : datetime) : string :=
  fmt_Y d +:+ "-" +:+ fmt_m d +:+ "-" +:+ fmt_d d.

(** [strftime("%Y-%m")] *)
Definition strftime_Ym (d : datetime) : string := fmt_Y d +:+ "-" +:+ fmt_m d.

(** [strftime("%B %Y")] *)
Definition strftime_BY (d : datetime) : string := fmt_B d +:+ " " +:+ fmt_Y d.

(** [strftime("%d %B %Y")] *)
Definition strftime_dBY (d : datetime) : string :=
  fmt_d d +:+ " " +:+ fmt_B d +:+ " " +:+ fmt_Y d.

(** [strftime("%H:%M:%S")] *)
Definition strftime_HMS (d : datetime) : string :=
  zfill 2 (dec (hour d)) +:+ ":" +:+ zfill 2 (dec (minute d)) +:+ ":"
  +:+ zfill 2 (dec (second d)).

(** ** Header constants (bot.py, lines 28-39) *)

Definition H_TANGGAL : string := "📅 Tanggal".
Definition H_WAKTU : string := "⏰ Waktu".
Definition H_KATEGORI : string := "🏷️ Kategori".
Definition H_DESKRIPSI : string := "📝 Deskripsi".
Definition H_JUMLAH : string := "💰 Jumlah (Rp)".
Definition H_USER_ID : string := "👤 User ID".
Definition H_STATUS : string := "📊 Status".

Definition SUMMARY_HEADER_ROW : nat := 3.
Definition MAIN_HEADER_ROW : nat := 1.

(** The header rows that [setup_main_worksheet_format] and
    [setup_summary_worksheet_format] write. *)
Definition main_headers : list string :=
  [H_TANGGAL; H_WAKTU; H_KATEGORI; H_DESKRIPSI; H_JUMLAH; H_USER_ID; H_STATUS].

Definition H_BULAN_TAHUN : string := "📅 Bulan-Tahun".

Definition summary_headers : list string :=
  [H_BULAN_TAHUN; "🍽️ Makan"; "🚗 Transport"; "🛒 Belanja"; "🎮 Hiburan";
   "💊 Kesehatan"; "📦 Lainnya"; "💰 Total"].

(** ** Worksheets

    A worksheet is the grid of its cell values, row by row; row [r] of the
    spreadsheet API is the element of index [r - 1], column [c] of a row
    the element of index [c - 1].  An empty cell reads as the empty
    string. *)

Abbreviation row := (list pyval).
Abbreviation grid := (list (list pyval)).
Abbreviation record := (gmap string pyval).

Definition empty_cell : pyval := PyStr "".

Definition pad_row (width : nat) (r : row) : row :=
  (r ++ replicate (width - length r) empty_cell)%list.

(** [dict(zip(keys, values))]: a later pair overrides an earlier one.  A
    header cell that is not text is a key no lookup of the program uses. *)
Definition record_of (keys : row) (values : row) : record :=
  foldl (fun (m : record) (kv : pyval * pyval) =>
           match kv.1 with
           | PyStr k => <[k := kv.2]> m
           | _ => m
           end)
        ∅ (zip keys (pad_row (length keys) values)).

(** [worksheet.get_all_records(head=head)]: the row [head] gives the keys,
    every row below it a record. *)
Definition get_all_records (head : nat) (ws : grid) : list record :=
  match ws !! (head - 1) with
  | Some keys => record_of keys <$> drop head ws
  | None => []
  end.

(** [worksheet.append_row(values)]: a new row below the last one. *)
Definition append_row (values : row) (ws : grid) : grid :=
  (ws ++ [values])%list.

(** [worksheet.update_cell(r, c, value)]; the grid grows when the cell is
    outside it. *)
Definition set_cell (c : nat) (value : pyval) (r : row) : row :=
  <[c - 1 := value]> (pad_row c r).

Definition update_cell (r c : nat) (value : pyval) (ws : grid) : grid :=
  let ws' := (ws ++ replicate (r - length ws) [])%list in
  match ws' !! (r - 1) with
  | Some old => <[r - 1 := set_cell c value old]> ws'
  | None => ws'
  end.

(** ** Truth value and equality with a [str] *)

(** [bool(v)], as [if not raw_date] uses it. *)
Definition truthy (v : pyval) : bool :=
  match v with
  | PyNone => false
  | PyBool b => b
  | PyInt z => negb (z =? 0)%Z
  | PyFloat (S754_zero _) => false
  | PyFloat _ => true
  | PyStr s => negb (Str.is_empty s)
  end.

(** [v == s] for [s] a [str], [v] being [None] when the key is absent. *)
Definition eq_str (v : option pyval) (s : string) : bool :=
  match v with
  | Some (PyStr t) => Str.eqb t s
  | _ => false
  end.

(** [record.get(key)] and [record.get(key, "")]. *)
Definition get (r : record) (key : string) : pyval := default PyNone (r !! key).
Definition get_or_empty (r : record) (key : string) : pyval :=
  default empty_cell (r !! key).

(** ** The bot: its two worksheets *)

Record ExpenseBot := {
  worksheet : grid;
  summary_worksheet : grid
}.

(** [{c: 0 for c in categories}] *)
Definition monthly_data_init : gmap string Z :=
  foldl (fun (m : gmap string Z) c => <[c := 0%Z]> m) ∅ categories.

(** [sum(d.values())] *)
Definition sum_values (d : gmap string Z) : Z :=
  foldr Z.add 0%Z (map_to_list d).*2.

(** [d[key]], which raises [KeyError] on an absent key. *)
Definition item (d : gmap string Z) (key : string) : result Z :=
  match d !! key with
  | Some v => Ok v
  | None => Raise KeyError
  end.

Section Bot.

Variable py : python.

(** [str(v)] *)
Definition py_str (v : pyval) : string :=
  match v with
  | PyNone => "None"
  | PyBool b => str_of_bool b
  | PyInt z => str_of_int z
  | PyFloat f => float_repr py f
  | PyStr s => s
  end.

(** *** [update_monthly_summary], the aggregation (lines 332-353) *)

(** [monthly_data[key] += amount] *)
Definition add_to (d : gmap string Z) (key : string) (amount : Z)
  : result (gmap string Z) :=
  v <-! item d key ;; Ok (<[key := (v + amount)%Z]> d).

(** The body of the [try] of one loop iteration. *)
Definition accumulate_body (current_month_str : string)
           (monthly_data : gmap string Z) (rec : record)
  : result (gmap string Z) :=
  let raw_date := get rec H_TANGGAL in
  if negb (truthy raw_date) then Ok monthly_data
  else
    let record_date_str := py_str raw_date in
    if Str.startswith record_date_str current_month_str then
      let category := Py.lower py (py_str (get_or_empty rec H_KATEGORI)) in
      amount <-! to_int (get rec H_JUMLAH) ;;
      if bool_decide (is_Some (monthly_data !! category))
      then add_to monthly_data category amount
      else add_to monthly_data "lainnya" amount
    else Ok monthly_data.

(** One iteration: [except Exception: continue] keeps the dictionary
    as it was. *)
Definition accumulate (current_month_str : string)
           (monthly_data : gmap string Z) (rec : record) : gmap string Z :=
  match accumulate_body current_month_str monthly_data rec with
  | Ok d => d
  | Raise _ => monthly_data
  end.

Definition aggregate_month (current_month_str : string)
           (records : list record) : gmap string Z :=
  foldl (accumulate current_month_str) monthly_data_init records.

(** *** [update_monthly_summary], the upsert (lines 356-381) *)

Fixpoint find_existing_row (current_month_name : string) (i : nat)
         (summary_records : list record) : option nat :=
  match summary_records with
  | [] => None
  | rec :: rest =>
      if eq_str (rec !! H_BULAN_TAHUN) current_month_name
      then Some (i + SUMMARY_HEADER_ROW + 1)
      else find_existing_row current_month_name (S i) rest
  end.

(** [for col, value in enumerate(row_data, start=1): update_cell(...)] *)
Fixpoint update_cells (existing_row col : nat) (row_data : row)
         (ws : grid) : grid :=
  match row_data with
  | [] => ws
  | value :: rest =>
      update_cells existing_row (S col) rest
                   (update_cell existing_row col value ws)
  end.

Definition upsert_summary (row_data : row) (current_month_name : string)
           (summary : grid) : grid :=
  let summary_records := get_all_records SUMMARY_HEADER_ROW summary in
  let existing_row := find_existing_row current_month_name 0 summary_records in
  match existing_row with
  | Some r =>
      if negb (Nat.eqb r 0) then update_cells r 1 row_data summary
      else append_row row_data summary
  | None => append_row row_data summary
  end.

Definition make_row_data (current_month_name : string)
           (monthly_data : gmap string Z) (total : Z) : result row :=
  makan <-! item monthly_data "makan" ;;
  transport <-! item monthly_data "transport" ;;
  belanja <-! item monthly_data "belanja" ;;
  hiburan <-! item monthly_data "hiburan" ;;
  kesehatan <-! item monthly_data "kesehatan" ;;
  lainnya <-! item monthly_data "lainnya" ;;
  Ok [PyStr current_month_name; PyInt makan; PyInt transport;
      PyInt belanja; PyInt hiburan; PyInt kesehatan; PyInt lainnya;
      PyInt total].

(** The whole method; the outer [except Exception] leaves the bot as it
    is.  [format_summary_worksheet] changes no cell value.  The clock is
    read twice: [now_prefix] stands for the reading of line 326,
    [now_label] for that of line 327. *)
Definition update_monthly_summary (now_prefix now_label : datetime)
           (bot : ExpenseBot) : ExpenseBot :=
  let current_month_str := strftime_Ym now_prefix in
  let current_month_name := strftime_BY now_label in
  let records := get_all_records MAIN_HEADER_ROW (worksheet bot) in
  let monthly_data := aggregate_month current_month_str records in
  let total := sum_values monthly_data in
  match make_row_data current_month_name monthly_data total with
  | Ok row_data =>
      {| worksheet := worksheet bot;
         summary_worksheet := upsert_summary row_data current_month_name
                                      (summary_worksheet bot) |}
  | Raise _ => bot
  end.

(** *** [add_expense_to_sheet] (lines 273-294) *)

Definition status_ok : string := "✅ Berhasil".

(** [now] stands for the reading of the clock of line 276; the two
    others are those of [update_monthly_summary].  The calls to the
    spreadsheet are taken to succeed, so that the method returns [True];
    [apply_row_formatting] changes no cell value. *)
Definition add_expense_to_sheet (now now_prefix now_label : datetime)
           (user_id : Z) (kategori : string) (jumlah : Z) (deskripsi : string)
           (bot : ExpenseBot) : ExpenseBot :=
  let tanggal := strftime_Ymd now in
  let waktu := strftime_HMS now in
  let row_data :=
    [PyStr tanggal; PyStr waktu; PyStr (Py.title py kategori);
     PyStr deskripsi; PyInt jumlah; PyInt user_id; PyStr status_ok] in
  let bot' := {| worksheet := append_row row_data (worksheet bot);
                 summary_worksheet := summary_worksheet bot |} in
  update_monthly_summary now_prefix now_label bot'.

(** [handle_expense], as to the worksheets: an unparseable message
    changes nothing.  The replies to the chat are not part of the
    state. *)
Definition handle_expense (now now_prefix now_label : datetime) (user_id : Z)
           (message_text : string) (bot : ExpenseBot) : ExpenseBot :=
  match parse_expense_message py message_text with
  | Some (kategori, jumlah, deskripsi) =>
      add_expense_to_sheet now now_prefix now_label user_id kategori jumlah
                           deskripsi bot
  | None => bot
  end.

End Bot.

(** ** Floats: true division and fixed-point formatting *)

Definition prec64 : Z := 53.
Definition emax64 : Z := 1024.

(** An integer as the float datum of the same value. *)
Definition float_of_Z (z : Z) : spec_float :=
  match z with
  | Z0 => S754_zero false
  | Zpos p => S754_finite false p 0
  | Zneg p => S754_finite true p 0
  end.

(** [a / b] on two [int]s: the binary64 float nearest to the quotient. *)
Definition py_truediv (a b : Z) : result spec_float :=
  if (b =? 0)%Z then Raise ZeroDivisionError
  else
    match SFdiv prec64 emax64 (float_of_Z a) (float_of_Z b) with
    | S754_infinity _ => Raise OverflowError
    | q => Ok q
    end.

(** [x * n] for a float [x] and a small [int] [n]. *)
Definition py_mul_int (x : spec_float) (n : Z) : spec_float :=
  SFmul prec64 emax64 x (float_of_Z n).

(** [n / d] rounded to the nearest integer, ties to even ([0 <= n], [0 < d]). *)
Definition div_half_even (n d : Z) : Z :=
  let q := (n / d)%Z in
  match (2 * (n mod d) ?= d)%Z with
  | Lt => q
  | Gt => (q + 1)%Z
  | Eq => if Z.even q then q else (q + 1)%Z
  end.

(** The integer nearest to [m * 2^e * 10^digits], ties to even. *)
Definition scaled (digits : nat) (m : positive) (e : Z) : Z :=
  let p := (10 ^ Z.of_nat digits)%Z in
  match e with
  | Zneg k => div_half_even (Zpos m * p) (2 ^ Zpos k)
  | _ => (Zpos m * 2 ^ e * p)%Z
  end.

(** [f"{x:.{digits}f}"], with the [,] option when [comma] is set. *)
Definition format_fixed (comma : bool) (digits : nat) (x : spec_float) : string :=
  let body (n : Z) :=
    let p := (10 ^ Z.of_nat digits)%Z in
    let int_part := str_of_int (n / p) in
    let int_part := if comma then group3 int_part else int_part in
    if Nat.eqb digits 0 then int_part
    else int_part +:+ "." +:+ zfill digits (str_of_int (n mod p)) in
  match x with
  | S754_nan => "nan"
  | S754_infinity s => if s then "-inf" else "inf"
  | S754_zero s => (if s then "-" else "") +:+ body 0%Z
  | S754_finite s m e => (if s then "-" else "") +:+ body (scaled digits m e)
  end.

(** ** The on-demand views *)

(** An insertion-ordered [dict] from category to amount.
    [d[key] = d.get(key, 0) + amount] *)
Fixpoint odict_add (d : list (string * Z)) (key : string) (amount : Z)
  : list (string * Z) :=
  match d with
  | [] => [(key, (0 + amount)%Z)]
  | (k, v) :: rest =>
      if Str.eqb k key then (k, (v + amount)%Z) :: rest
      else (k, v) :: odict_add rest key amount
  end.

Definition odict_get (d : list (string * Z)) (key : string) : option Z :=
  snd <$> List.find (fun kv => Str.eqb (fst kv) key) d.

(** [sorted(items, key=lambda x: x[1], reverse=True)]: descending and
    stable. *)
Fixpoint insert_desc (x : string * Z) (l : list (string * Z))
  : list (string * Z) :=
  match l with
  | [] => [x]
  | y :: l' => if (snd y <? snd x)%Z then x :: l else y :: insert_desc x l'
  end.

Definition sorted_desc (l : list (string * Z)) : list (string * Z) :=
  foldl (fun acc x => insert_desc x acc) [] l.

Definition category_icons : gmap string string :=
  <["kesehatan" := "💊"]>
    (<["hiburan" := "🎮"]>
       (<["belanja" := "🛒"]>
          (<["transport" := "🚗"]> (<["makan" := "🍽️"]> ∅)))).

(** [category_icons.get(cat, '📦')] *)
Definition icon_of (cat : string) : string :=
  default "📦" (category_icons !! cat).

Definition nl : string := Re.newline.

Fixpoint concat_lines (l : list string) : string :=
  match l with
  | [] => ""
  | x :: l' => x +:+ concat_lines l'
  end.

(** [sum(to_int(r.get(H_JUMLAH)) for r in expenses)] *)
Fixpoint sum_amounts (expenses : list record) : result Z :=
  match expenses with
  | [] => Ok 0%Z
  | r :: rest =>
      a <-! to_int (get r H_JUMLAH) ;;
      s <-! sum_amounts rest ;;
      Ok (a + s)%Z
  end.

Section Views.

Variable py : python.

Definition on_day (today : string) (user_id : Z) (r : record) : bool :=
  Str.eqb (py_str py (get_or_empty r H_TANGGAL)) today
  && Str.eqb (py_str py (get_or_empty r H_USER_ID))
             (py_str py (PyInt user_id)).

Definition in_month (current_month : string) (user_id : Z) (r : record) : bool :=
  Str.startswith (py_str py (get_or_empty r H_TANGGAL)) current_month
  && Str.eqb (py_str py (get_or_empty r H_USER_ID))
             (py_str py (PyInt user_id)).

(** The list comprehension of [get_today_summary] (lines 423-426). *)
Definition today_expenses (now : datetime) (user_id : Z) (bot : ExpenseBot)
  : list record :=
  List.filter (on_day (strftime_Ymd now) user_id)
              (get_all_records MAIN_HEADER_ROW (worksheet bot)).

(** The list comprehension of [get_monthly_summary] (lines 471-474). *)
Definition monthly_expenses (now : datetime) (user_id : Z) (bot : ExpenseBot)
  : list record :=
  List.filter (in_month (strftime_Ym now) user_id)
              (get_all_records MAIN_HEADER_ROW (worksheet bot)).

(** The per-category loop of both views (lines 440-444, 495-499). *)
Fixpoint categories_of (d : list (string * Z)) (expenses : list record)
  : result (list (string * Z)) :=
  match expenses with
  | [] => Ok d
  | expense :: rest =>
      let cat := Py.lower py (py_str py (get_or_empty expense H_KATEGORI)) in
      amount <-! to_int (get expense H_JUMLAH) ;;
      categories_of (odict_add d cat amount) rest
  end.


Definition today_line (kv : string * Z) : string :=
  icon_of (fst kv) +:+ " " +:+ Py.title py (fst kv) +:+ ": Rp "
  +:+ format_thousands (snd kv) +:+ nl.

Definition today_text (now : datetime) (expenses : list record)
  : result string :=
  total_today <-! sum_amounts expenses ;;
  let count_today := length expenses in
  cats <-! categories_of [] expenses ;;
  Ok ("📊 *RINGKASAN PENGELUARAN HARI INI*" +:+ nl
      +:+ "📅 Tanggal: " +:+ strftime_dBY now +:+ nl +:+ nl
      +:+ "📝 Jumlah transaksi: " +:+ dec count_today +:+ nl
      +:+ "💰 Total pengeluaran: Rp " +:+ format_thousands total_today
      +:+ nl +:+ nl
      +:+ "*📋 PENGELUARAN PER KATEGORI HARI INI:*" +:+ nl
      +:+ concat_lines (today_line <$> cats)).

(** [get_today_summary] (lines 417-463) *)
Definition get_today_summary (now : datetime) (user_id : Z) (bot : ExpenseBot)
  : string :=
  let expenses := today_expenses now user_id bot in
  match expenses with
  | [] => "📊 Belum ada pengeluaran hari ini."
  | _ =>
      match today_text now expenses with
      | Ok summary => summary
      | Raise _ => "❌ Error mendapatkan ringkasan pengeluaran."
      end
  end.

(** [total_monthly / current_day if current_day > 0 else 0]
    (line 486); the [else] branch is the [int] zero. *)
Definition daily_average (total_monthly : Z) (current_day : nat)
  : result pyval :=
  if (0 <? Z.of_nat current_day)%Z
  then q <-! py_truediv total_monthly (Z.of_nat current_day) ;; Ok (PyFloat q)
  else Ok (PyInt 0).

(** [f"{daily_average:,.0f}"] *)
Definition format_average (v : pyval) : string :=
  match v with
  | PyFloat q => format_fixed true 0 q
  | PyInt z => format_fixed true 0 (binary_normalize prec64 emax64 z 0 false)
  | _ => ""
  end.

(** [(amount / total_monthly * 100) if total_monthly > 0 else 0] *)
Definition percentage (amount total_monthly : Z) : result pyval :=
  if (0 <? total_monthly)%Z
  then q <-! py_truediv amount total_monthly ;; Ok (PyFloat (py_mul_int q 100))
  else Ok (PyInt 0).

Definition format_percentage (v : pyval) : string :=
  match v with
  | PyFloat q => format_fixed false 1 q
  | PyInt z => format_fixed false 1 (binary_normalize prec64 emax64 z 0 false)
  | _ => ""
  end.

Fixpoint monthly_lines (total_monthly : Z) (cats : list (string * Z))
  : result string :=
  match cats with
  | [] => Ok ""
  | (cat, amount) :: rest =>
      p <-! percentage amount total_monthly ;;
      tl <-! monthly_lines total_monthly rest ;;
      Ok (icon_of cat +:+ " " +:+ Py.title py cat +:+ ": Rp "
          +:+ format_thousands amount +:+ " (" +:+ format_percentage p
          +:+ "%)" +:+ nl +:+ tl)
  end.

Definition monthly_text (now : datetime) (expenses : list record)
  : result string :=
  total_monthly <-! sum_amounts expenses ;;
  let count_monthly := length expenses in
  let current_day := day now in
  average <-! daily_average total_monthly current_day ;;
  cats <-! categories_of [] expenses ;;
  lines <-! monthly_lines total_monthly (sorted_desc cats) ;;
  Ok ("📊 *RINGKASAN PENGELUARAN BULAN INI*" +:+ nl
      +:+ "📅 Bulan: " +:+ strftime_BY now +:+ nl +:+ nl
      +:+ "📝 Total transaksi: " +:+ dec count_monthly +:+ nl
      +:+ "💰 Total pengeluaran: Rp " +:+ format_thousands total_monthly +:+ nl
      +:+ "📊 Rata-rata per hari: Rp " +:+ format_average average
      +:+ nl +:+ nl
      +:+ "*📋 PENGELUARAN PER KATEGORI BULAN INI:*" +:+ nl
      +:+ lines).

(** [get_monthly_summary] (lines 465-519) *)
Definition get_monthly_summary (now : datetime) (user_id : Z) (bot : ExpenseBot)
  : string :=
  let expenses := monthly_expenses now user_id bot in
  match expenses with
  | [] => "📊 Belum ada pengeluaran bulan ini."
  | _ =>
      match monthly_text now expenses with
      | Ok summary => summary
      | Raise _ => "❌ Error mendapatkan ringkasan pengeluaran bulanan."
      end
  end.

End Views.

(** * Notions used by the statements, and sample data *)

(** ** Strings *)

Definition starts_with (p : ascii -> bool) (s : string) : bool :=
  match s with
  | String a _ => p a
  | EmptyString => false
  end.

(** The first, and the last, character of a text has the property. *)
Definition first_is (p : string -> bool) (l : list string) : bool :=
  match l with
  | c :: _ => p c
  | [] => false
  end.

Fixpoint last_is (p : string -> bool) (l : list string) : bool :=
  match l with
  | [] => false
  | [c] => p c
  | _ :: l' => last_is p l'
  end.

Definition not_space (c : string) : bool := negb (Str.isspace c).

(** The text [s] begins with [p]. *)
Definition prefix_of (p s : string) : Prop := exists rest, s = p +:+ rest.



(** The bytes of a text, each as a text of its own. *)
Fixpoint singles (s : string) : list string :=
  match s with
  | EmptyString => []
  | String c s' => String c EmptyString :: singles s'
  end.

(** A list of characters as [Str.chars] gives them: the text of each is
    that one character, and all but the first start a character. *)
Definition proper (c : string) : Prop :=
  starts_with Char.is_continuation c = false /\ Str.chars c = [c].

Definition segmented (l : list string) : Prop :=
  match l with
  | [] => True
  | g :: rest => Str.chars g = [g] /\ Forall proper rest
  end.

(** ** The parser against the grammar *)

(** The grammar of an expense line, as the specification words it: a
    category token of one or more word characters, one or more decimal
    digits, and a non-empty description that runs to the end of the line,
    the three separated by runs of whitespace; whitespace around the whole
    line does not count.  The line is taken character by character, and
    the classes are those of [re]. *)
Definition expense_line (py : python) (line token digits description : string)
  : Prop :=
  exists lead sep1 sep2 trail : list string,
    Str.chars line
    = (lead ++ Str.chars token ++ sep1 ++ Str.chars digits ++ sep2
       ++ Str.chars description ++ trail)%list
    /\ forallb Str.isspace lead = true
    /\ forallb Str.isspace trail = true
    /\ token <> "" /\ forallb (Py.is_word py) (Str.chars token) = true
    /\ sep1 <> [] /\ forallb Str.isspace sep1 = true
    /\ digits <> "" /\ forallb (Py.is_digit py) (Str.chars digits) = true
    /\ sep2 <> [] /\ forallb Str.isspace sep2 = true
    /\ first_is not_space (Str.chars description) = true
    /\ last_is not_space (Str.chars description) = true
    /\ forallb Re.is_dot (Str.chars description) = true.

(** The number a run of decimal digits denotes. *)
Definition decimal_chars (py : python) (acc : Z) (digits : list string) : Z :=
  foldl (fun acc c => (acc * 10 + default 0 (Py.digit py c))%Z) acc digits.

Definition decimal_of (py : python) (digits : string) : Z :=
  decimal_chars py 0 (Str.chars digits).

(** The text of [n] digits 1. *)
Definition ones (n : nat) : string := string_of_list_ascii (replicate n "1"%char).

(** The same for a text of ASCII digits. *)
Fixpoint decimal_from (acc : Z) (digits : string) : Z :=
  match digits with
  | EmptyString => acc
  | String c rest => decimal_from (acc * 10 + (Z.of_N (N_of_ascii c) - 48)) rest
  end.

Definition decimal (digits : string) : Z := decimal_from 0 digits.

(** ** The monthly aggregation *)

(** The six-key dictionary with the given totals. *)
Definition six (a b c d e f : Z) : gmap string Z :=
  <["lainnya" := f]>
    (<["kesehatan" := e]>
       (<["hiburan" := d]>
          (<["belanja" := c]> (<["transport" := b]> (<["makan" := a]> ∅))))).

(** What a record adds to the month and to which bucket; [None] when the
    record is passed over. *)
Definition contribution (py : python) (month : string)
           (r : record) : option (string * Z) :=
  let raw_date := get r H_TANGGAL in
  if truthy raw_date && Str.startswith (py_str py raw_date) month then
    match to_int (get r H_JUMLAH) with
    | Ok amount =>
        Some (bucket (Py.lower py (py_str py (get_or_empty r H_KATEGORI))),
              amount)
    | Raise _ => None
    end
  else None.

Definition amount_in (py : python) (month c : string)
           (r : record) : Z :=
  match contribution py month r with
  | Some (b, a) => if bool_decide (b = c) then a else 0%Z
  | None => 0%Z
  end.

Definition bucket_sum (py : python) (month c : string)
           (records : list record) : Z :=
  foldr (fun r acc => (amount_in py month c r + acc)%Z) 0%Z records.

(** The keys of the dictionary are the six categories. *)
Definition six_keys (d : gmap string Z) : Prop :=
  forall k, is_Some (d !! k) <-> k ∈ categories.

Definition value (d : gmap string Z) (k : string) : Z := default 0%Z (d !! k).

(** ** A sample ledger *)

(** An interpreter whose database is empty beyond ASCII: no such
    character is alphanumeric or a digit, the case mappings leave a text
    that holds one as it is, and a float prints as the empty text. *)
Definition py0 : python.
Proof.
  refine {| float_repr := fun _ => "";
            unicode_alnum := fun _ => false;
            unicode_decimal := fun _ => None;
            unicode_lower := fun s => s;
            unicode_title := fun s => s |}.
  - discriminate.
  - discriminate.
  - discriminate.
  - intros s H. unfold case_mapping. by rewrite H.
  - intros s H. unfold case_mapping. by rewrite H.
Defined.

(** A database that knows two characters beyond ASCII, the letter é and
    the Arabic-Indic digit three; its case mappings leave a text that
    holds a character beyond ASCII as it is. *)
Definition py1 : python.
Proof.
  refine {| float_repr := fun _ => "";
            unicode_alnum :=
              fun c => bool_decide (c = "é") || bool_decide (c = "٣");
            unicode_decimal :=
              fun c => if bool_decide (c = "٣") then Some 3%Z else None;
            unicode_lower := fun s => s;
            unicode_title := fun s => s |}.
  - intros c [H|H]%orb_prop; apply bool_decide_eq_true in H; by subst.
  - intros c v. case_bool_decide; [by subst | done].
  - intros c v. case_bool_decide; [intros [= <-]; lia | done].
  - intros s H. unfold case_mapping. by rewrite H.
  - intros s H. unfold case_mapping. by rewrite H.
Defined.

Definition now0 : datetime :=
  {| year := 2025; month := 8; day := 3; hour := 9; minute := 5; second := 7 |}.

Definition sample_row (tanggal kategori : string) (jumlah : pyval) (user : Z)
  : row :=
  [PyStr tanggal; PyStr "09:05:07"; PyStr kategori; PyStr "-"; jumlah;
   PyInt user; PyStr status_ok].

Definition sample_main : grid :=
  [PyStr <$> main_headers;
   sample_row "2025-08-01" "Makan" (PyInt 25000) 42;
   sample_row "2025-08-03" "Transport" (PyStr "Rp 10.000") 42;
   sample_row "2025-07-31" "Makan" (PyInt 7000) 42;
   sample_row "03/08/2025" "Makan" (PyInt 9000) 42;
   sample_row "2025-08-03" "Hobi" (PyInt 5000) 7].

Definition sample_records : list record :=
  get_all_records MAIN_HEADER_ROW sample_main.

(** Equality of two closed dictionaries, decided by evaluation. *)
Ltac decide_eq :=
  match goal with
  | |- ?P => apply (@bool_decide_unpack P _)
  end; vm_compute; exact I.

(** ** Adding an expense *)

Definition main_layout (bot : ExpenseBot) : Prop :=
  worksheet bot !! 0 = Some (PyStr <$> main_headers).

(** The row that [add_expense_to_sheet] appends, and the record read back
    from it. *)
Definition expense_row (py : python) (now : datetime) (user_id : Z)
           (kategori : string) (jumlah : Z) (deskripsi : string) : row :=
  [PyStr (strftime_Ymd now); PyStr (strftime_HMS now);
   PyStr (Py.title py kategori); PyStr deskripsi; PyInt jumlah; PyInt user_id;
   PyStr status_ok].

Definition expense_record (py : python) (now : datetime) (user_id : Z)
           (kategori : string) (jumlah : Z) (deskripsi : string) : record :=
  record_of (PyStr <$> main_headers)
            (expense_row py now user_id kategori jumlah deskripsi).

(** A bot whose two worksheets hold their header rows only. *)
Definition bot0 : ExpenseBot :=
  {| worksheet := [PyStr <$> main_headers];
     summary_worksheet := [[PyStr "📊 RINGKASAN PENGELUARAN BULANAN 📊"]; [];
                    PyStr <$> summary_headers] |}.

(** ** Tokens of digits and underscores *)

Definition digit_or_underscore (c : ascii) : bool :=
  Char.is_digit c || (Char.code c =? 95)%N.

(** ** The amount normalizer *)

Definition no_digit (c : ascii) : bool := negb (Char.is_digit c).

Definition non_finite (v : pyval) : bool :=
  match v with
  | PyFloat (S754_infinity _) | PyFloat S754_nan => true
  | _ => false
  end.

Definition inf_sheet : grid :=
  [PyStr <$> main_headers;
   sample_row "2025-08-03" "Makan" (PyFloat (S754_infinity false)) 42].

(** ** The summary upsert *)

(** The header row of the summary worksheet, as
    [setup_summary_worksheet_format] writes it. *)
Definition summary_layout (ws : grid) : Prop :=
  ws !! 2 = Some (PyStr <$> summary_headers).

(** The period label of a row is its first cell. *)
Definition label_of (r : row) : pyval := default empty_cell (r !! 0).

Definition has_label (name : string) (r : row) : bool :=
  eq_str (Some (label_of r)) name.

(** The rows below the header. *)
Definition data_rows (ws : grid) : list row := drop SUMMARY_HEADER_ROW ws.

(** How many rows carry the period label [name]. *)
Definition count_label (name : string) (ws : grid) : nat :=
  length (List.filter (has_label name) (data_rows ws)).

(** Index, among the data rows, of the first row with the label. *)
Fixpoint first_index (name : string) (rows : list row) : option nat :=
  match rows with
  | [] => None
  | r :: rest => if has_label name r then Some 0 else S <$> first_index name rest
  end.

(** A row after its leading cells were overwritten with [row_data]. *)
Definition overwrite (row_data old : row) : row :=
  (row_data ++ drop (length row_data) old)%list.

(** [update_cell] applied from column [col] on, on one row. *)
Fixpoint write (col : nat) (row_data old : row) : row :=
  match row_data with
  | [] => old
  | value :: rest => write (S col) rest (set_cell col value old)
  end.

Definition august_row (makan total : Z) : row :=
  [PyStr "August 2025"; PyInt makan; PyInt 0; PyInt 0; PyInt 0; PyInt 0;
   PyInt 0; PyInt total].

Definition summary_with_duplicates : grid :=
  [[PyStr "📊 RINGKASAN PENGELUARAN BULANAN 📊"]; [];
   PyStr <$> summary_headers;
   august_row 100 100;
   [PyStr "July 2025"; PyInt 5; PyInt 0; PyInt 0; PyInt 0; PyInt 0; PyInt 0;
    PyInt 5];
   august_row 200 200].

(** ** True division and the daily average *)

Definition ledger_60000 : grid :=
  [PyStr <$> main_headers;
   sample_row "2025-08-01" "Makan" (PyInt 25000) 42;
   sample_row "2025-08-02" "Makan" (PyInt 25000) 42;
   sample_row "2025-08-03" "Transport" (PyInt 10000) 42].

From Stdlib Require Import DecimalPos.
From stdpp Require Import sorting.

(** * The handlers, and notions used by further statements *)

(** ** The command handler *)

(** [summary] (lines 555-566): the text that replaces the loading
    message. *)
Definition summary (py : python) (now : datetime)
           (user_id : Z) (bot : ExpenseBot) : string :=
  let daily_summary := get_today_summary py now user_id bot in
  let monthly_summary := get_monthly_summary py now user_id bot in
  daily_summary +:+ nl +:+ nl +:+ repeat_char "=" 40 +:+ nl +:+ nl
  +:+ monthly_summary.

(** ** A run of messages *)

(** A text message as the dispatcher hands it to [handle_expense]: the
    sender, the text, and the three readings of the clock while it is
    handled: for the row, for the month prefix and for the period
    label. *)
Record update := {
  update_time : datetime;
  update_prefix_time : datetime;
  update_label_time : datetime;
  update_user : Z;
  update_text : string
}.

(** One text message handled. *)
Definition handle_update (py : python) (u : update) (bot : ExpenseBot)
  : ExpenseBot :=
  handle_expense py (update_time u) (update_prefix_time u)
                 (update_label_time u) (update_user u) (update_text u) bot.

(** The text messages of a run, handled one after the other. *)
Definition handle_all (py : python)
           (updates : list update) (bot : ExpenseBot) : ExpenseBot :=
  foldl (fun b u => handle_update py u b) bot updates.

(** The ledger row a message leaves, if it parses. *)
Definition row_of (py : python) (u : update) : option row :=
  match parse_expense_message py (update_text u) with
  | Some (kategori, jumlah, deskripsi) =>
      Some (expense_row py (update_time u) (update_user u) kategori jumlah
                        deskripsi)
  | None => None
  end.

(** A message handled within one reading of the clock. *)
Definition update_at (now : datetime) (user_id : Z) (text : string) : update :=
  {| update_time := now; update_prefix_time := now; update_label_time := now;
     update_user := user_id; update_text := text |}.

Definition update_aug : update := update_at now0 42 "makan 25000 nasi goreng".

Definition update_bad : update := update_at now0 42 "makan nasi".

Definition now_sep : datetime :=
  {| year := 2025; month := 9; day := 1; hour := 8; minute := 0; second := 0 |}.

Definition update_sep : update := update_at now_sep 7 "Hobi 5000 senar gitar".

(** A message handled across the end of a month: the row is written in
    the last second of August, and the clock reads September when the
    summary is updated. *)
Definition now_last : datetime :=
  {| year := 2025; month := 8; day := 31; hour := 23; minute := 59;
     second := 59 |}.

Definition update_across : update :=
  {| update_time := now_last; update_prefix_time := now_sep;
     update_label_time := now_sep; update_user := 42;
     update_text := "transport 7000 ojek" |}.

(** ** Totals of the ledger and rows of the summary *)

(** What a record adds to the total of the month. *)
Definition amount_of (py : python) (month : string)
           (r : record) : Z :=
  match contribution py month r with
  | Some (_, a) => a
  | None => 0%Z
  end.

Definition ledger_total (py : python) (month : string)
           (records : list record) : Z :=
  foldr (fun r acc => (amount_of py month r + acc)%Z) 0%Z records.

(** The summary row of an aggregate. *)
Definition summary_row (name : string) (d : gmap string Z) : row :=
  [PyStr name; PyInt (value d "makan"); PyInt (value d "transport");
   PyInt (value d "belanja"); PyInt (value d "hiburan");
   PyInt (value d "kesehatan"); PyInt (value d "lainnya");
   PyInt (sum_values d)].

(** No period label is on two rows. *)
Definition one_row_per_label (ws : grid) : Prop :=
  forall l, count_label l ws <= 1.

(** ** Dates *)

Definition same_month (a b : datetime) : bool :=
  bool_decide (year a = year b /\ month a = month b).

Definition same_day (a b : datetime) : bool :=
  bool_decide (year a = year b /\ month a = month b /\ day a = day b).

Definition now_other_day : datetime :=
  {| year := 2025; month := 8; day := 4; hour := 7; minute := 30; second := 0 |}.

(** A month of the calendar. *)
Definition valid_month (t : datetime) : Prop := 1 <= month t <= 12.

(** The three readings of the clock of a message fall in one month. *)
Definition one_month (u : update) : Prop :=
  same_month (update_time u) (update_prefix_time u) = true
  /\ same_month (update_time u) (update_label_time u) = true.

(** The summary row of the month of [t] holds the aggregate of the
    ledger for that month. *)
Definition up_to_date (py : python) (t : datetime)
           (bot : ExpenseBot) : Prop :=
  exists j r,
    first_index (strftime_BY t) (data_rows (summary_worksheet bot)) = Some j
    /\ data_rows (summary_worksheet bot) !! j = Some r
    /\ take 8 r
       = summary_row (strftime_BY t)
           (aggregate_month py (strftime_Ym t)
              (get_all_records MAIN_HEADER_ROW (worksheet bot))).

(** ** The per-category dictionary and its order *)

(** The sum of the amounts of a per-category dictionary. *)
Definition odict_sum (d : list (string * Z)) : Z :=
  foldr (fun kv acc => (snd kv + acc)%Z) 0%Z d.

(** The key under which the views put a record. *)
Definition category_of (py : python) (r : record)
  : string :=
  Py.lower py (py_str py (get_or_empty r H_KATEGORI)).

(** What a record adds under the key [k]. *)
Definition amount_under (py : python) (k : string)
           (r : record) : Z :=
  if bool_decide (category_of py r = k)
  then match to_int (get r H_JUMLAH) with
       | Ok a => a
       | Raise _ => 0%Z
       end
  else 0%Z.

Definition sum_under (py : python) (k : string)
           (expenses : list record) : Z :=
  foldr (fun r acc => (amount_under py k r + acc)%Z) 0%Z expenses.

(** An item is listed before another when its amount is not smaller. *)
Definition amount_ge (x y : string * Z) : Prop := (snd y <= snd x)%Z.

Definition has_amount (v : Z) (x : string * Z) : bool := (snd x =? v)%Z.

(** * Properties *)

(** ** Sanity checks of the embedding *)

Example to_int_rp : to_int (PyStr "Rp 25.000") = Ok 25000%Z.
Proof. reflexivity. Qed.

Example to_int_neg : to_int (PyStr " -1,250 ") = Ok (-1250)%Z.
Proof. reflexivity. Qed.

Example to_int_date : to_int (PyStr "2025-08-01") = Ok 0%Z.
Proof. reflexivity. Qed.

Example to_int_float :
  to_int (PyFloat (S754_finite true 5 (-1))) = Ok (-2)%Z.
Proof. reflexivity. Qed.

Example utf8_e_acute : Char.utf8 233 = "é".
Proof. reflexivity. Qed.

Example chars_cafe : Str.chars "café 1" = ["c"; "a"; "f"; "é"; " "; "1"].
Proof. reflexivity. Qed.

Example strip_no_break_space :
  Str.strip (Char.utf8 160 +:+ "makan 100 nasi" +:+ Char.utf8 8195)
  = "makan 100 nasi".
Proof. reflexivity. Qed.

Example parse_makan :
  parse_expense_message py0 "makan 25000 nasi goreng"
  = Some ("makan", 25000%Z, "nasi goreng").
Proof. reflexivity. Qed.

Example parse_mixed_case :
  parse_expense_message py0 "  MaKan   007   Nasi   Goreng  "
  = Some ("makan", 7%Z, "Nasi   Goreng").
Proof. reflexivity. Qed.

Example parse_no_description : parse_expense_message py0 "makan 25000" = None.
Proof. reflexivity. Qed.

Example parse_amount_first :
  parse_expense_message py0 "25000 makan nasi" = None.
Proof. reflexivity. Qed.

Example parse_decimal_amount :
  parse_expense_message py0 "makan 12.5 nasi" = None.
Proof. reflexivity. Qed.

(** ** Strings *)

#[local] Arguments String.append !_ _ / : simpl nomatch.

Lemma append_nil_r (s : string) : s +:+ "" = s.
Proof. induction s as [|a s IH]; [done | simpl; by f_equal]. Qed.

Lemma append_assoc (a b c : string) : (a +:+ b) +:+ c = a +:+ b +:+ c.
Proof. induction a as [|x a IH]; [done | simpl; by f_equal]. Qed.

Lemma length_append (a b : string) :
  String.length (a +:+ b) = String.length a + String.length b.
Proof. induction a as [|x a IH]; [done | simpl; by f_equal]. Qed.

Lemma all_append p (a b : string) :
  Str.all p (a +:+ b) = Str.all p a && Str.all p b.
Proof.
  induction a as [|x a IH]; [done |].
  cbn [Str.all String.append]. rewrite IH. by destruct (p x).
Qed.

Lemma filter_append (q : ascii -> bool) (a b : string) :
  Str.filter q (a +:+ b) = Str.filter q a +:+ Str.filter q b.
Proof.
  induction a as [|c a IH]; simpl; [done |].
  destruct (q c); simpl; by rewrite IH.
Qed.

(** ** Characters of a text *)

Lemma text_app (a b : list string) :
  Str.text (a ++ b) = Str.text a +:+ Str.text b.
Proof.
  induction a as [|c a IH]; [done |].
  cbn [app Str.text foldr]. fold (Str.text (a ++ b)). fold (Str.text a).
  by rewrite IH, append_assoc.
Qed.

Lemma text_cons (c : string) (l : list string) :
  Str.text (c :: l) = c +:+ Str.text l.
Proof. done. Qed.

Lemma chars_cons (c : ascii) (s : string) :
  Str.chars (String c s)
  = match s with
    | String d _ =>
        if Char.is_continuation d then
          match Str.chars s with
          | g :: rest => String c g :: rest
          | [] => [String c ""]
          end
        else String c "" :: Str.chars s
    | EmptyString => [String c ""]
    end.
Proof. done. Qed.

Lemma chars_nonempty (s : string) : s <> "" -> Str.chars s <> [].
Proof.
  destruct s as [|c s]; [done |]. intros _. rewrite chars_cons.
  destruct s as [|d s]; [done |].
  destruct (Char.is_continuation d); [|done].
  by destruct (Str.chars _).
Qed.

Lemma chars_nil (s : string) : Str.chars s = [] -> s = "".
Proof.
  intros H. destruct s as [|c s]; [done |].
  by destruct (chars_nonempty (String c s)).
Qed.

Lemma text_chars (s : string) : Str.text (Str.chars s) = s.
Proof.
  induction s as [|c s IH]; [done |]. rewrite chars_cons.
  destruct s as [|d s]; [done |].
  destruct (Char.is_continuation d).
  - destruct (Str.chars (String d s)) as [|g rest] eqn:E.
    + by apply chars_nil in E.
    + rewrite text_cons in *. simpl. by rewrite IH.
  - rewrite text_cons, IH. done.
Qed.

(** Texts put end to end: the characters are those of the first followed
    by those of the second, provided the second starts a character. *)
Lemma chars_app (a b : string) :
  starts_with Char.is_continuation b = false ->
  Str.chars (a +:+ b) = (Str.chars a ++ Str.chars b)%list.
Proof.
  intros Hb. induction a as [|c a IH]; [done |].
  cbn [String.append]. rewrite !chars_cons, IH.
  destruct a as [|d a].
  - cbn [String.append Str.chars app]. destruct b as [|d b]; [done |].
    simpl in Hb. by rewrite Hb.
  - cbn [String.append]. destruct (Char.is_continuation d); [|done].
    destruct (Str.chars (String d a)) as [|g rest] eqn:E; [|done].
    by apply chars_nil in E.
Qed.

Lemma chars_single (c : ascii) : Str.chars (String c "") = [String c ""].
Proof. done. Qed.

Lemma chars_head_continuation (s : string) (g : string) (rest : list string) :
  Str.chars s = g :: rest ->
  starts_with Char.is_continuation g = starts_with Char.is_continuation s.
Proof.
  destruct s as [|c s]; [done |]. rewrite chars_cons.
  destruct s as [|d s]; [by intros [= <- _] |].
  destruct (Char.is_continuation d).
  - destruct (Str.chars _); by intros [= <- _].
  - by intros [= <- _].
Qed.

(** What [Str.chars] gives is segmented. *)
Lemma chars_segmented (s : string) : segmented (Str.chars s).
Proof.
  induction s as [|c s IH]; [done |]. rewrite chars_cons.
  destruct s as [|d s]; [by split |].
  destruct (Char.is_continuation d) eqn:Hd.
  - destruct (Str.chars (String d s)) as [|g rest] eqn:E; [by split |].
    destruct IH as [Hg Hrest]. split; [|done].
    rewrite chars_cons.
    assert (starts_with Char.is_continuation g = true) as Hs
        by (by rewrite (chars_head_continuation _ _ _ E)).
    destruct g as [|e g]; [done |]. simpl in Hs. rewrite Hs, Hg. done.
  - split; [done |].
    destruct (Str.chars (String d s)) as [|g rest] eqn:E; [done |].
    destruct IH as [Hg Hrest]. constructor; [|done].
    split; [|done]. by rewrite (chars_head_continuation _ _ _ E).
Qed.

Lemma proper_nonempty (c : string) : proper c -> c <> "".
Proof. by intros [_ H] ->. Qed.

Lemma text_starts (l : list string) :
  Forall proper l -> starts_with Char.is_continuation (Str.text l) = false.
Proof.
  destruct 1 as [|c l [Hc H1] Hl]; [done |].
  rewrite text_cons. destruct c as [|a c]; [done |]. done.
Qed.

Lemma chars_text_proper (l : list string) :
  Forall proper l -> Str.chars (Str.text l) = l.
Proof.
  induction 1 as [|c l [Hc H1] Hl IH]; [done |].
  rewrite text_cons, chars_app by (by apply text_starts).
  by rewrite H1, IH.
Qed.

Lemma chars_text (l : list string) :
  segmented l -> Str.chars (Str.text l) = l.
Proof.
  destruct l as [|g rest]; [done |]. intros [Hg Hrest].
  rewrite text_cons, chars_app by (by apply text_starts).
  by rewrite Hg, chars_text_proper.
Qed.

Lemma segmented_proper (l : list string) : Forall proper l -> segmented l.
Proof. destruct 1 as [|c l [_ Hc] Hl]; [done | by split]. Qed.

Lemma segmented_app (a b : list string) :
  segmented (a ++ b) -> segmented a /\ segmented b.
Proof.
  destruct a as [|g a]; [by split |]. simpl. intros [Hg H].
  apply Forall_app in H as [Ha Hb]. split; [done |].
  by apply segmented_proper.
Qed.

(** A text without continuation bytes: one character per byte. *)
Lemma chars_singles (s : string) :
  Str.all (fun c => negb (Char.is_continuation c)) s = true ->
  Str.chars s = singles s.
Proof.
  induction s as [|c s IH]; [done |]. cbn [Str.all].
  intros [_ Hs]%andb_prop. rewrite chars_cons, (IH Hs).
  destruct s as [|d s]; [done |]. simpl in Hs.
  apply andb_prop in Hs as [Hd%negb_true_iff _]. by rewrite Hd.
Qed.

Lemma ascii_not_continuation (c : ascii) :
  Char.is_ascii c = true -> negb (Char.is_continuation c) = true.
Proof. destruct c as [[] [] [] [] [] [] [] []]; by vm_compute. Qed.

Lemma all_impl (p q : ascii -> bool) (s : string) :
  (forall c, p c = true -> q c = true) ->
  Str.all p s = true -> Str.all q s = true.
Proof.
  intros Hpq. induction s as [|c s IH]; simpl; [done |].
  intros [Hc Hs]%andb_prop. by rewrite (Hpq _ Hc), IH.
Qed.

Lemma chars_ascii (s : string) :
  Str.is_ascii s = true -> Str.chars s = singles s.
Proof.
  intros H. apply chars_singles.
  eapply all_impl; [apply ascii_not_continuation | exact H].
Qed.

(** ** Whitespace at the ends *)

Lemma lstrip_chars_spaces (lead l : list string) :
  forallb Str.isspace lead = true ->
  Str.lstrip_chars (lead ++ l) = Str.lstrip_chars l.
Proof.
  induction lead as [|x lead IH]; simpl; [done |].
  intros [Hx Hl]%andb_prop. rewrite Hx. auto.
Qed.

Lemma lstrip_chars_nonspace (l : list string) :
  first_is not_space l = true -> Str.lstrip_chars l = l.
Proof.
  destruct l as [|a l]; simpl; [done |].
  unfold not_space. by destruct (Str.isspace a).
Qed.

Lemma rstrip_chars_spaces (trail : list string) :
  forallb Str.isspace trail = true -> Str.rstrip_chars trail = [].
Proof.
  induction trail as [|x trail IH]; simpl; [done |].
  intros [Hx Hl]%andb_prop. by rewrite IH, Hx.
Qed.

Lemma rstrip_chars_cons (c : string) (l : list string) :
  Str.rstrip_chars (c :: l)
  = match Str.rstrip_chars l with
    | [] => if Str.isspace c then [] else [c]
    | r => c :: r
    end.
Proof. done. Qed.

Lemma rstrip_chars_nonspace (s trail : list string) :
  last_is not_space s = true ->
  forallb Str.isspace trail = true ->
  Str.rstrip_chars (s ++ trail) = s.
Proof.
  intros Hs Ht. induction s as [|a s IH]; [done |].
  change ((a :: s) ++ trail)%list with (a :: (s ++ trail))%list.
  rewrite rstrip_chars_cons. destruct s as [|b s].
  - simpl in *. rewrite (rstrip_chars_spaces _ Ht).
    unfold not_space in Hs. by destruct (Str.isspace a).
  - by rewrite (IH Hs).
Qed.

Lemma strip_chars_core (lead core trail : list string) :
  forallb Str.isspace lead = true ->
  forallb Str.isspace trail = true ->
  first_is not_space core = true ->
  last_is not_space core = true ->
  Str.strip_chars (lead ++ core ++ trail) = core.
Proof.
  intros Hl Ht Hs He. unfold Str.strip_chars.
  rewrite (lstrip_chars_spaces _ _ Hl).
  rewrite lstrip_chars_nonspace by (by destruct core).
  by apply rstrip_chars_nonspace.
Qed.

Lemma lstrip_chars_split (l : list string) :
  exists lead, l = (lead ++ Str.lstrip_chars l)%list
               /\ forallb Str.isspace lead = true
               /\ first_is Str.isspace (Str.lstrip_chars l) = false.
Proof.
  induction l as [|a l (lead & E & Hl & Hs)]; simpl.
  - by exists [].
  - destruct (Str.isspace a) eqn:Ha.
    + exists (a :: lead). simpl. rewrite Ha. split; [by f_equal | done].
    + exists []. simpl. by rewrite Ha.
Qed.

Lemma rstrip_chars_split (l : list string) :
  exists trail, l = (Str.rstrip_chars l ++ trail)%list
                /\ forallb Str.isspace trail = true
                /\ (Str.rstrip_chars l = []
                    \/ last_is not_space (Str.rstrip_chars l) = true).
Proof.
  induction l as [|a l (trail & E & Ht & Hs)]; simpl.
  - exists []. auto.
  - destruct (Str.rstrip_chars l) as [|b r] eqn:Er.
    + destruct (Str.isspace a) eqn:Ha.
      * exists (a :: trail). simpl. rewrite Ha. simpl in E.
        split; [by f_equal | auto].
      * exists trail. simpl in E. split; [by rewrite E at 1 | split; [done |]].
        right. simpl. unfold not_space. by rewrite Ha.
    + exists trail. split; [by rewrite E at 1 | split; [done |]].
      right. destruct Hs as [|Hs]; [done |]. exact Hs.
Qed.

(** What [strip] leaves starts and ends with a character that is not
    whitespace, and what it drops is whitespace. *)
Lemma strip_chars_split (l : list string) :
  exists lead trail,
    l = (lead ++ Str.strip_chars l ++ trail)%list
    /\ forallb Str.isspace lead = true
    /\ forallb Str.isspace trail = true
    /\ (Str.strip_chars l = []
        \/ (first_is not_space (Str.strip_chars l) = true
            /\ last_is not_space (Str.strip_chars l) = true)).
Proof.
  destruct (lstrip_chars_split l) as (lead & E1 & Hl & Hs).
  destruct (rstrip_chars_split (Str.lstrip_chars l)) as (trail & E2 & Ht & He).
  exists lead, trail. unfold Str.strip_chars.
  split; [|split; [done | split; [done |]]].
  - by rewrite <- E2.
  - destruct He as [He | He]; [by left | right]. split; [|done].
    destruct (Str.lstrip_chars l) as [|a l'] eqn:El; [done |].
    simpl in Hs.
    assert (Str.rstrip_chars (a :: l') = a :: tl (Str.rstrip_chars (a :: l')))
      as ->.
    { simpl. destruct (Str.rstrip_chars l'); [|done].
      rewrite Hs. done. }
    simpl. unfold not_space. by rewrite Hs.
Qed.

Lemma strip_chars_segmented (l : list string) :
  segmented l -> segmented (Str.strip_chars l).
Proof.
  intros H. destruct (strip_chars_split l) as (lead & trail & E & _).
  rewrite E in H. apply segmented_app in H as [_ H].
  by apply segmented_app in H as [H _].
Qed.

(** The characters of a stripped text. *)
Lemma chars_strip (s : string) :
  Str.chars (Str.strip s) = Str.strip_chars (Str.chars s).
Proof.
  unfold Str.strip. apply chars_text, strip_chars_segmented, chars_segmented.
Qed.

Lemma strip_split (s : string) :
  exists lead trail,
    s = Str.text lead +:+ Str.strip s +:+ Str.text trail
    /\ forallb Str.isspace lead = true
    /\ forallb Str.isspace trail = true.
Proof.
  destruct (strip_chars_split (Str.chars s)) as (lead & trail & E & Hl & Ht & _).
  exists lead, trail. split; [|done].
  rewrite <- (text_chars s) at 1. rewrite E at 1.
  by rewrite !text_app.
Qed.

(** ** The matcher *)

Section MatcherFacts.
Variable py : python.
Context {R : Type}.
Implicit Types (k : nat -> list string -> option R) (s run rest : list string).

Lemma first_is_app (p : string -> bool) (a b : list string) :
  a <> [] -> first_is p (a ++ b) = first_is p a.
Proof. by destruct a. Qed.

Lemma last_is_app (p : string -> bool) (a b : list string) :
  b <> [] -> last_is p (a ++ b) = last_is p b.
Proof.
  intros Hb. induction a as [|x a IH]; [done |].
  change ((x :: a) ++ b)%list with (x :: (a ++ b))%list.
  cbn [last_is]. destruct (a ++ b)%list eqn:E; [|done].
  by apply app_eq_nil in E as [_ ->].
Qed.

(** A maximal run accepted by the continuation is the one the greedy
    loop returns. *)
Lemma star_greedy c run rest pos k r :
  forallb (Re.cls_ok py c) run = true ->
  first_is (Re.cls_ok py c) rest = false ->
  k (pos + length run) rest = Some r ->
  Re.star py c pos (run ++ rest) k = Some r.
Proof.
  revert pos. induction run as [|a run IH]; intros pos Hall Hrest Hk.
  - simpl in *. rewrite Nat.add_0_r in Hk.
    destruct rest as [|b rest]; simpl in *; [done |]. by rewrite Hrest.
  - simpl in *. apply andb_prop in Hall as [Ha Hall]. rewrite Ha.
    rewrite (IH (S pos)); [done | done | done |].
    by rewrite <- Hk, Nat.add_succ_r.
Qed.

Lemma plus_greedy c run rest pos k r :
  run <> [] ->
  forallb (Re.cls_ok py c) run = true ->
  first_is (Re.cls_ok py c) rest = false ->
  k (pos + length run) rest = Some r ->
  Re.plus py c pos (run ++ rest) k = Some r.
Proof.
  destruct run as [|a run]; [done |]. intros _ Hall Hrest Hk.
  simpl in *. apply andb_prop in Hall as [Ha Hall]. rewrite Ha.
  apply star_greedy; [done | done |].
  by rewrite <- Hk, Nat.add_succ_r.
Qed.

(** Whatever the loop returns comes from the continuation after some
    run of the class. *)
Lemma star_inv c s pos k r :
  Re.star py c pos s k = Some r ->
  exists run rest,
    s = (run ++ rest)%list
    /\ forallb (Re.cls_ok py c) run = true
    /\ k (pos + length run) rest = Some r.
Proof.
  revert pos. induction s as [|a s IH]; intros pos H; simpl in H.
  - exists [], []. by rewrite Nat.add_0_r.
  - destruct (Re.cls_ok py c a) eqn:Ha.
    + destruct (Re.star py c (S pos) s k) eqn:E.
      * injection H as ->. apply IH in E as (run & rest & -> & Hall & Hk).
        exists (a :: run), rest. simpl. rewrite Ha, Hall.
        by rewrite Nat.add_succ_r.
      * exists [], (a :: s). by rewrite Nat.add_0_r.
    + exists [], (a :: s). by rewrite Nat.add_0_r.
Qed.

Lemma plus_inv c s pos k r :
  Re.plus py c pos s k = Some r ->
  exists run rest,
    s = (run ++ rest)%list
    /\ run <> []
    /\ forallb (Re.cls_ok py c) run = true
    /\ k (pos + length run) rest = Some r.
Proof.
  destruct s as [|a s]; simpl; [done |].
  destruct (Re.cls_ok py c a) eqn:Ha; [|done].
  intros (run & rest & -> & Hall & Hk)%star_inv.
  exists (a :: run), rest. simpl. rewrite Ha, Hall.
  by rewrite Nat.add_succ_r.
Qed.

End MatcherFacts.

(** ** Character classes *)

Lemma char_word_not_space c : Char.is_word c = true -> Char.is_space c = false.
Proof. destruct c as [[] [] [] [] [] [] [] []]; by vm_compute. Qed.

Lemma char_digit_not_space c : Char.is_digit c = true -> Char.is_space c = false.
Proof. destruct c as [[] [] [] [] [] [] [] []]; by vm_compute. Qed.

Section Classes.
Variable py : python.

Lemma word_not_space c : Py.is_word py c = true -> Str.isspace c = false.
Proof.
  destruct c as [|a [|b c]]; simpl.
  - apply unicode_alnum_not_space.
  - apply char_word_not_space.
  - apply unicode_alnum_not_space.
Qed.

Lemma digit_Some_not_space c v : Py.digit py c = Some v -> Str.isspace c = false.
Proof.
  destruct c as [|a [|b c]]; simpl.
  - apply unicode_decimal_not_space.
  - destruct (Char.is_digit a) eqn:E; [|done]. intros _.
    by apply char_digit_not_space.
  - apply unicode_decimal_not_space.
Qed.

Lemma is_digit_Some c : Py.is_digit py c = true <-> is_Some (Py.digit py c).
Proof. unfold Py.is_digit. apply bool_decide_eq_true. Qed.

Lemma digit_not_space c : Py.is_digit py c = true -> Str.isspace c = false.
Proof. intros [v Hv]%is_digit_Some. by eapply digit_Some_not_space. Qed.

Lemma space_not_digit c : Str.isspace c = true -> Py.is_digit py c = false.
Proof.
  intros H. destruct (Py.is_digit py c) eqn:E; [|done].
  apply digit_not_space in E. congruence.
Qed.

Lemma space_not_word c : Str.isspace c = true -> Py.is_word py c = false.
Proof.
  intros H. destruct (Py.is_word py c) eqn:E; [|done].
  apply word_not_space in E. congruence.
Qed.

Lemma digit_range c v : Py.digit py c = Some v -> (0 <= v <= 9)%Z.
Proof.
  destruct c as [|a [|b c]]; simpl.
  - apply unicode_decimal_range.
  - destruct (Char.is_digit a) eqn:E; [|done]. intros [= <-].
    clear -E. destruct a as [[] [] [] [] [] [] [] []]; by vm_compute in E |- *.
  - apply unicode_decimal_range.
Qed.

Lemma digit_not_sign c :
  Py.is_digit py c = true -> Str.eqb c "-" = false /\ Str.eqb c "+" = false.
Proof.
  intros [v Hv]%is_digit_Some.
  split; apply bool_decide_eq_false; intros ->; done.
Qed.

(** ** The parser against the grammar *)

Lemma first_is_all_not (p q : string -> bool) (a : list string) :
  (forall c, p c = true -> q c = false) ->
  a <> [] -> forallb p a = true -> first_is q a = false.
Proof. intros Hpq. destruct a; simpl; [done |]. intros _ [? _]%andb_prop. auto. Qed.

Lemma not_space_first (s : list string) :
  first_is not_space s = true -> first_is Str.isspace s = false.
Proof. destruct s; simpl; [done |]. unfold not_space. by intros ?%negb_true_iff. Qed.

Lemma take_app_length' (a b : list string) : take (length a) (a ++ b) = a.
Proof. by rewrite take_app_length. Qed.

Lemma chars_ne (s : string) : s <> "" -> Str.chars s <> [].
Proof. apply chars_nonempty. Qed.

Lemma re_match_fields (token digits description : string)
      (sep1 sep2 : list string) :
  token <> "" -> forallb (Py.is_word py) (Str.chars token) = true ->
  sep1 <> [] -> forallb Str.isspace sep1 = true ->
  digits <> "" -> forallb (Py.is_digit py) (Str.chars digits) = true ->
  sep2 <> [] -> forallb Str.isspace sep2 = true ->
  first_is not_space (Str.chars description) = true ->
  forallb Re.is_dot (Str.chars description) = true ->
  Re.run py pattern 0
         (Str.chars token ++ sep1 ++ Str.chars digits ++ sep2
          ++ Str.chars description) [] (fun _ _ groups => Some groups)
  = Some [token; digits; description].
Proof.
  intros Ht Wt Hs1 Ws1 Hd Wd Hs2 Ws2 Hdesc Wdesc.
  unfold pattern. cbn [Re.run Nat.eqb].
  apply plus_greedy; [by apply chars_ne | done | |].
  { rewrite first_is_app by done.
    eapply first_is_all_not; [apply space_not_word | done | done]. }
  apply plus_greedy; [done | done | |].
  { rewrite first_is_app by (by apply chars_ne).
    eapply first_is_all_not; [apply digit_not_space | by apply chars_ne | done]. }
  apply plus_greedy; [by apply chars_ne | done | |].
  { rewrite first_is_app by done.
    eapply first_is_all_not; [apply space_not_digit | done | done]. }
  apply plus_greedy; [done | done | |].
  { by apply not_space_first. }
  rewrite <- (app_nil_r (Str.chars description)) at 1.
  apply plus_greedy; [by destruct (Str.chars description) | done | done |].
  rewrite bool_decide_eq_true_2 by done. cbn [orb app].
  rewrite !Nat.add_sub', !take_app_length', firstn_all, !text_chars. done.
Qed.

Lemma decimal_chars_digits (digits : list string) (acc : Z) :
  forallb (Py.is_digit py) digits = true ->
  Py.int_digits py acc digits = Some (decimal_chars py acc digits).
Proof.
  revert acc. induction digits as [|c digits IH]; intros acc; simpl; [done |].
  intros [[v Hv]%is_digit_Some Hall]%andb_prop. rewrite Hv. simpl.
  by apply IH.
Qed.

Lemma all_digits_ends (digits : list string) :
  digits <> [] -> forallb (Py.is_digit py) digits = true ->
  first_is not_space digits = true /\ last_is not_space digits = true.
Proof.
  intros Hne Hall. split.
  - destruct digits as [|c d]; [done |]. simpl in *.
    apply andb_prop in Hall as [Hc _]. unfold not_space.
    by rewrite (digit_not_space _ Hc).
  - induction digits as [|c d IH]; [done |]. simpl in *.
    apply andb_prop in Hall as [Hc Hall].
    destruct d as [|c' d]; [|by apply IH].
    unfold not_space. by rewrite (digit_not_space _ Hc).
Qed.

Lemma filter_all_true {A} (p : A -> bool) (l : list A) :
  forallb p l = true -> List.filter p l = l.
Proof.
  induction l as [|x l IH]; simpl; [done |].
  intros [-> Hl]%andb_prop. by rewrite IH.
Qed.

(** [int] on a run of digits is the number it denotes, up to the
    interpreter's limit on their number. *)
Lemma py_int_digits (digits : string) :
  digits <> "" -> forallb (Py.is_digit py) (Str.chars digits) = true ->
  Py.int py digits
  = if (int_max_str_digits <? Z.of_nat (length (Str.chars digits)))%Z
    then None else Some (decimal_of py digits).
Proof.
  intros Hne Hall. unfold Py.int.
  pose proof (chars_ne _ Hne) as Hne'.
  destruct (all_digits_ends _ Hne' Hall) as [Hs He].
  assert (Str.strip_chars (Str.chars digits) = Str.chars digits) as ->.
  { rewrite <- (app_nil_r (Str.chars digits)) at 1.
    by apply (strip_chars_core [] _ []). }
  rewrite (filter_all_true _ _ Hall).
  destruct (_ <? _)%Z; [done |].
  unfold decimal_of.
  destruct (Str.chars digits) as [|c d]; [done |]. simpl in Hall.
  apply andb_prop in Hall as [Hc Hall].
  destruct (digit_not_sign _ Hc) as [-> ->].
  unfold Py.int_unsigned. apply is_digit_Some in Hc as [v Hv].
  rewrite Hv. simpl. rewrite Hv. simpl.
  by apply decimal_chars_digits.
Qed.

(** A line of the grammar parses to its three fields. *)
Lemma parse_expense_line (line token digits description : string) :
  expense_line py line token digits description ->
  parse_expense_message py line
  = if (int_max_str_digits <? Z.of_nat (length (Str.chars digits)))%Z
    then None
    else Some (Py.lower py token, decimal_of py digits, description).
Proof.
  intros (lead & sep1 & sep2 & trail & E & Hl & Htr & Ht & Wt & Hs1 & Ws1
          & Hd & Wd & Hs2 & Ws2 & Hdesc & Edesc & Wdesc).
  unfold parse_expense_message, Re.re_match.
  set (core := (Str.chars token ++ sep1 ++ Str.chars digits ++ sep2
                ++ Str.chars description)%list).
  assert (Str.chars description <> []) as Hne
      by (by destruct (Str.chars description)).
  assert (Str.strip_chars (Str.chars line) = core) as Hcore.
  { rewrite E.
    replace (lead ++ Str.chars token ++ sep1 ++ Str.chars digits ++ sep2
             ++ Str.chars description ++ trail)%list
      with (lead ++ core ++ trail)%list
      by (unfold core; by rewrite <- !app_assoc).
    apply strip_chars_core; [done | done | |].
    - unfold core. rewrite first_is_app by (by apply chars_ne).
      pose proof (chars_ne _ Ht) as Hnt.
      destruct (Str.chars token) as [|c t] eqn:Et; [done |]. simpl in *.
      apply andb_prop in Wt as [Hc _]. unfold not_space.
      by rewrite (word_not_space _ Hc).
    - unfold core. rewrite !app_assoc.
      by rewrite last_is_app. }
  rewrite chars_strip, Hcore. unfold core.
  rewrite re_match_fields by done.
  rewrite py_int_digits by done. by destruct (_ <? _)%Z.
Qed.

(** What the parser accepts is a line of the grammar. *)
Lemma parse_accepts_expense_line (line : string) r :
  parse_expense_message py line = Some r ->
  exists token digits description,
    expense_line py line token digits description.
Proof.
  unfold parse_expense_message, Re.re_match, pattern.
  rewrite chars_strip.
  destruct (strip_chars_split (Str.chars line))
    as (lead & trail & Eline & Hl & Htr & Hcore).
  pose proof (strip_chars_segmented _ (chars_segmented line)) as Hseg.
  cbn [Re.run Nat.eqb].
  destruct (Re.plus _ _ _ _ _) as [groups|] eqn:E; [|done]. intros _.
  apply plus_inv in E as (token & rest1 & E1 & Ht & Wt & E).
  apply plus_inv in E as (sep1 & rest2 & -> & Hs1 & Ws1 & E).
  apply plus_inv in E as (digits & rest3 & -> & Hd & Wd & E).
  apply plus_inv in E as (sep2 & rest4 & -> & Hs2 & Ws2 & E).
  apply plus_inv in E as (desc & rest5 & -> & Hdesc & Wdesc & E).
  cbn [Re.cls_ok] in *.
  destruct Hcore as [Hcore | [_ Hend]];
    [rewrite Hcore in E1; by destruct token |].
  assert (last_is not_space (desc ++ rest5) = true) as Hend'.
  { rewrite E1, !app_assoc in Hend.
    rewrite <- (app_assoc _ desc rest5) in Hend.
    rewrite last_is_app in Hend; [done | by destruct desc]. }
  assert (rest5 = []) as ->.
  { destruct (bool_decide (rest5 = [])) eqn:E0;
      [by apply bool_decide_eq_true in E0 |].
    destruct (bool_decide (rest5 = [Re.newline])) eqn:E2; [|done].
    apply bool_decide_eq_true in E2 as ->.
    rewrite last_is_app in Hend' by done. done. }
  clear E. rewrite app_nil_r in Hend', E1.
  destruct (lstrip_chars_split desc) as (sp & Edesc & Hsp & Hstart).
  set (description := Str.lstrip_chars desc) in *.
  assert (description <> []) as Hne.
  { intros Hd0. rewrite Edesc, Hd0, app_nil_r in Hend'.
    clear -Hsp Hend'. induction sp as [|c sp IH]; [done |].
    simpl in *. apply andb_prop in Hsp as [Hc Hsp].
    destruct sp; [|by apply IH].
    unfold not_space in Hend'. by rewrite Hc in Hend'. }
  rewrite Edesc, forallb_app in Wdesc.
  apply andb_prop in Wdesc as [_ Wdesc].
  rewrite Edesc, last_is_app in Hend' by done.
  (* the three fields are texts of whole characters *)
  rewrite E1, Edesc in Hseg.
  apply segmented_app in Hseg as [Sg1 Hseg].
  apply segmented_app in Hseg as [_ Hseg].
  apply segmented_app in Hseg as [Sg2 Hseg].
  apply segmented_app in Hseg as [_ Hseg].
  apply segmented_app in Hseg as [_ Sg3].
  exists (Str.text token), (Str.text digits), (Str.text description).
  exists lead, sep1, (sep2 ++ sp)%list, trail.
  rewrite !chars_text by done.
  split; [|repeat split; try done].
  - rewrite Eline at 1. rewrite E1, Edesc. by rewrite <- !app_assoc.
  - intros H0. apply Ht. apply (f_equal Str.chars) in H0.
    by rewrite chars_text in H0.
  - intros H0. apply Hd. apply (f_equal Str.chars) in H0.
    by rewrite chars_text in H0.
  - by destruct sep2.
  - by rewrite forallb_app, Ws2, Hsp.
  - destruct description as [|c d]; [done |]. simpl in *.
    unfold not_space. by rewrite Hstart.
Qed.

End Classes.

(** The digits of a line are among its characters. *)
Lemma expense_line_digits (py : python) (line token digits description : string) :
  expense_line py line token digits description ->
  length (Str.chars digits) <= length (Str.chars line).
Proof.
  intros (lead & sep1 & sep2 & trail & E & _). rewrite E, !length_app. lia.
Qed.

(** C2.  Every line of the grammar [<category-token> <digits>
    <description>] (word characters, then decimal digits, then a non-empty
    remainder, separated by runs of whitespace, the whitespace around the
    whole line trimmed) parses to the token in lower case, the number the
    digits denote and the description unchanged; every input that is not
    such a line (a field missing, an amount that is not a run of digits,
    fields out of order) gives the no-match triple.  The word characters,
    the digits and the whitespace are those of [re], beyond ASCII too.
    The amount has at most 4300 digits, the most that [int] accepts; with
    more, which no Telegram message holds, [int] raises and the parser
    gives the no-match triple. *)
Theorem parse_expense_message_grammar (py : python) (line : string) :
  (forall token digits description,
      expense_line py line token digits description ->
      (Z.of_nat (length (Str.chars digits)) <= int_max_str_digits)%Z ->
      parse_expense_message py line
      = Some (Py.lower py token, decimal_of py digits, description))
  /\ ((forall token digits description,
          ~ expense_line py line token digits description) ->
      parse_expense_message py line = None)
  /\ (forall token digits description,
         expense_line py line token digits description ->
         (int_max_str_digits < Z.of_nat (length (Str.chars digits)))%Z ->
         parse_expense_message py line = None).
Proof.
  split_and!.
  - intros token digits description Hline Hcap.
    rewrite (parse_expense_line py _ _ _ _ Hline).
    by rewrite (proj2 (Z.ltb_ge _ _) Hcap).
  - intros Hno. destruct (parse_expense_message py line) as [r|] eqn:E; [|done].
    apply parse_accepts_expense_line in E as (t & d & desc & H).
    by destruct (Hno t d desc).
  - intros token digits description Hline Hcap.
    rewrite (parse_expense_line py _ _ _ _ Hline).
    by rewrite (proj2 (Z.ltb_lt _ _) Hcap).
Qed.

Lemma parse_expense_message_grammar_witness :
  let line := Char.utf8 160 +:+ "café ٣5   nasi goreng " in
  expense_line py1 line "café" "٣5" "nasi goreng"
  /\ (Z.of_nat (length (Str.chars "٣5")) <= int_max_str_digits)%Z
  /\ parse_expense_message py1 line = Some ("café", 35%Z, "nasi goreng")
  /\ parse_expense_message py0 "  Makan 25000   nasi goreng "
     = Some ("makan", 25000%Z, "nasi goreng")
  /\ parse_expense_message py0 "makan nasi goreng" = None.
Proof.
  intros line.
  assert (expense_line py1 line "café" "٣5" "nasi goreng") as H.
  { exists [Char.utf8 160], [" "], [" "; " "; " "], [" "].
    repeat split; done. }
  assert (Z.of_nat (length (Str.chars "٣5")) <= int_max_str_digits)%Z as Hc
      by (by vm_compute).
  assert (expense_line py0 "  Makan 25000   nasi goreng "
                       "Makan" "25000" "nasi goreng") as H0.
  { exists [" "; " "], [" "], [" "; " "; " "], [" "]. repeat split; done. }
  split; [exact H |]. split; [exact Hc |]. split; [|split].
  - exact (proj1 (parse_expense_message_grammar py1 line) _ _ _ H Hc).
  - apply (proj1 (parse_expense_message_grammar py0 _) _ _ _ H0).
    by vm_compute.
  - apply (proj1 (proj2 (parse_expense_message_grammar
                           py0 "makan nasi goreng"))).
    intros t d desc Hline.
    pose proof (expense_line_digits _ _ _ _ _ Hline) as Hlen.
    change (length (Str.chars "makan nasi goreng")) with 17 in Hlen.
    assert (Z.of_nat (length (Str.chars d)) <= int_max_str_digits)%Z as Hcap
        by (unfold int_max_str_digits; lia).
    pose proof (proj1 (parse_expense_message_grammar py0 _) _ _ _ Hline Hcap)
      as Hp.
    assert (parse_expense_message py0 "makan nasi goreng" = None) as Hn
        by reflexivity.
    congruence.
Defined.

(** ** The amount normalizer *)

Lemma all_filter (p q : ascii -> bool) (s : string) :
  Str.all p s = true -> Str.all p (Str.filter q s) = true.
Proof.
  induction s as [|c s IH]; simpl; [done |].
  intros [Hc Hs]%andb_prop. destruct (q c); simpl; [by rewrite Hc, IH | auto].
Qed.

Lemma all_strip (p : ascii -> bool) (s : string) :
  Str.all p s = true -> Str.all p (Str.strip s) = true.
Proof.
  destruct (strip_split s) as (lead & trail & E & _).
  rewrite E at 1. rewrite !all_append.
  by intros [_ [H _]%andb_prop]%andb_prop.
Qed.

Lemma int_unsigned_no_digit (s : string) :
  Str.all no_digit s = true -> int_unsigned s = None.
Proof.
  destruct s as [|c s]; simpl; [done |]. unfold no_digit.
  intros [Hc _]%andb_prop. by destruct (Char.is_digit c).
Qed.

Lemma all_tail (p : ascii -> bool) (c : ascii) (s : string) :
  Str.all p (String c s) = true -> Str.all p s = true.
Proof. simpl. by intros [_ H]%andb_prop. Qed.

(** [int] raises [ValueError] on a text without a digit. *)
Lemma py_int_no_digit (s : string) :
  Str.all no_digit s = true -> py_int s = None.
Proof.
  intros H%all_strip. unfold py_int.
  destruct (_ <? _)%Z; [done |].
  destruct (Str.strip s) as [|c t] eqn:E; [done |].
  pose proof (all_tail _ _ _ H) as Ht.
  rewrite !int_unsigned_no_digit by done.
  by repeat destruct (_ =? _)%N.
Qed.

(** On a text from which no decimal digit can be extracted the
    normalizer returns 0. *)
Lemma to_int_text_no_digit (s : string) :
  Str.all no_digit s = true -> to_int_text s = Ok 0%Z.
Proof.
  intros H. unfold to_int_text.
  destruct (_ || _); [done |].
  by rewrite py_int_no_digit by (by apply all_filter, all_strip).
Qed.

(** The string path never raises. *)
Lemma to_int_text_total (s : string) : exists z, to_int_text s = Ok z.
Proof.
  unfold to_int_text. destruct (_ || _); [by eexists |].
  destruct (py_int _); by eexists.
Qed.

(** Away from the infinities and NaN the normalizer returns an integer. *)
Lemma to_int_total_finite (v : pyval) :
  non_finite v = false -> exists z, to_int v = Ok z.
Proof.
  destruct v as [|b|z|f|s]; simpl; intros H.
  - by eexists.
  - apply to_int_text_total.
  - by eexists.
  - destruct f; try done; by eexists.
  - apply to_int_text_total.
Qed.

(** C5 (the code departs from it).  [to_int] is not total: on a
    float that is an infinity or NaN the fast path [int(value)] raises.
    A ledger row whose amount cell holds such a float is passed over by
    the monthly aggregation, and makes the daily view of its user answer
    with the error text. *)
Theorem to_int_raises_on_non_finite_float :
  to_int (PyFloat (S754_infinity false)) = Raise OverflowError
  /\ to_int (PyFloat (S754_infinity true)) = Raise OverflowError
  /\ to_int (PyFloat S754_nan) = Raise ValueError
  /\ get_today_summary py0 now0 42
       {| worksheet := inf_sheet; summary_worksheet := [] |}
     = "❌ Error mendapatkan ringkasan pengeluaran."
  /\ aggregate_month py0 (strftime_Ym now0)
                     (get_all_records MAIN_HEADER_ROW inf_sheet)
     = monthly_data_init.
Proof. split_and!; reflexivity. Qed.

(** C10.  A boolean does not take the numeric fast path: it is turned
    into the text "True" or "False", which holds no digit, so the result
    is 0 for both, where the fast path would give 1 for [True]. *)
Theorem to_int_bool_is_zero (b : bool) :
  to_int (PyBool b) = to_int_text (str_of_bool b)
  /\ to_int (PyBool b) = Ok 0%Z
  /\ to_int (PyBool true) = Ok 0%Z
  /\ to_int (PyBool false) = Ok 0%Z
  /\ to_int (PyInt 1) = Ok 1%Z.
Proof. by destruct b. Qed.

(** ** The monthly aggregation *)

Lemma in_categories k :
  k ∈ categories <->
  k = "makan" \/ k = "transport" \/ k = "belanja" \/ k = "hiburan"
  \/ k = "kesehatan" \/ k = "lainnya".
Proof. unfold categories. rewrite !elem_of_cons, elem_of_nil. tauto. Qed.

Lemma six_lookup a b c d e f k :
  six a b c d e f !! k =
  if bool_decide (k = "lainnya") then Some f
  else if bool_decide (k = "kesehatan") then Some e
  else if bool_decide (k = "hiburan") then Some d
  else if bool_decide (k = "belanja") then Some c
  else if bool_decide (k = "transport") then Some b
  else if bool_decide (k = "makan") then Some a
  else None.
Proof.
  unfold six.
  repeat (case_bool_decide;
          [subst k; by rewrite ?lookup_insert_ne, lookup_insert_eq by done |]).
  by rewrite !lookup_insert_ne, lookup_empty by congruence.
Qed.

Lemma six_keys_six a b c d e f : six_keys (six a b c d e f).
Proof.
  intros k. rewrite six_lookup, in_categories.
  split.
  - intros Hs. repeat case_bool_decide; try tauto. by destruct Hs.
  - intros Hk. repeat case_bool_decide; try done. exfalso. tauto.
Qed.

Lemma monthly_data_init_six : monthly_data_init = six 0 0 0 0 0 0.
Proof. reflexivity. Qed.

Lemma six_keys_eq (d : gmap string Z) :
  six_keys d ->
  d = six (value d "makan") (value d "transport") (value d "belanja")
          (value d "hiburan") (value d "kesehatan") (value d "lainnya").
Proof.
  intros Hd. apply map_eq. intros k. rewrite six_lookup.
  assert (forall c, c ∈ categories -> d !! c = Some (value d c)) as Hv.
  { intros c [v Hc]%Hd. unfold value. by rewrite Hc. }
  repeat (case_bool_decide;
          [subst; apply Hv, in_categories; tauto |]).
  apply eq_None_not_Some. intros Hk%Hd%in_categories. tauto.
Qed.

Lemma sum_Permutation (l1 l2 : list Z) :
  l1 ≡ₚ l2 -> foldr Z.add 0%Z l1 = foldr Z.add 0%Z l2.
Proof. induction 1; simpl; lia. Qed.

Lemma sum_values_six a b c d e f :
  sum_values (six a b c d e f) = (a + b + c + d + e + f)%Z.
Proof.
  unfold sum_values.
  assert (map_to_list (six a b c d e f)
          ≡ₚ [("lainnya", f); ("kesehatan", e); ("hiburan", d);
              ("belanja", c); ("transport", b); ("makan", a)]) as Hp.
  { unfold six.
    repeat (rewrite map_to_list_insert
              by (by rewrite ?lookup_insert_ne, lookup_empty)).
    by rewrite map_to_list_empty. }
  rewrite (sum_Permutation _ _ (fmap_Permutation snd _ _ Hp)).
  simpl. lia.
Qed.

Section Aggregation.
Variable py : python.
Variable month : string.
Implicit Types (d : gmap string Z) (r : record) (records : list record).

Lemma six_keys_insert d b x :
  six_keys d -> b ∈ categories -> six_keys (<[b := x]> d).
Proof.
  intros Hd Hb k. rewrite lookup_insert. case_decide; subst.
  - split; [done | by eauto].
  - apply Hd.
Qed.

Lemma bucket_in_categories category : bucket category ∈ categories.
Proof.
  unfold bucket. case_bool_decide; [done |].
  apply in_categories. tauto.
Qed.

(** One iteration adds the record's amount to its bucket, or nothing. *)
Lemma accumulate_contribution d r :
  six_keys d ->
  accumulate py month d r =
  match contribution py month r with
  | Some (b, a) => <[b := (value d b + a)%Z]> d
  | None => d
  end.
Proof.
  intros Hd. unfold accumulate, accumulate_body, contribution.
  destruct (truthy (get r H_TANGGAL)); simpl; [|done].
  destruct (Str.startswith _ _); [|done].
  destruct (to_int (get r H_JUMLAH)) as [amount|]; simpl; [|done].
  set (category := Py.lower py _).
  unfold bucket, add_to, item, value.
  case_bool_decide as Hin.
  - destruct Hin as [v Hv]. rewrite Hv. simpl.
    rewrite bool_decide_eq_true_2; [by rewrite Hv | apply Hd; eauto].
  - rewrite bool_decide_eq_false_2 by (by intros Hs%Hd).
    assert (is_Some (d !! "lainnya")) as [v Hv]
        by (apply Hd, in_categories; tauto).
    by rewrite Hv.
Qed.

Lemma accumulate_six_keys d r :
  six_keys d -> six_keys (accumulate py month d r).
Proof.
  intros Hd. rewrite accumulate_contribution by done.
  destruct (contribution _ _ _) as [[b a]|] eqn:E; [|done].
  apply six_keys_insert; [done |].
  unfold contribution in E.
  destruct (_ && _); [|done]. destruct (to_int _); [|done].
  injection E as <- _. apply bucket_in_categories.
Qed.

Lemma accumulate_value d r c :
  six_keys d -> c ∈ categories ->
  value (accumulate py month d r) c
  = (value d c + amount_in py month c r)%Z.
Proof.
  intros Hd Hc. rewrite accumulate_contribution by done.
  unfold amount_in.
  destruct (contribution _ _ _) as [[b a]|]; [|lia].
  unfold value at 1. rewrite lookup_insert.
  case_decide; case_bool_decide; subst; try done; simpl.
  fold (value d c). lia.
Qed.

Lemma fold_accumulate records d :
  six_keys d ->
  six_keys (foldl (accumulate py month) d records)
  /\ forall c, c ∈ categories ->
       value (foldl (accumulate py month) d records) c
       = (value d c + bucket_sum py month c records)%Z.
Proof.
  revert d. induction records as [|r records IH]; intros d Hd; simpl.
  - split; [done | intros; lia].
  - destruct (IH _ (accumulate_six_keys d r Hd)) as [Hk Hv].
    split; [done |]. intros c Hc.
    rewrite Hv, accumulate_value by done. lia.
Qed.

Lemma aggregate_month_six_keys records :
  six_keys (aggregate_month py month records).
Proof.
  apply fold_accumulate. rewrite monthly_data_init_six. apply six_keys_six.
Qed.

(** Each bucket holds the sum of what the records add to it. *)
Lemma aggregate_month_value records c :
  c ∈ categories ->
  aggregate_month py month records !! c
  = Some (bucket_sum py month c records).
Proof.
  intros Hc. unfold aggregate_month.
  assert (six_keys monthly_data_init) as H0
      by (rewrite monthly_data_init_six; apply six_keys_six).
  destruct (fold_accumulate records _ H0) as [Hk Hv].
  destruct (proj2 (Hk c) Hc) as [v E].
  specialize (Hv c Hc). unfold value in Hv at 1. rewrite E in Hv. simpl in Hv.
  rewrite E, Hv. f_equal.
  assert (value monthly_data_init c = 0%Z) as ->; [|lia].
  rewrite monthly_data_init_six. unfold value. rewrite six_lookup.
  by repeat case_bool_decide.
Qed.

Lemma bucket_sum_Permutation c records records' :
  records ≡ₚ records' ->
  bucket_sum py month c records
  = bucket_sum py month c records'.
Proof. unfold bucket_sum. induction 1; simpl; lia. Qed.

End Aggregation.

(** C4.  For every list of ledger records and every month prefix, the
    monthly aggregate has exactly the six category keys, each holding the
    sum of what the records add to it (so 0 when nothing is added), and
    the grand total is the sum of the six per-category totals; the row
    that is persisted carries these seven numbers. *)
Theorem monthly_total_is_sum_of_six
        (py : python) (month : string)
        (records : list record) :
  let monthly_data := aggregate_month py month records in
  let total := sum_values monthly_data in
  (forall k, is_Some (monthly_data !! k) <-> k ∈ categories)
  /\ (forall c, c ∈ categories ->
        monthly_data !! c = Some (bucket_sum py month c records))
  /\ total = (value monthly_data "makan" + value monthly_data "transport"
              + value monthly_data "belanja" + value monthly_data "hiburan"
              + value monthly_data "kesehatan"
              + value monthly_data "lainnya")%Z
  /\ forall name,
      make_row_data name monthly_data total
      = Ok [PyStr name;
            PyInt (value monthly_data "makan");
            PyInt (value monthly_data "transport");
            PyInt (value monthly_data "belanja");
            PyInt (value monthly_data "hiburan");
            PyInt (value monthly_data "kesehatan");
            PyInt (value monthly_data "lainnya");
            PyInt total].
Proof.
  intros monthly_data total.
  pose proof (aggregate_month_six_keys py month records) as Hk.
  fold monthly_data in Hk.
  split; [exact Hk |]. split; [by apply aggregate_month_value |].
  assert (forall c, c ∈ categories ->
                    monthly_data !! c = Some (value monthly_data c)) as Hv.
  { intros c [v Hc]%Hk. unfold value. by rewrite Hc. }
  split.
  - unfold total. rewrite (six_keys_eq _ Hk) at 1. apply sum_values_six.
  - intros name. unfold make_row_data, item.
    rewrite !Hv by (apply in_categories; tauto). done.
Qed.

(** C6.  The monthly aggregation does not depend on the order of the
    records: a permutation of the ledger gives the same dictionary and the
    same grand total. *)
Theorem aggregate_month_permutation
        (py : python) (month : string)
        (records records' : list record) :
  records ≡ₚ records' ->
  aggregate_month py month records
  = aggregate_month py month records'
  /\ sum_values (aggregate_month py month records)
     = sum_values (aggregate_month py month records').
Proof.
  intros Hp.
  assert (aggregate_month py month records
          = aggregate_month py month records') as E; [|by rewrite E].
  apply map_eq. intros k.
  destruct (decide (k ∈ categories)) as [Hk | Hk].
  - rewrite !aggregate_month_value by done.
    f_equal. by apply bucket_sum_Permutation.
  - pose proof (aggregate_month_six_keys py month records k) as H1.
    pose proof (aggregate_month_six_keys py month records' k) as H2.
    destruct (aggregate_month _ _ records !! k) eqn:E1;
      [exfalso; apply Hk, H1; eauto |].
    destruct (aggregate_month _ _ records' !! k) eqn:E2;
      [exfalso; apply Hk, H2; eauto | done].
Qed.

(** ** A sample ledger *)

Example sample_aggregate :
  aggregate_month py0 "2025-08" sample_records = six 25000 10000 0 0 0 5000.
Proof. decide_eq. Qed.

Lemma monthly_total_is_sum_of_six_witness :
  "makan" ∈ categories
  /\ aggregate_month py0 "2025-08" sample_records !! "makan"
     = Some (bucket_sum py0 "2025-08" "makan" sample_records)
  /\ sum_values (aggregate_month py0 "2025-08" sample_records) = 40000%Z.
Proof.
  assert ("makan" ∈ categories) as Hin by (apply in_categories; tauto).
  pose proof (monthly_total_is_sum_of_six py0 "2025-08" sample_records)
    as (_ & Hv & Ht & _).
  split; [exact Hin |]. split; [exact (Hv _ Hin) |].
  rewrite Ht. by vm_compute.
Defined.

Lemma aggregate_month_permutation_witness :
  let a := record_of (PyStr <$> main_headers)
                     (sample_row "2025-08-01" "Makan" (PyInt 25000) 42) in
  let b := record_of (PyStr <$> main_headers)
                     (sample_row "2025-08-03" "Hobi" (PyInt 5000) 7) in
  [a; b] ≡ₚ [b; a]
  /\ aggregate_month py0 "2025-08" [a; b]
     = aggregate_month py0 "2025-08" [b; a].
Proof.
  intros a b. split; [apply perm_swap |].
  apply (aggregate_month_permutation py0 "2025-08" [a; b] [b; a]).
  apply perm_swap.
Defined.

(** ** Period filters *)

Lemma strftime_Ym_nonempty (now : datetime) : strftime_Ym now <> "".
Proof.
  unfold strftime_Ym. intros H%(f_equal String.length).
  rewrite !length_append in H. simpl in H. lia.
Qed.

Lemma startswith_nonempty (s p : string) :
  p <> "" -> Str.startswith s p = true -> s <> "".
Proof. destruct p, s; simpl; done. Qed.

Lemma startswith_append (p s : string) : Str.startswith (p +:+ s) p = true.
Proof.
  induction p as [|a p IH]; simpl; [done |].
  by destruct (ascii_dec a a).
Qed.

(** [str.startswith] holds of the texts that begin with the prefix, and
    of no other. *)
Lemma startswith_iff (s p : string) :
  Str.startswith s p = true <-> prefix_of p s.
Proof.
  unfold prefix_of. split.
  - revert s. induction p as [|a p IH]; intros s; simpl; [by exists s |].
    destruct s as [|b s]; [done |].
    destruct (ascii_dec a b) as [->|]; [|done].
    intros [rest ->]%IH. by exists rest.
  - intros [rest ->]. apply startswith_append.
Qed.


Lemma eqb_true (a b : string) : Str.eqb a b = true <-> a = b.
Proof. unfold Str.eqb. apply bool_decide_eq_true. Qed.

Lemma eqb_refl (a : string) : Str.eqb a a = true.
Proof. by apply eqb_true. Qed.




Lemma get_all_records_main (rows : list row) :
  get_all_records MAIN_HEADER_ROW ((PyStr <$> main_headers) :: rows)
  = record_of (PyStr <$> main_headers) <$> rows.
Proof. done. Qed.



(** ** Case mappings *)

Lemma char_lower_lower c : Char.lower (Char.lower c) = Char.lower c.
Proof. destruct c as [[] [] [] [] [] [] [] []]; by vm_compute. Qed.

Lemma char_lower_upper c : Char.lower (Char.upper c) = Char.lower c.
Proof. destruct c as [[] [] [] [] [] [] [] []]; by vm_compute. Qed.

Lemma char_lower_ascii c : Char.is_ascii (Char.lower c) = Char.is_ascii c.
Proof. destruct c as [[] [] [] [] [] [] [] []]; by vm_compute. Qed.

Lemma char_upper_ascii c : Char.is_ascii (Char.upper c) = Char.is_ascii c.
Proof. destruct c as [[] [] [] [] [] [] [] []]; by vm_compute. Qed.

Lemma lower_lower (s : string) : Str.lower (Str.lower s) = Str.lower s.
Proof.
  unfold Str.lower. induction s as [|c s IH]; simpl; [done |].
  by rewrite char_lower_lower, IH.
Qed.

Lemma lower_title_from (b : bool) (s : string) :
  Str.lower (Str.title_from b s) = Str.lower s.
Proof.
  unfold Str.lower. revert b. induction s as [|c s IH]; intros b; simpl; [done |].
  rewrite IH. f_equal. destruct b; [apply char_lower_lower | apply char_lower_upper].
Qed.

Lemma lower_title (s : string) : Str.lower (Str.title s) = Str.lower s.
Proof. apply lower_title_from. Qed.

Lemma lower_is_ascii (s : string) :
  Str.is_ascii (Str.lower s) = Str.is_ascii s.
Proof.
  unfold Str.is_ascii, Str.lower. induction s as [|c s IH]; simpl; [done |].
  by rewrite char_lower_ascii, IH.
Qed.

Lemma title_from_is_ascii (b : bool) (s : string) :
  Str.is_ascii (Str.title_from b s) = Str.is_ascii s.
Proof.
  unfold Str.is_ascii. revert b.
  induction s as [|c s IH]; intros b; simpl; [done |].
  rewrite IH. f_equal. destruct b; [apply char_lower_ascii | apply char_upper_ascii].
Qed.

Lemma title_is_ascii (s : string) :
  Str.is_ascii (Str.title s) = Str.is_ascii s.
Proof. apply title_from_is_ascii. Qed.

Section CaseMappings.
Variable py : python.

Lemma py_lower_ascii (s : string) :
  Str.is_ascii s = true -> Py.lower py s = Str.lower s.
Proof. intros H. unfold Py.lower, case_mapping. by rewrite H. Qed.

Lemma py_title_ascii (s : string) :
  Str.is_ascii s = true -> Py.title py s = Str.title s.
Proof. intros H. unfold Py.title, case_mapping. by rewrite H. Qed.

(** Lower-casing twice is lower-casing once. *)
Lemma py_lower_lower (s : string) :
  Py.lower py (Py.lower py s) = Py.lower py s.
Proof.
  destruct (Str.is_ascii s) eqn:E.
  - rewrite (py_lower_ascii s E).
    rewrite py_lower_ascii by (by rewrite lower_is_ascii).
    apply lower_lower.
  - unfold Py.lower.
    replace (case_mapping Str.lower (unicode_lower py) s)
      with (unicode_lower py s) by (unfold case_mapping; by rewrite E).
    by apply unicode_lower_lower.
Qed.

(** On ASCII text the lower-cased form of the title-cased text is that
    of the text. *)
Lemma py_lower_title_ascii (s : string) :
  Str.is_ascii s = true -> Py.lower py (Py.title py s) = Py.lower py s.
Proof.
  intros E. rewrite (py_title_ascii s E), (py_lower_ascii s E).
  rewrite py_lower_ascii by (by rewrite title_is_ascii).
  apply lower_title.
Qed.

(** Title-casing does not change the bucket of a text. *)
Lemma py_bucket_title (s : string) :
  bucket (Py.lower py (Py.title py s)) = bucket (Py.lower py s).
Proof.
  destruct (Str.is_ascii s) eqn:E.
  - by rewrite py_lower_title_ascii.
  - unfold Py.title, Py.lower.
    replace (case_mapping Str.title (unicode_title py) s)
      with (unicode_title py s) by (unfold case_mapping; by rewrite E).
    by apply unicode_title_bucket.
Qed.

(** The category the parser returns is in lower case. *)
Lemma parse_category_lower (message token : string) amount description :
  parse_expense_message py message = Some (token, amount, description) ->
  Py.lower py token = token.
Proof.
  unfold parse_expense_message.
  destruct (Re.re_match _ _ _) as [[|g1 [|g2 [|g3 [|]]]]|]; try done.
  destruct (Py.int py g2); [|done].
  intros [= <- _ _]. apply py_lower_lower.
Qed.

End CaseMappings.

Lemma in_categories_ascii (k : string) :
  k ∈ categories -> Str.is_ascii k = true.
Proof.
  intros Hin%in_categories.
  by destruct Hin as [-> | [-> | [-> | [-> | [-> | ->]]]]].
Qed.

(** ** Adding an expense *)

Lemma main_record_cells (a b c d e f g : pyval) :
  let r := record_of (PyStr <$> main_headers) [a; b; c; d; e; f; g] in
  r !! H_TANGGAL = Some a /\ r !! H_KATEGORI = Some c
  /\ r !! H_JUMLAH = Some e /\ r !! H_USER_ID = Some f.
Proof.
  intros r. unfold r, record_of. cbn.
  split_and!;
    by rewrite ?lookup_insert_ne, lookup_insert_eq by (cbv; discriminate).
Qed.

Lemma get_all_records_append_row (ws : grid) (keys values : row) :
  ws !! 0 = Some keys ->
  get_all_records MAIN_HEADER_ROW (append_row values ws)
  = (get_all_records MAIN_HEADER_ROW ws ++ [record_of keys values])%list.
Proof.
  intros Hk. unfold get_all_records, append_row, MAIN_HEADER_ROW. simpl.
  rewrite lookup_app_l by (by eapply lookup_lt_Some).
  rewrite Hk. destruct ws as [|k ws]; [done |]. simpl.
  by rewrite !drop_0, fmap_app.
Qed.

Lemma strftime_Ymd_startswith (now : datetime) :
  Str.startswith (strftime_Ymd now) (strftime_Ym now) = true.
Proof.
  unfold strftime_Ymd, strftime_Ym.
  replace (fmt_Y now +:+ "-" +:+ fmt_m now +:+ "-" +:+ fmt_d now)
    with ((fmt_Y now +:+ "-" +:+ fmt_m now) +:+ "-" +:+ fmt_d now)
    by (by rewrite !append_assoc).
  apply startswith_append.
Qed.

Lemma strftime_Ymd_nonempty (now : datetime) : strftime_Ymd now <> "".
Proof.
  eapply startswith_nonempty;
    [apply (strftime_Ym_nonempty now) | apply strftime_Ymd_startswith].
Qed.

Lemma make_row_data_six_keys (name : string) (d : gmap string Z) (total : Z) :
  six_keys d ->
  make_row_data name d total
  = Ok [PyStr name; PyInt (value d "makan"); PyInt (value d "transport");
        PyInt (value d "belanja"); PyInt (value d "hiburan");
        PyInt (value d "kesehatan"); PyInt (value d "lainnya"); PyInt total].
Proof.
  intros Hk.
  assert (forall c, c ∈ categories -> d !! c = Some (value d c)) as Hv.
  { intros c [v Hc]%Hk. unfold value. by rewrite Hc. }
  unfold make_row_data, item.
  rewrite !Hv by (apply in_categories; tauto). done.
Qed.

Lemma sum_values_six_keys (d : gmap string Z) :
  six_keys d ->
  sum_values d = (value d "makan" + value d "transport" + value d "belanja"
                  + value d "hiburan" + value d "kesehatan"
                  + value d "lainnya")%Z.
Proof. intros Hk. rewrite (six_keys_eq _ Hk) at 1. apply sum_values_six. Qed.

Lemma same_month_labels (a b : datetime) :
  same_month a b = true ->
  strftime_BY a = strftime_BY b /\ strftime_Ym a = strftime_Ym b.
Proof.
  unfold same_month. rewrite bool_decide_eq_true. intros [Ey Em].
  unfold strftime_BY, strftime_Ym, fmt_B, fmt_Y, fmt_m.
  by rewrite Ey, Em.
Qed.

Lemma bucket_unknown (kategori : string) :
  kategori ∉ categories -> bucket kategori = "lainnya".
Proof. intros H. unfold bucket. by rewrite bool_decide_eq_false_2. Qed.

Lemma value_insert (d : gmap string Z) (k k' : string) (x : Z) :
  value (<[k := x]> d) k' = if bool_decide (k = k') then x else value d k'.
Proof.
  unfold value. rewrite lookup_insert.
  case_decide; case_bool_decide; done.
Qed.

Section AddExpense.
Variable py : python.
Variables (now now_prefix now_label : datetime) (user_id : Z).
Variables (kategori : string) (jumlah : Z) (deskripsi : string).
Variable bot : ExpenseBot.
Hypothesis layout : main_layout bot.
Hypothesis kategori_lower : Py.lower py kategori = kategori.

Let bot' := add_expense_to_sheet py now now_prefix now_label user_id kategori
                                 jumlah deskripsi bot.
Let rec := expense_record py now user_id kategori jumlah deskripsi.
Let records := get_all_records MAIN_HEADER_ROW (worksheet bot).
Let before := aggregate_month py (strftime_Ym now) records.

Lemma add_expense_main :
  worksheet bot'
  = (worksheet bot
     ++ [expense_row py now user_id kategori jumlah deskripsi])%list.
Proof.
  unfold bot', add_expense_to_sheet, update_monthly_summary. simpl.
  by destruct (make_row_data _ _ _).
Qed.

Lemma add_expense_records :
  get_all_records MAIN_HEADER_ROW (worksheet bot') = (records ++ [rec])%list.
Proof.
  rewrite add_expense_main.
  apply (get_all_records_append_row _ _ _ layout).
Qed.

Lemma expense_record_contribution :
  contribution py (strftime_Ym now) rec
  = Some (bucket kategori, jumlah).
Proof.
  unfold contribution, rec, expense_record, expense_row, get, get_or_empty.
  destruct (main_record_cells
              (PyStr (strftime_Ymd now)) (PyStr (strftime_HMS now))
              (PyStr (Py.title py kategori)) (PyStr deskripsi)
              (PyInt jumlah) (PyInt user_id) (PyStr status_ok))
    as (-> & -> & -> & _).
  simpl. rewrite strftime_Ymd_startswith.
  pose proof (strftime_Ymd_nonempty now) as Hne.
  destruct (strftime_Ymd now); [done |]. simpl.
  by rewrite py_bucket_title, kategori_lower.
Qed.

(** The aggregate after the expense is the one before it with the
    amount added to the bucket of the category. *)
Lemma add_expense_aggregate :
  aggregate_month py (strftime_Ym now)
                  (get_all_records MAIN_HEADER_ROW (worksheet bot'))
  = <[bucket kategori := (value before (bucket kategori) + jumlah)%Z]> before.
Proof.
  rewrite add_expense_records. unfold aggregate_month.
  rewrite foldl_app. simpl. fold (aggregate_month py (strftime_Ym now) records).
  fold before.
  rewrite accumulate_contribution
    by apply aggregate_month_six_keys.
  by rewrite expense_record_contribution.
Qed.

(** The summary row that is written, when the month prefix is read in
    the month of the row: it holds the aggregate after the expense,
    under the label that is read last. *)
Lemma add_expense_summary :
  same_month now now_prefix = true ->
  let after := <[bucket kategori := (value before (bucket kategori) + jumlah)%Z]>
                 before in
  summary_worksheet bot'
  = upsert_summary
      [PyStr (strftime_BY now_label); PyInt (value after "makan");
       PyInt (value after "transport"); PyInt (value after "belanja");
       PyInt (value after "hiburan"); PyInt (value after "kesehatan");
       PyInt (value after "lainnya"); PyInt (sum_values after)]
      (strftime_BY now_label) (summary_worksheet bot).
Proof.
  intros [_ Em]%same_month_labels after.
  pose proof add_expense_aggregate as Hagg.
  rewrite add_expense_main in Hagg.
  unfold bot', add_expense_to_sheet, update_monthly_summary.
  cbn [worksheet summary_worksheet]. unfold append_row, expense_row in *.
  rewrite <- Em, Hagg. fold after.
  rewrite make_row_data_six_keys; [done |].
  apply six_keys_insert;
    [apply aggregate_month_six_keys | apply bucket_in_categories].
Qed.

End AddExpense.

(** ** The per-category dictionary of the views *)

Lemma odict_get_add (d : list (string * Z)) (k k' : string) (a : Z) :
  odict_get (odict_add d k a) k'
  = if bool_decide (k = k')
    then Some (default 0%Z (odict_get d k) + a)%Z
    else odict_get d k'.
Proof.
  unfold odict_get. case_bool_decide as Hkk.
  - subst k'. induction d as [|[k0 v0] d IH]; simpl.
    + by rewrite eqb_refl.
    + destruct (Str.eqb k0 k) eqn:E0; simpl; rewrite E0; simpl; [done |].
      apply IH.
  - assert (Str.eqb k k' = false) as Hf by (by apply bool_decide_eq_false).
    induction d as [|[k0 v0] d IH]; simpl.
    + by rewrite Hf.
    + destruct (Str.eqb k0 k) eqn:E0; simpl.
      * apply eqb_true in E0 as ->. by rewrite Hf.
      * destruct (Str.eqb k0 k'); [done | apply IH].
Qed.

Section DailyView.
Variable py : python.


Variables (now now_prefix now_label : datetime) (user_id : Z).
Variables (kategori : string) (jumlah : Z) (deskripsi : string).
Variable bot : ExpenseBot.
Hypothesis layout : main_layout bot.



End DailyView.


(** The summary row after an expense of a category outside the closed
    set, in terms of the aggregate before it. *)
Lemma summary_row_lainnya (name : string) (before : gmap string Z) (amount : Z) :
  six_keys before ->
  let after := <["lainnya" := (value before "lainnya" + amount)%Z]> before in
  [PyStr name; PyInt (value after "makan");
   PyInt (value after "transport"); PyInt (value after "belanja");
   PyInt (value after "hiburan"); PyInt (value after "kesehatan");
   PyInt (value after "lainnya"); PyInt (sum_values after)]
  = [PyStr name; PyInt (value before "makan");
     PyInt (value before "transport"); PyInt (value before "belanja");
     PyInt (value before "hiburan"); PyInt (value before "kesehatan");
     PyInt (value before "lainnya" + amount);
     PyInt (sum_values before + amount)].
Proof.
  intros Hk after. unfold after.
  rewrite sum_values_six_keys
    by (apply six_keys_insert; [done | apply in_categories; tauto]).
  rewrite (sum_values_six_keys before) by done.
  rewrite !value_insert. simpl. by rewrite !Z.add_assoc.
Qed.




(** ** Tokens of digits and underscores *)

Lemma digit_or_underscore_ascii c :
  digit_or_underscore c = true -> Char.is_ascii c = true.
Proof. destruct c as [[] [] [] [] [] [] [] []]; by vm_compute. Qed.

Lemma digit_or_underscore_lower c :
  digit_or_underscore c = true -> Char.lower c = c.
Proof. destruct c as [[] [] [] [] [] [] [] []]; by vm_compute. Qed.

Lemma lower_digit_or_underscore (s : string) :
  Str.all digit_or_underscore s = true -> Str.lower s = s.
Proof.
  unfold Str.lower. induction s as [|c s IH]; simpl; [done |].
  intros [Hc Hs]%andb_prop. by rewrite (digit_or_underscore_lower _ Hc), IH.
Qed.

Lemma py_lower_digit_or_underscore (py : python) (s : string) :
  Str.all digit_or_underscore s = true -> Py.lower py s = s.
Proof.
  intros H. rewrite py_lower_ascii.
  - by apply lower_digit_or_underscore.
  - eapply all_impl; [apply digit_or_underscore_ascii | exact H].
Qed.

Lemma digit_or_underscore_unknown (token : string) :
  token <> "" -> Str.all digit_or_underscore token = true ->
  token ∉ categories.
Proof.
  intros Hne Hall Hin%in_categories.
  destruct Hin as [-> | [-> | [-> | [-> | [-> | ->]]]]]; discriminate.
Qed.

(** C9.  A message whose first token is made of digits and underscores
    only is parsed, with that token as the category, because such
    characters are word characters; the token is outside the closed set,
    so the amount is added to [lainnya]: in the monthly aggregate of the
    ledger, and in the summary row that the bot writes while it handles
    the message (the month prefix being read in the month of the row).
    In particular "123 456 lunch" gives the category "123".  The amount
    has at most 4300 digits, the most that [int] accepts. *)
Theorem numeric_token_is_a_category
        (py : python) (now now_prefix now_label : datetime) (user_id : Z)
        (line token digits description : string) (bot : ExpenseBot) :
  expense_line py line token digits description ->
  (Z.of_nat (length (Str.chars digits)) <= int_max_str_digits)%Z ->
  Str.all digit_or_underscore token = true ->
  main_layout bot ->
  let bot' := handle_expense py now now_prefix now_label user_id line bot in
  let before :=
    aggregate_month py (strftime_Ym now)
                    (get_all_records MAIN_HEADER_ROW (worksheet bot)) in
  let amount := decimal_of py digits in
  parse_expense_message py line = Some (token, amount, description)
  /\ (token ∉ categories)
  /\ aggregate_month py (strftime_Ym now)
                     (get_all_records MAIN_HEADER_ROW (worksheet bot'))
     = <["lainnya" := (value before "lainnya" + amount)%Z]> before
  /\ (same_month now now_prefix = true ->
      summary_worksheet bot'
      = upsert_summary
          [PyStr (strftime_BY now_label); PyInt (value before "makan");
           PyInt (value before "transport"); PyInt (value before "belanja");
           PyInt (value before "hiburan"); PyInt (value before "kesehatan");
           PyInt (value before "lainnya" + amount);
           PyInt (sum_values before + amount)]
          (strftime_BY now_label) (summary_worksheet bot))
  /\ parse_expense_message py "123 456 lunch" = Some ("123", 456%Z, "lunch").
Proof.
  intros Hline Hcap Hall Hlayout bot' before amount.
  assert (token <> "") as Hne
      by (by destruct Hline as (? & ? & ? & ? & _ & _ & _ & ? & _)).
  pose proof (digit_or_underscore_unknown _ Hne Hall) as Hunknown.
  pose proof (py_lower_digit_or_underscore py _ Hall) as Hlower.
  assert (parse_expense_message py line
          = Some (token, amount, description)) as Hparse.
  { rewrite (parse_expense_line py _ _ _ _ Hline).
    rewrite (proj2 (Z.ltb_ge _ _) Hcap). by rewrite Hlower. }
  pose proof (aggregate_month_six_keys
                py (strftime_Ym now)
                (get_all_records MAIN_HEADER_ROW (worksheet bot))) as Hk.
  fold before in Hk.
  split_and!; [done | done | | | reflexivity].
  - unfold bot', handle_expense. rewrite Hparse.
    rewrite add_expense_aggregate by done.
    by rewrite bucket_unknown.
  - intros Hsame. unfold bot', handle_expense. rewrite Hparse.
    rewrite add_expense_summary by done.
    rewrite bucket_unknown by done. fold before.
    by rewrite (summary_row_lainnya _ before amount Hk).
Qed.

Lemma numeric_token_is_a_category_witness :
  let bot' := handle_expense py0 now0 now0 now0 42 "1_2 456 lunch" bot0 in
  expense_line py0 "1_2 456 lunch" "1_2" "456" "lunch"
  /\ (Z.of_nat (length (Str.chars "456")) <= int_max_str_digits)%Z
  /\ Str.all digit_or_underscore "1_2" = true
  /\ main_layout bot0
  /\ parse_expense_message py0 "1_2 456 lunch" = Some ("1_2", 456%Z, "lunch")
  /\ summary_worksheet bot'
     = (summary_worksheet bot0
        ++ [[PyStr "August 2025"; PyInt 0; PyInt 0; PyInt 0; PyInt 0;
             PyInt 0; PyInt 456; PyInt 456]])%list.
Proof.
  intros bot'.
  assert (expense_line py0 "1_2 456 lunch" "1_2" "456" "lunch") as H1.
  { exists [], [" "], [" "], []. repeat split; done. }
  assert (Z.of_nat (length (Str.chars "456")) <= int_max_str_digits)%Z as H2
      by (by vm_compute).
  assert (Str.all digit_or_underscore "1_2" = true) as H3 by reflexivity.
  assert (main_layout bot0) as H4 by reflexivity.
  destruct (numeric_token_is_a_category py0 now0 now0 now0 42 _ _ _ _ bot0
                                        H1 H2 H3 H4)
    as (Hparse & _ & _ & Hsum & _).
  split_and!; [exact H1 | exact H2 | exact H3 | exact H4 | exact Hparse |].
  unfold bot'. rewrite Hsum by reflexivity. reflexivity.
Defined.

(** ** The summary upsert *)

Lemma record_label (r : row) :
  record_of (PyStr <$> summary_headers) r !! H_BULAN_TAHUN = Some (label_of r).
Proof.
  unfold record_of, label_of.
  destruct r as [|c1 [|c2 [|c3 [|c4 [|c5 [|c6 [|c7 [|c8 r]]]]]]]]; cbn;
    by rewrite ?lookup_insert_ne, lookup_insert_eq by (cbv; discriminate).
Qed.

Lemma find_existing_row_first_index (name : string) (rows : list row) (i : nat) :
  find_existing_row name i (record_of (PyStr <$> summary_headers) <$> rows)
  = (fun j => i + j + SUMMARY_HEADER_ROW + 1) <$> first_index name rows.
Proof.
  revert i. induction rows as [|r rows IH]; intros i; [done |].
  cbn [fmap list_fmap find_existing_row first_index].
  rewrite record_label. fold (has_label name r).
  destruct (has_label name r); simpl.
  - f_equal. lia.
  - rewrite IH. destruct (first_index name rows); simpl; [|done].
    f_equal. lia.
Qed.

Lemma first_index_Some (name : string) (rows : list row) (j : nat) :
  first_index name rows = Some j ->
  exists old, rows !! j = Some old /\ has_label name old = true
              /\ forall j' r, j' < j -> rows !! j' = Some r ->
                              has_label name r = false.
Proof.
  revert j. induction rows as [|r rows IH]; intros j; simpl; [done |].
  destruct (has_label name r) eqn:E.
  - intros [= <-]. exists r. split_and!; [done | done | intros; lia].
  - destruct (first_index name rows) as [j0|]; simpl; [|done].
    intros [= <-]. destruct (IH j0 eq_refl) as (old & Ho & Hl & Hb).
    exists old. split_and!; [done | done |].
    intros [|j'] r' Hj Hr; simpl in Hr; [by injection Hr as <- |].
    apply (Hb j'); [lia | done].
Qed.

Lemma first_index_None (name : string) (rows : list row) :
  first_index name rows = None ->
  List.filter (has_label name) rows = [].
Proof.
  induction rows as [|r rows IH]; simpl; [done |].
  destruct (has_label name r); [done |].
  destruct (first_index name rows); [done | auto].
Qed.

Lemma write_overwrite (row_data pre rest : row) :
  write (S (length pre)) row_data (pre ++ rest)
  = (pre ++ row_data ++ drop (length row_data) rest)%list.
Proof.
  revert pre rest. induction row_data as [|v data IH]; intros pre rest; simpl.
  - by rewrite drop_0.
  - assert (set_cell (S (length pre)) v (pre ++ rest)
            = ((pre ++ [v]) ++ drop 1 rest)%list) as ->.
    { unfold set_cell, pad_row. rewrite length_app. simpl.
      rewrite Nat.sub_0_r.
      destruct rest as [|x rest]; simpl.
      - rewrite app_nil_r, Nat.add_0_r.
        replace (S (length pre) - length pre) with 1 by lia. simpl.
        rewrite <- (Nat.add_0_r (length pre)) at 1.
        by rewrite insert_app_r, app_nil_r.
      - replace (S (length pre) - (length pre + S (length rest))) with 0 by lia.
        simpl. rewrite app_nil_r, drop_0.
        rewrite <- (Nat.add_0_r (length pre)) at 1.
        rewrite insert_app_r. simpl. by rewrite <- app_assoc. }
    replace (S (S (length pre))) with (S (length (pre ++ [v])))
      by (rewrite length_app; simpl; lia).
    rewrite IH, drop_drop. by rewrite <- app_assoc.
Qed.

Lemma write_from_first (row_data old : row) :
  write 1 row_data old = overwrite row_data old.
Proof. apply (write_overwrite row_data [] old). Qed.

Lemma update_cell_in_range (r c : nat) (v : pyval) (ws : grid) (old : row) :
  ws !! (r - 1) = Some old ->
  update_cell r c v ws = <[r - 1 := set_cell c v old]> ws.
Proof.
  intros Ho. unfold update_cell.
  assert (r - length ws = 0) as ->
      by (apply lookup_lt_Some in Ho; lia).
  simpl. by rewrite app_nil_r, Ho.
Qed.

Lemma update_cells_write (r col : nat) (row_data : row) (ws : grid)
      (old : row) :
  ws !! (r - 1) = Some old ->
  update_cells r col row_data ws = <[r - 1 := write col row_data old]> ws.
Proof.
  revert col ws old. induction row_data as [|v data IH]; intros col ws old Ho.
  - simpl. by rewrite list_insert_id.
  - simpl. rewrite (update_cell_in_range _ _ _ _ _ Ho).
    rewrite (IH _ _ (set_cell col v old)).
    + by rewrite list_insert_insert_eq.
    + apply list_lookup_insert_eq. by eapply lookup_lt_Some.
Qed.

Lemma upsert_found (row_data : row) (name : string) (ws : grid)
      (j : nat) (old : row) :
  summary_layout ws ->
  first_index name (data_rows ws) = Some j ->
  data_rows ws !! j = Some old ->
  upsert_summary row_data name ws
  = <[SUMMARY_HEADER_ROW + j := overwrite row_data old]> ws.
Proof.
  intros Hl Hj Ho. unfold upsert_summary, get_all_records.
  change (SUMMARY_HEADER_ROW - 1) with 2. rewrite Hl.
  fold (data_rows ws). rewrite find_existing_row_first_index, Hj.
  cbn [fmap option_fmap option_map].
  replace (0 + j + SUMMARY_HEADER_ROW + 1) with (S (SUMMARY_HEADER_ROW + j))
    by lia.
  cbn [Nat.eqb negb].
  unfold data_rows in Ho. rewrite lookup_drop in Ho.
  rewrite (update_cells_write _ _ _ _ old)
    by (by rewrite Nat.sub_succ, Nat.sub_0_r).
  by rewrite Nat.sub_succ, Nat.sub_0_r, write_from_first.
Qed.

Lemma upsert_not_found (row_data : row) (name : string) (ws : grid) :
  summary_layout ws ->
  first_index name (data_rows ws) = None ->
  upsert_summary row_data name ws = (ws ++ [row_data])%list.
Proof.
  intros Hl Hj. unfold upsert_summary, get_all_records.
  change (SUMMARY_HEADER_ROW - 1) with 2. rewrite Hl.
  fold (data_rows ws). by rewrite find_existing_row_first_index, Hj.
Qed.

Lemma overwrite_label (name : string) (cells old : row) (l : string) :
  has_label l (overwrite (PyStr name :: cells) old) = Str.eqb name l.
Proof. done. Qed.

Lemma overwrite_twice (row_data old : row) :
  overwrite row_data (overwrite row_data old) = overwrite row_data old.
Proof. unfold overwrite. by rewrite drop_app_length. Qed.

Lemma overwrite_self (row_data : row) : overwrite row_data row_data = row_data.
Proof. unfold overwrite. by rewrite drop_all, app_nil_r. Qed.

Lemma has_label_inj (name l : string) (r : row) :
  has_label name r = true -> has_label l r = Str.eqb name l.
Proof.
  unfold has_label, eq_str. destruct (label_of r) as [| | | |t]; try done.
  by intros ->%eqb_true.
Qed.

Lemma filter_insert_same {A} (p : A -> bool) (l : list A) (j : nat) (x y : A) :
  l !! j = Some x -> p x = p y ->
  length (List.filter p (<[j := y]> l)) = length (List.filter p l).
Proof.
  revert j. induction l as [|a l IH]; intros [|j] Hj Hp; simpl in *; try done.
  - injection Hj as ->. rewrite Hp. by destruct (p y).
  - destruct (p a); simpl; by rewrite (IH j).
Qed.

Lemma first_index_insert (name : string) (rows : list row) (j : nat)
      (new : row) :
  first_index name rows = Some j -> has_label name new = true ->
  first_index name (<[j := new]> rows) = Some j.
Proof.
  revert j. induction rows as [|r rows IH]; intros j; simpl; [done |].
  destruct (has_label name r) eqn:E.
  - intros [= <-] Hn. simpl. by rewrite Hn.
  - destruct (first_index name rows) as [j0|] eqn:E0; simpl; [|done].
    intros [= <-] Hn. simpl. rewrite E. by rewrite (IH j0).
Qed.

Lemma first_index_app_new (name : string) (rows : list row) (new : row) :
  first_index name rows = None -> has_label name new = true ->
  first_index name (rows ++ [new]) = Some (length rows).
Proof.
  induction rows as [|r rows IH]; simpl; intros H Hn; [by rewrite Hn |].
  destruct (has_label name r); [done |].
  destruct (first_index name rows); [done |]. by rewrite IH.
Qed.

Lemma layout_length (ws : grid) :
  summary_layout ws -> SUMMARY_HEADER_ROW <= length ws.
Proof. intros H%lookup_lt_Some. unfold SUMMARY_HEADER_ROW. lia. Qed.

Lemma data_rows_app (ws : grid) (r : row) :
  summary_layout ws -> data_rows (ws ++ [r]) = (data_rows ws ++ [r])%list.
Proof.
  intros H%layout_length. unfold data_rows. by rewrite drop_app_le.
Qed.

Lemma data_rows_insert (ws : grid) (j : nat) (r : row) :
  data_rows (<[SUMMARY_HEADER_ROW + j := r]> ws) = <[j := r]> (data_rows ws).
Proof.
  unfold data_rows. rewrite drop_insert_ge by lia. f_equal; lia.
Qed.

Section Upsert.
Variables (name : string) (cells : row) (ws : grid).
Hypothesis layout : summary_layout ws.

Let row_data : row := PyStr name :: cells.
Let ws' := upsert_summary row_data name ws.

Lemma upsert_layout : summary_layout ws'.
Proof.
  unfold ws'. destruct (first_index name (data_rows ws)) as [j|] eqn:Ej.
  - destruct (first_index_Some _ _ _ Ej) as (old & Ho & _).
    rewrite (upsert_found _ _ _ _ _ layout Ej Ho).
    unfold summary_layout. rewrite list_lookup_insert_ne; [done |].
    unfold SUMMARY_HEADER_ROW. lia.
  - rewrite (upsert_not_found _ _ _ layout Ej).
    unfold summary_layout. by apply lookup_app_l_Some.
Qed.

Lemma upsert_count (l : string) :
  count_label l ws'
  = if bool_decide (l = name) then Nat.max 1 (count_label l ws)
    else count_label l ws.
Proof.
  unfold ws', count_label.
  destruct (first_index name (data_rows ws)) as [j|] eqn:Ej.
  - destruct (first_index_Some _ _ _ Ej) as (old & Ho & Hlab & _).
    rewrite (upsert_found _ _ _ _ _ layout Ej Ho), data_rows_insert.
    rewrite (filter_insert_same _ _ _ old)
      by (done || (unfold row_data;
                   by rewrite overwrite_label, (has_label_inj name))).
    case_bool_decide; [subst l |]; [|done].
    assert (0 < length (List.filter (has_label name) (data_rows ws))); [|lia].
    apply list_elem_of_lookup_2, list_elem_of_In in Ho.
    assert (In old (List.filter (has_label name) (data_rows ws))) as Hin
        by (by apply filter_In).
    destruct (List.filter _ _); [done | simpl; lia].
  - rewrite (upsert_not_found _ _ _ layout Ej), data_rows_app by done.
    rewrite List.filter_app, length_app. simpl.
    change (has_label l row_data) with (Str.eqb name l).
    unfold Str.eqb. case_bool_decide; case_bool_decide; subst; try done.
    rewrite (first_index_None _ _ Ej). simpl. lia.
Qed.

Lemma upsert_idempotent : upsert_summary row_data name ws' = ws'.
Proof.
  pose proof upsert_layout as Hl'. unfold ws' in *.
  assert (has_label name row_data = true) as Hrd by apply eqb_refl.
  destruct (first_index name (data_rows ws)) as [j|] eqn:Ej.
  - destruct (first_index_Some _ _ _ Ej) as (old & Ho & Hlab & _).
    rewrite (upsert_found _ _ _ _ _ layout Ej Ho) in *.
    assert (j < length (data_rows ws)) as Hj by (by eapply lookup_lt_Some).
    rewrite (upsert_found _ _ _ j (overwrite row_data old) Hl').
    + by rewrite list_insert_insert_eq, overwrite_twice.
    + rewrite data_rows_insert. by apply first_index_insert.
    + rewrite data_rows_insert. by apply list_lookup_insert_eq.
  - rewrite (upsert_not_found _ _ _ layout Ej) in *.
    rewrite (upsert_found _ _ _ (length (data_rows ws)) row_data Hl').
    + rewrite overwrite_self.
      replace (SUMMARY_HEADER_ROW + length (data_rows ws)) with (length ws + 0).
      * by rewrite insert_app_r.
      * unfold data_rows. rewrite length_drop.
        pose proof (layout_length _ layout). lia.
    + rewrite data_rows_app by done. by apply first_index_app_new.
    + rewrite data_rows_app by done.
      by rewrite lookup_app_r, Nat.sub_diag.
Qed.

End Upsert.

Lemma update_monthly_summary_twice
      (py : python) (now_prefix now_label : datetime) (bot : ExpenseBot) :
  summary_layout (summary_worksheet bot) ->
  update_monthly_summary py now_prefix now_label
                         (update_monthly_summary py now_prefix now_label bot)
  = update_monthly_summary py now_prefix now_label bot.
Proof.
  intros Hl. unfold update_monthly_summary.
  rewrite make_row_data_six_keys by apply aggregate_month_six_keys.
  cbn [worksheet summary_worksheet].
  rewrite make_row_data_six_keys by apply aggregate_month_six_keys.
  f_equal. by apply upsert_idempotent.
Qed.

(** C1 as stated fails on a summary that already holds two rows with the
    target label: the first is overwritten, the second stays, so the label
    is carried by two rows after the call. *)
Lemma upsert_keeps_duplicate_rows :
  summary_layout summary_with_duplicates
  /\ upsert_summary (august_row 300 300) "August 2025" summary_with_duplicates
     = [[PyStr "📊 RINGKASAN PENGELUARAN BULANAN 📊"]; [];
        PyStr <$> summary_headers;
        august_row 300 300;
        [PyStr "July 2025"; PyInt 5; PyInt 0; PyInt 0; PyInt 0; PyInt 0;
         PyInt 0; PyInt 5];
        august_row 200 200]
  /\ count_label "August 2025"
       (upsert_summary (august_row 300 300) "August 2025"
                       summary_with_duplicates) = 2.
Proof. split_and!; reflexivity. Qed.

(** C1 (amended).  On a summary worksheet with its header row in place,
    the upsert of a row for the period label [name] overwrites in place
    the first row whose label cell equals [name], appending nothing, and
    appends one new row when no row has that label.  The number of rows
    that carry any other label is unchanged, and the target label is
    carried by as many rows as before, or by one when it was carried by
    none; so when no label was carried by two rows before the call, none
    is after it, and the target label is carried by exactly one row.
    Running the upsert a second time with the same row changes nothing,
    and so does running [update_monthly_summary] twice in succession,
    with the same readings of the clock. *)
Theorem upsert_summary_by_label (name : string) (cells : row) (ws : grid) :
  summary_layout ws ->
  let row_data := PyStr name :: cells in
  let ws' := upsert_summary row_data name ws in
  (forall j,
      first_index name (data_rows ws) = Some j ->
      exists old,
        data_rows ws !! j = Some old
        /\ has_label name old = true
        /\ (forall j' r, j' < j -> data_rows ws !! j' = Some r ->
                         has_label name r = false)
        /\ ws' = <[SUMMARY_HEADER_ROW + j := overwrite row_data old]> ws
        /\ length ws' = length ws)
  /\ (first_index name (data_rows ws) = None ->
      count_label name ws = 0 /\ ws' = (ws ++ [row_data])%list)
  /\ (forall l,
         count_label l ws'
         = if bool_decide (l = name) then Nat.max 1 (count_label l ws)
           else count_label l ws)
  /\ ((forall l, count_label l ws <= 1) ->
      (forall l, count_label l ws' <= 1) /\ count_label name ws' = 1)
  /\ upsert_summary row_data name ws' = ws'
  /\ forall py now_prefix now_label bot,
      summary_layout (summary_worksheet bot) ->
      update_monthly_summary py now_prefix now_label
        (update_monthly_summary py now_prefix now_label bot)
      = update_monthly_summary py now_prefix now_label bot.
Proof.
  intros Hl row_data ws'. split_and!.
  - intros j Hj. destruct (first_index_Some _ _ _ Hj) as (old & Ho & Hlab & Hb).
    exists old. unfold ws'.
    rewrite (upsert_found _ _ _ _ _ Hl Hj Ho), length_insert. done.
  - intros Hn. split; [|by apply upsert_not_found].
    unfold count_label. by rewrite (first_index_None _ _ Hn).
  - intros l. by apply upsert_count.
  - intros Hone.
    assert (forall l, count_label l ws' =
                      if bool_decide (l = name)
                      then Nat.max 1 (count_label l ws)
                      else count_label l ws) as Hc
        by (intros l; by apply upsert_count).
    split.
    + intros l. rewrite Hc. specialize (Hone l). case_bool_decide; lia.
    + rewrite Hc, bool_decide_eq_true_2 by done. specialize (Hone name). lia.
  - by apply upsert_idempotent.
  - intros py now_prefix now_label bot. apply update_monthly_summary_twice.
Qed.

Lemma upsert_summary_by_label_witness :
  let ws := summary_worksheet bot0 in
  let cells := [PyInt 50000; PyInt 10000; PyInt 0; PyInt 0; PyInt 0; PyInt 0;
                PyInt 60000] in
  summary_layout ws
  /\ upsert_summary (PyStr "August 2025" :: cells) "August 2025"
       (upsert_summary (PyStr "August 2025" :: cells) "August 2025" ws)
     = upsert_summary (PyStr "August 2025" :: cells) "August 2025" ws.
Proof.
  intros ws cells.
  assert (summary_layout ws) as H by reflexivity.
  split; [exact H |].
  exact (proj1 (proj2 (proj2 (proj2 (proj2
           (upsert_summary_by_label "August 2025" cells ws H)))))).
Defined.

(** ** True division and the daily average *)

Lemma digits2_size (p : positive) : digits2_pos p = Pos.size p.
Proof. induction p as [p IH | p IH |]; simpl; by rewrite ?IH. Qed.

Lemma digits2_log2 (p : positive) :
  Zpos (digits2_pos p) = (Z.log2 (Zpos p) + 1)%Z.
Proof.
  destruct p as [p | p |]; simpl; rewrite ?digits2_size; lia.
Qed.

(** A mantissa that already fits is left alone by the rounding. *)
Lemma binary_round_aux_fits (m : positive) (e : Z) :
  (fexp prec64 emax64 (Zpos (digits2_pos m) + e) <= e)%Z ->
  (e <= emax64 - prec64)%Z ->
  binary_round_aux prec64 emax64 false (Zpos m) e loc_Exact
  = S754_finite false m e.
Proof.
  intros Hfit He.
  assert (forall l, shr_fexp prec64 emax64 (Zpos m) e l
                    = (shr_record_of_loc (Zpos m) l, e)) as Hshr.
  { intros l. unfold shr_fexp, shr. simpl Zdigits2.
    destruct (fexp prec64 emax64 (Zpos (digits2_pos m) + e) - e)%Z eqn:E;
      try done. lia. }
  unfold binary_round_aux. rewrite Hshr. simpl. rewrite Hshr. simpl.
  by rewrite (proj2 (Z.leb_le _ _) He).
Qed.

(** An even mantissa one bit too long loses its last bit, exactly. *)
Lemma binary_round_aux_even (m : positive) (e : Z) :
  fexp prec64 emax64 (Zpos (digits2_pos m~0) + e) = (e + 1)%Z ->
  (e + 1 <= emax64 - prec64)%Z ->
  binary_round_aux prec64 emax64 false (Zpos m~0) e loc_Exact
  = S754_finite false m (e + 1).
Proof.
  intros Hfit He.
  assert (shr_fexp prec64 emax64 (Zpos m~0) e loc_Exact
          = (Build_shr_record (Zpos m) false false, (e + 1)%Z)) as Hshr.
  { unfold shr_fexp.
    change (Zdigits2 (Zpos m~0)) with (Zpos (digits2_pos m~0)). rewrite Hfit.
    replace (e + 1 - e)%Z with 1%Z by lia. done. }
  assert (shr_fexp prec64 emax64 (Zpos m) (e + 1) loc_Exact
          = (Build_shr_record (Zpos m) false false, (e + 1)%Z)) as Hshr'.
  { unfold shr_fexp.
    change (Zdigits2 (Zpos m)) with (Zpos (digits2_pos m)).
    replace (Zpos (digits2_pos m) + (e + 1))%Z
      with (Zpos (digits2_pos m~0) + e)%Z
      by (cbn [digits2_pos]; lia).
    rewrite Hfit. by rewrite Z.sub_diag. }
  unfold binary_round_aux. rewrite Hshr. simpl. rewrite Hshr'. simpl.
  by rewrite (proj2 (Z.leb_le _ _) He).
Qed.

Lemma div_eucl_exact (a b : Z) :
  (0 < b)%Z -> Z.div_eucl (a * b) b = (a, 0%Z).
Proof.
  intros Hb.
  pose proof (Z.div_mul a b ltac:(lia)) as Hq.
  pose proof (Z.mod_mul a b ltac:(lia)) as Hr.
  unfold Z.div, Z.modulo in *.
  destruct (Z.div_eucl (a * b) b) as [q r]. by subst.
Qed.

Lemma new_location_exact (n : Z) : new_location n 0 = loc_Exact.
Proof. unfold new_location. by destruct (Z.even n). Qed.

(** The float quotient of [q * d] by [d] is the float of value [q]. *)
Lemma SFdiv_exact (q d : positive) :
  (Zpos q < 2 ^ 53)%Z ->
  exists m e,
    SFdiv prec64 emax64 (S754_finite false (q * d) 0) (S754_finite false d 0)
    = S754_finite false m e
    /\ (e <= 0)%Z /\ Zpos m = (Zpos q * 2 ^ (- e))%Z.
Proof.
  intros Hq.
  set (Lq := Z.log2 (Zpos q)). set (Ld := Z.log2 (Zpos d)).
  set (Lt := Z.log2 (Zpos (q * d))).
  assert (0 <= Lq <= 52)%Z as HLq.
  { split; [apply Z.log2_nonneg |].
    assert (Lq < 53)%Z; [|lia]. apply Z.log2_lt_pow2; lia. }
  assert (Lq + Ld <= Lt <= Lq + Ld + 1)%Z as HLt.
  { unfold Lt. rewrite Pos2Z.inj_mul. split.
    - apply Z.log2_mul_below; lia.
    - apply Z.log2_mul_above; lia. }
  set (D := (Lt - Ld)%Z).
  set (s := (53 - D)%Z).
  assert (SFdiv_core_binary prec64 emax64 (Zpos (q * d)) 0 (Zpos d) 0
          = ((Zpos q * 2 ^ s)%Z, (- s)%Z, loc_Exact)) as Hcore.
  { unfold SFdiv_core_binary.
    change (Zdigits2 (Zpos (q * d))) with (Zpos (digits2_pos (q * d))).
    change (Zdigits2 (Zpos d)) with (Zpos (digits2_pos d)).
    rewrite !digits2_log2. fold Lt Ld.
    assert (Z.min (fexp prec64 emax64 (Lt + 1 + 0 - (Ld + 1 + 0))) (0 - 0)
            = (- s)%Z) as ->.
    { unfold fexp, emin, prec64, emax64, s, D. lia. }
    replace (0 - 0 - - s)%Z with s by lia.
    assert (match s with
            | Z0 => Zpos (q * d)
            | Zpos _ => Z.shiftl (Zpos (q * d)) s
            | Zneg _ => 0%Z
            end = (Zpos q * 2 ^ s * Zpos d)%Z) as ->.
    { destruct s as [|ps|ps] eqn:Es.
      - rewrite Pos2Z.inj_mul. lia.
      - rewrite Z.shiftl_mul_pow2 by lia. rewrite Pos2Z.inj_mul. lia.
      - unfold s, D in Es. lia. }
    rewrite div_eucl_exact by lia. by rewrite new_location_exact. }
  unfold SFdiv. rewrite Hcore. cbn [xorb].
  assert (0 <= s)%Z as Hs by (unfold s, D; lia).
  assert (Z.log2 (Zpos q * 2 ^ s) = (Lq + s)%Z) as Hlog.
  { rewrite Z.log2_mul_pow2 by lia. fold Lq. lia. }
  destruct (decide (D = Lq + 1)%Z) as [HD | HD].
  - (* the quotient has 53 bits *)
    destruct (Zpos q * 2 ^ s)%Z as [|m|m] eqn:Em; [lia | | lia].
    exists m, (- s)%Z. split_and!; [| lia | by rewrite Z.opp_involutive].
    apply binary_round_aux_fits; [|unfold prec64, emax64; lia].
    rewrite digits2_log2, Hlog.
    unfold fexp, emin, prec64, emax64, s. lia.
  - (* the quotient has 54 bits, the last one being 0 *)
    assert (D = Lq) as HD' by (unfold D in *; lia).
    assert (1 <= s)%Z as Hs1 by (unfold s; lia).
    destruct (Zpos q * 2 ^ (s - 1))%Z as [|m|m] eqn:Em; [lia | | lia].
    assert (Zpos q * 2 ^ s = Zpos m~0)%Z as Em'.
    { replace s with (1 + (s - 1))%Z at 1 by lia.
      rewrite Z.pow_add_r by lia. lia. }
    rewrite Em' in *.
    exists m, (- s + 1)%Z. split_and!; [| lia |].
    + apply binary_round_aux_even; [|unfold prec64, emax64; lia].
      rewrite digits2_log2, Hlog.
      unfold fexp, emin, prec64, emax64, s. lia.
    + rewrite <- Em. f_equal. f_equal. lia.
Qed.

Lemma py_truediv_exact (q d : Z) :
  (0 < q < 2 ^ 53)%Z -> (0 < d)%Z ->
  exists m e,
    py_truediv (q * d) d = Ok (S754_finite false m e)
    /\ (e <= 0)%Z /\ Zpos m = (q * 2 ^ (- e))%Z.
Proof.
  intros Hq Hd.
  destruct q as [|q|q]; [lia | | lia]. destruct d as [|d|d]; [lia | | lia].
  destruct (SFdiv_exact q d ltac:(lia)) as (m & e & Hdiv & He & Hm).
  exists m, e. split_and!; [| done | done].
  unfold py_truediv. change (Zpos q * Zpos d)%Z with (Zpos (q * d)).
  unfold float_of_Z. change (Zpos d =? 0)%Z with false. cbv iota.
  by rewrite Hdiv.
Qed.

(** A float whose value is the integer [q] is printed as [q]. *)
Lemma format_average_exact (q : Z) (m : positive) (e : Z) :
  (e <= 0)%Z -> Zpos m = (q * 2 ^ (- e))%Z ->
  format_average (PyFloat (S754_finite false m e)) = group3 (str_of_int q).
Proof.
  intros He Hm. unfold format_average, format_fixed.
  cbn [Nat.eqb Z.of_nat]. rewrite Z.pow_0_r, Z.div_1_r.
  assert (scaled 0 m e = q) as ->; [|done].
  unfold scaled. cbn [Z.of_nat]. rewrite Z.pow_0_r, !Z.mul_1_r.
  destruct e as [|e|e]; [| lia |].
  - rewrite Hm. simpl. lia.
  - rewrite Hm. change (- Zneg e)%Z with (Zpos e).
    unfold div_half_even.
    rewrite Z.div_mul, Z.mod_mul by lia.
    assert (0 < 2 ^ Zpos e)%Z by (apply Z.pow_pos_nonneg; lia).
    destruct (2 * 0 ?= 2 ^ Zpos e)%Z eqn:E; [| done |].
    + apply Z.compare_eq in E. lia.
    + apply Z.compare_gt_iff in E. lia.
Qed.

(** The average line of the monthly view prints the float quotient of
    the total of the listed expenses by the day of the month. *)
Lemma monthly_text_average (py : python)
      (now : datetime) (expenses : list record) (text : string) :
  0 < day now ->
  monthly_text py now expenses = Ok text ->
  exists total q before after,
    sum_amounts expenses = Ok total
    /\ py_truediv total (Z.of_nat (day now)) = Ok q
    /\ text = before +:+ "📊 Rata-rata per hari: Rp "
              +:+ format_fixed true 0 q +:+ after.
Proof.
  intros Hday. unfold monthly_text, daily_average.
  destruct (sum_amounts expenses) as [total|]; [|done]. cbn [rbind].
  rewrite (proj2 (Z.ltb_lt _ _)) by lia.
  destruct (py_truediv total (Z.of_nat (day now))) as [q|] eqn:Hq; [|done].
  cbn [rbind].
  destruct (categories_of py [] expenses) as [cats|]; [|done].
  cbn [rbind].
  destruct (monthly_lines py total (sorted_desc cats)) as [lines|]; [|done].
  cbn [rbind format_average]. intros [= <-].
  exists total, q.
  exists ("📊 *RINGKASAN PENGELUARAN BULAN INI*" +:+ nl
          +:+ "📅 Bulan: " +:+ strftime_BY now +:+ nl +:+ nl
          +:+ "📝 Total transaksi: " +:+ dec (length expenses) +:+ nl
          +:+ "💰 Total pengeluaran: Rp " +:+ format_thousands total +:+ nl).
  exists (nl +:+ nl +:+ "*📋 PENGELUARAN PER KATEGORI BULAN INI:*" +:+ nl
          +:+ lines).
  split_and!; [done | done |].
  by rewrite !append_assoc.
Qed.

(** C8.  The daily average that the monthly view reports is the float
    quotient of the month's total by the current day of the month (an
    integer count), printed without decimals.  Whenever the day
    count divides the total, the average is the float whose value is the
    integer quotient, and it is printed as that integer; a total of 60000
    on day 3 gives 20000, and the view of such a month reads
    "Rata-rata per hari: Rp 20,000". *)
Theorem daily_average_is_total_over_day (q : Z) (current_day : nat) :
  0 < current_day ->
  (0 < q < 2 ^ 53)%Z ->
  (forall py now expenses text,
      0 < day now ->
      monthly_text py now expenses = Ok text ->
      exists total quotient before after,
        sum_amounts expenses = Ok total
        /\ py_truediv total (Z.of_nat (day now)) = Ok quotient
        /\ text = before +:+ "📊 Rata-rata per hari: Rp "
                  +:+ format_fixed true 0 quotient +:+ after)
  /\ (exists m e,
      daily_average (q * Z.of_nat current_day) current_day
      = Ok (PyFloat (S754_finite false m e))
      /\ (e <= 0)%Z /\ Zpos m = (q * 2 ^ (- e))%Z
      /\ format_average (PyFloat (S754_finite false m e))
         = group3 (str_of_int q))
  /\ daily_average 60000 3
     = Ok (PyFloat (S754_finite false 5497558138880000 (-38)))
  /\ (5497558138880000 = 20000 * 2 ^ 38)%Z
  /\ format_average (PyFloat (S754_finite false 5497558138880000 (-38)))
     = "20,000"
  /\ get_monthly_summary py0 now0 42
       {| worksheet := ledger_60000; summary_worksheet := [] |}
     = "📊 *RINGKASAN PENGELUARAN BULAN INI*" +:+ nl
       +:+ "📅 Bulan: August 2025" +:+ nl +:+ nl
       +:+ "📝 Total transaksi: 3" +:+ nl
       +:+ "💰 Total pengeluaran: Rp 60,000" +:+ nl
       +:+ "📊 Rata-rata per hari: Rp 20,000" +:+ nl +:+ nl
       +:+ "*📋 PENGELUARAN PER KATEGORI BULAN INI:*" +:+ nl
       +:+ "🍽️ Makan: Rp 50,000 (83.3%)" +:+ nl
       +:+ "🚗 Transport: Rp 10,000 (16.7%)" +:+ nl.
Proof.
  intros Hday Hq. split_and!; try reflexivity;
    [intros py now expenses text; apply monthly_text_average |].
  destruct (py_truediv_exact q (Z.of_nat current_day) Hq ltac:(lia))
    as (m & e & Hdiv & He & Hm).
  exists m, e. split_and!; [| done | done | by apply format_average_exact].
  unfold daily_average.
  rewrite (proj2 (Z.ltb_lt _ _)) by lia. by rewrite Hdiv.
Qed.

Lemma daily_average_is_total_over_day_witness :
  0 < 3 /\ (0 < 20000 < 2 ^ 53)%Z
  /\ exists m e,
      daily_average (20000 * Z.of_nat 3) 3
      = Ok (PyFloat (S754_finite false m e))
      /\ (e <= 0)%Z /\ Zpos m = (20000 * 2 ^ (- e))%Z
      /\ format_average (PyFloat (S754_finite false m e))
         = group3 (str_of_int 20000).
Proof.
  assert (0 < 3) as H1 by lia.
  assert (0 < 20000 < 2 ^ 53)%Z as H2 by lia.
  split; [exact H1 |]. split; [exact H2 |].
  exact (proj1 (proj2 (daily_average_is_total_over_day 20000 3 H1 H2))).
Defined.

(** * Further properties *)

(** ** The amount normalizer on text *)

Lemma keep_plain c :
  keep_digit_or_minus c = true ->
  Char.is_space c = false /\ Char.is_ascii c = true.
Proof. destruct c as [[] [] [] [] [] [] [] []]; by vm_compute. Qed.

(** The whitespace characters beyond ASCII hold no ASCII byte. *)
Lemma unicode_whitespace_bytes (c : string) :
  c ∈ Char.unicode_whitespace ->
  Str.all (fun a => negb (Char.is_ascii a)) c = true.
Proof.
  revert c. apply Forall_forall. vm_compute. repeat constructor.
Qed.

Lemma filter_non_ascii (q : ascii -> bool) (c : string) :
  (forall a, q a = true -> Char.is_ascii a = true) ->
  Str.all (fun a => negb (Char.is_ascii a)) c = true ->
  Str.filter q c = "".
Proof.
  intros Hq. induction c as [|a c IH]; simpl; [done |].
  intros [Ha Hc]%andb_prop. rewrite (IH Hc).
  destruct (q a) eqn:E; [|done]. apply Hq in E. by rewrite E in Ha.
Qed.

Lemma filter_space (q : ascii -> bool) (c : string) :
  (forall a, q a = true -> Char.is_space a = false /\ Char.is_ascii a = true) ->
  Str.isspace c = true -> Str.filter q c = "".
Proof.
  intros Hq Hc.
  assert (c ∈ Char.unicode_whitespace -> Str.filter q c = "") as Hu.
  { intros H%unicode_whitespace_bytes. apply filter_non_ascii; [|done].
    intros a Ha. by apply Hq. }
  destruct c as [|a [|b c]]; unfold Str.isspace in Hc.
  - done.
  - simpl. destruct (q a) eqn:E; [|done]. apply Hq in E as [E _]. congruence.
  - apply Hu. by apply bool_decide_eq_true in Hc.
Qed.

Lemma filter_spaces (q : ascii -> bool) (l : list string) :
  (forall a, q a = true -> Char.is_space a = false /\ Char.is_ascii a = true) ->
  forallb Str.isspace l = true -> Str.filter q (Str.text l) = "".
Proof.
  intros Hq. induction l as [|c l IH]; [done |]. cbn [forallb].
  intros [Hc Hl]%andb_prop.
  by rewrite text_cons, filter_append, (filter_space _ _ Hq Hc), IH.
Qed.

(** Stripping takes away nothing that a filter on ASCII characters other
    than whitespace keeps. *)
Lemma filter_strip (q : ascii -> bool) (s : string) :
  (forall a, q a = true -> Char.is_space a = false /\ Char.is_ascii a = true) ->
  Str.filter q (Str.strip s) = Str.filter q s.
Proof.
  intros Hq. destruct (strip_split s) as (lead & trail & E & Hl & Ht).
  rewrite E at 2. rewrite !filter_append.
  rewrite (filter_spaces _ _ Hq Hl), (filter_spaces _ _ Hq Ht).
  by rewrite append_nil_r.
Qed.

Lemma all_filter_self (q : ascii -> bool) (s : string) :
  Str.all q (Str.filter q s) = true.
Proof.
  induction s as [|c s IH]; simpl; [done |].
  destruct (q c) eqn:E; simpl; [by rewrite E |done].
Qed.

Lemma filter_all (q : ascii -> bool) (s : string) :
  Str.all q s = true -> Str.filter q s = s.
Proof.
  induction s as [|c s IH]; simpl; [done |].
  intros [-> Hs]%andb_prop. by rewrite IH.
Qed.

Lemma forallb_ends (p : string -> bool) (l : list string) :
  l <> [] -> forallb p l = true -> first_is p l = true /\ last_is p l = true.
Proof.
  intros Hne H. split.
  - destruct l as [|a l]; [done |]. simpl in *. by apply andb_prop in H as [? _].
  - induction l as [|a l IH]; [done |]. simpl in H.
    apply andb_prop in H as [Ha Hl].
    destruct l as [|b l]; [done |]. by apply IH.
Qed.

Lemma strip_chars_no_space (l : list string) :
  forallb not_space l = true -> Str.strip_chars l = l.
Proof.
  intros H. destruct (decide (l = [])) as [-> | Hne]; [done |].
  destruct (forallb_ends _ _ Hne H) as [Hs He].
  pose proof (strip_chars_core [] l [] eq_refl eq_refl Hs He) as E.
  by rewrite app_nil_r in E.
Qed.

Lemma singles_not_space (s : string) :
  Str.all (fun a => negb (Char.is_space a)) s = true ->
  forallb not_space (singles s) = true.
Proof.
  induction s as [|a s IH]; [done |]. cbn [Str.all singles forallb].
  intros [Ha Hs]%andb_prop.
  change (not_space (String a "")) with (negb (Char.is_space a)).
  by rewrite Ha, IH.
Qed.

(** A text of ASCII characters without whitespace is left as it is. *)
Lemma strip_no_space (s : string) :
  Str.is_ascii s = true ->
  Str.all (fun a => negb (Char.is_space a)) s = true ->
  Str.strip s = s.
Proof.
  intros Ha Hs. unfold Str.strip.
  rewrite (chars_ascii _ Ha), strip_chars_no_space
    by (by apply singles_not_space).
  rewrite <- (chars_ascii _ Ha). apply text_chars.
Qed.

Lemma strip_keep (s : string) :
  Str.all keep_digit_or_minus s = true -> Str.strip s = s.
Proof.
  intros H. apply strip_no_space; (eapply all_impl; [|exact H]);
    intros c [Hc Ha]%keep_plain; [done | by rewrite Hc].
Qed.

Lemma count_digits_digits (digits : string) :
  Str.all Char.is_digit digits = true ->
  count_digits digits = Z.of_nat (String.length digits).
Proof. intros H. unfold count_digits. by rewrite (filter_all _ _ H). Qed.

Lemma decimal_from_digits (digits : string) (acc : Z) :
  Str.all Char.is_digit digits = true ->
  int_digits acc digits = Some (decimal_from acc digits).
Proof.
  revert acc. induction digits as [|c digits IH]; intros acc; simpl; [done |].
  intros [Hc Hall]%andb_prop. rewrite Hc. by apply IH.
Qed.

Lemma digit_code c : Char.is_digit c = true ->
  (Char.code c =? 45)%N = false /\ (Char.code c =? 43)%N = false.
Proof. destruct c as [[] [] [] [] [] [] [] []]; by vm_compute. Qed.

Lemma int_unsigned_digits (digits : string) :
  digits <> "" -> Str.all Char.is_digit digits = true ->
  int_unsigned digits = Some (decimal digits).
Proof.
  destruct digits as [|c d]; [done |]. simpl. intros _ [Hc Hall]%andb_prop.
  rewrite Hc. unfold decimal. simpl. by apply decimal_from_digits.
Qed.

Lemma digit_keep c : Char.is_digit c = true -> keep_digit_or_minus c = true.
Proof. unfold keep_digit_or_minus. by intros ->. Qed.

(** The text [int] accepts holds digits and underscores only. *)
Lemma int_digits_chars (n : nat) :
  forall (s : string) (acc z : Z),
    String.length s <= n ->
    int_digits acc s = Some z -> Str.all digit_or_underscore s = true.
Proof.
  induction n as [|n IH]; intros s acc z Hn.
  - destruct s; [done | simpl in Hn; lia].
  - destruct s as [|c s]; [done |]. simpl in Hn. simpl.
    unfold digit_or_underscore at 1.
    destruct (Char.is_digit c) eqn:Hc; simpl.
    + intros H. eapply IH; [|exact H]. lia.
    + destruct (Char.code c =? 95)%N; [|done].
      destruct s as [|d s]; [done |]. simpl in Hn. simpl.
      unfold digit_or_underscore at 1.
      destruct (Char.is_digit d) eqn:Hd; [|done]. simpl.
      intros H. eapply IH; [|exact H]. lia.
Qed.

Lemma keep_and_underscore c :
  keep_digit_or_minus c = true -> digit_or_underscore c = true ->
  Char.is_digit c = true.
Proof. destruct c as [[] [] [] [] [] [] [] []]; by vm_compute. Qed.

Lemma all_and (p q r : ascii -> bool) (s : string) :
  (forall c, p c = true -> q c = true -> r c = true) ->
  Str.all p s = true -> Str.all q s = true -> Str.all r s = true.
Proof.
  intros H. induction s as [|c s IH]; simpl; [done |].
  intros [Hp Hps]%andb_prop [Hq Hqs]%andb_prop.
  by rewrite (H _ Hp Hq), IH.
Qed.

(** On the characters the normalizer keeps, [int] accepts digits only. *)
Lemma int_unsigned_keep (t : string) (z : Z) :
  Str.all keep_digit_or_minus t = true ->
  int_unsigned t = Some z ->
  t <> "" /\ Str.all Char.is_digit t = true.
Proof.
  intros Hk. destruct t as [|c t]; [done |]. simpl.
  destruct (Char.is_digit c) eqn:Hc; [|done]. intros H. split; [done |].
  simpl. apply (int_digits_chars _ _ _ _ (le_n _)) in H.
  apply all_tail in Hk.
  apply (all_and _ _ _ _ keep_and_underscore Hk H).
Qed.

Lemma keep_first c :
  keep_digit_or_minus c = true ->
  (Char.code c =? 43)%N = false
  /\ ((Char.code c =? 45)%N = true /\ c = "-"%char
      \/ (Char.code c =? 45)%N = false /\ Char.is_digit c = true).
Proof. destruct c as [[] [] [] [] [] [] [] []]; vm_compute; auto. Qed.

(** What [to_int] makes of a text, from the characters it keeps: 0 when
    they hold more digits than [int] accepts. *)
Lemma to_int_text_filter (s : string) :
  let t := Str.filter keep_digit_or_minus s in
  to_int_text s
  = Ok (if (int_max_str_digits <? count_digits t)%Z then 0%Z
        else
          match t with
          | String c t' =>
              if (Char.code c =? 45)%N
              then default 0%Z (Z.opp <$> int_unsigned t')
              else default 0%Z (int_unsigned t)
          | EmptyString => 0%Z
          end).
Proof.
  intros t. unfold to_int_text.
  rewrite (filter_strip _ _ keep_plain). fold t.
  pose proof (all_filter_self keep_digit_or_minus s) as Hk. fold t in Hk.
  destruct t as [|c t']; [done |].
  unfold py_int. rewrite (strip_keep _ Hk).
  destruct (int_max_str_digits <? count_digits (String c t'))%Z;
    [by destruct (_ || _) |].
  simpl in Hk. apply andb_prop in Hk as [Hc Hk].
  destruct (keep_first _ Hc) as [Hplus [[Hm ->]|[Hm Hd]]].
  - change (Char.code "-" =? 45)%N with true. cbv iota.
    destruct t' as [|c' t'']; [done |].
    replace (Str.eqb _ "" || Str.eqb _ "-") with false by done.
    by destruct (int_unsigned _).
  - rewrite Hm, Hplus.
    replace (Str.eqb _ "" || Str.eqb (String c t') "-") with false.
    + by destruct (int_unsigned _).
    + symmetry. apply orb_false_intro; [done |].
      unfold Str.eqb. apply bool_decide_eq_false. intros [= -> _]. done.
Qed.

Lemma to_int_text_digits (s digits : string) :
  digits <> "" -> Str.all Char.is_digit digits = true ->
  Str.filter keep_digit_or_minus s = digits ->
  to_int_text s
  = Ok (if (int_max_str_digits <? Z.of_nat (String.length digits))%Z
        then 0%Z else decimal digits).
Proof.
  intros Hne Hall E. rewrite to_int_text_filter. cbv zeta. rewrite E.
  rewrite (count_digits_digits _ Hall).
  destruct (_ <? _)%Z; [done |].
  rewrite (int_unsigned_digits _ Hne Hall).
  destruct digits as [|c d]; [done |].
  simpl in Hall. apply andb_prop in Hall as [Hc _].
  by destruct (digit_code _ Hc) as [-> _].
Qed.

Lemma to_int_text_minus_digits (s digits : string) :
  digits <> "" -> Str.all Char.is_digit digits = true ->
  Str.filter keep_digit_or_minus s = "-" +:+ digits ->
  to_int_text s
  = Ok (if (int_max_str_digits <? Z.of_nat (String.length digits))%Z
        then 0%Z else - decimal digits)%Z.
Proof.
  intros Hne Hall E. rewrite to_int_text_filter. cbv zeta. rewrite E.
  change (count_digits ("-" +:+ digits)) with (count_digits digits).
  rewrite (count_digits_digits _ Hall).
  destruct (_ <? _)%Z; [done |].
  simpl. change (Char.code "-" =? 45)%N with true. cbv iota.
  by rewrite (int_unsigned_digits _ Hne Hall).
Qed.

Lemma to_int_text_other (s : string) :
  (forall digits,
      digits <> "" -> Str.all Char.is_digit digits = true ->
      Str.filter keep_digit_or_minus s <> digits
      /\ Str.filter keep_digit_or_minus s <> "-" +:+ digits) ->
  to_int_text s = Ok 0%Z.
Proof.
  intros H. rewrite to_int_text_filter. cbv zeta.
  destruct (_ <? _)%Z; [done |].
  pose proof (all_filter_self keep_digit_or_minus s) as Hk.
  destruct (Str.filter keep_digit_or_minus s) as [|c t'] eqn:E; [done |].
  simpl in Hk. apply andb_prop in Hk as [Hc Hk].
  destruct (keep_first _ Hc) as [_ [[Hm ->]|[Hm Hd]]]; rewrite Hm.
  - destruct (int_unsigned t') as [z|] eqn:Eu; [|done].
    destruct (int_unsigned_keep _ _ Hk Eu) as [Hne Hall].
    by destruct (H t' Hne Hall) as [_ []].
  - destruct (int_unsigned (String c t')) as [z|] eqn:Eu; [|done].
    assert (Str.all keep_digit_or_minus (String c t') = true) as Hk'
      by (simpl; by rewrite Hc, Hk).
    destruct (int_unsigned_keep _ _ Hk' Eu) as [Hne Hall].
    by destruct (H _ Hne Hall) as [[] _].
Qed.

(** X1.  [to_int] returns an integer on every value but a float that is
    an infinity or NaN: it raises on those, and only on those. *)
Theorem to_int_returns_unless_non_finite (v : pyval) :
  (exists z, to_int v = Ok z) <-> non_finite v = false.
Proof.
  split; [|apply to_int_total_finite].
  intros [z Hz]. destruct v as [|b|n|f|s]; try done.
  by destruct f.
Qed.

(** X2.  Take away from a text every character that is neither an ASCII
    digit nor a minus sign.  When a non-empty run of at most 4300 digits
    is left, [to_int] returns the number it denotes; when a minus sign
    followed by such a run is left, the negation of that number.  A
    currency mark, dots, commas and spaces anywhere in the text change
    nothing.  When more than 4300 digits are left, [int] refuses them and
    [to_int] returns 0. *)
Theorem to_int_reads_digits_through_noise (s digits : string) :
  digits <> "" ->
  Str.all Char.is_digit digits = true ->
  ((Z.of_nat (String.length digits) <= int_max_str_digits)%Z ->
   (Str.filter keep_digit_or_minus s = digits ->
    to_int (PyStr s) = Ok (decimal digits))
   /\ (Str.filter keep_digit_or_minus s = "-" +:+ digits ->
       to_int (PyStr s) = Ok (- decimal digits)%Z))
  /\ ((int_max_str_digits < Z.of_nat (String.length digits))%Z ->
      Str.filter keep_digit_or_minus s = digits
      \/ Str.filter keep_digit_or_minus s = "-" +:+ digits ->
      to_int (PyStr s) = Ok 0%Z).
Proof.
  intros Hne Hall. cbn [to_int]. split.
  - intros Hcap%Z.ltb_ge. split; intros E.
    + by rewrite (to_int_text_digits _ _ Hne Hall E), Hcap.
    + by rewrite (to_int_text_minus_digits _ _ Hne Hall E), Hcap.
  - intros Hcap%Z.ltb_lt [E | E].
    + by rewrite (to_int_text_digits _ _ Hne Hall E), Hcap.
    + by rewrite (to_int_text_minus_digits _ _ Hne Hall E), Hcap.
Qed.

Lemma to_int_reads_digits_through_noise_witness :
  "1250" <> "" /\ Str.all Char.is_digit "1250" = true
  /\ (Z.of_nat (String.length "1250") <= int_max_str_digits)%Z
  /\ to_int (PyStr " Rp 1.250,- ") = Ok 0%Z
  /\ to_int (PyStr " Rp 1.250 ") = Ok 1250%Z
  /\ to_int (PyStr "- Rp 1,250") = Ok (-1250)%Z
  /\ ones 4301 <> "" /\ Str.all Char.is_digit (ones 4301) = true
  /\ (int_max_str_digits < Z.of_nat (String.length (ones 4301)))%Z
  /\ to_int (PyStr ("Rp " +:+ ones 4301)) = Ok 0%Z.
Proof.
  assert ("1250" <> "") as H1 by discriminate.
  assert (Str.all Char.is_digit "1250" = true) as H2 by reflexivity.
  assert (Z.of_nat (String.length "1250") <= int_max_str_digits)%Z as H3
      by (by vm_compute).
  assert (ones 4301 <> "") as H4 by discriminate.
  assert (Str.all Char.is_digit (ones 4301) = true) as H5
      by (by vm_compute).
  assert (int_max_str_digits < Z.of_nat (String.length (ones 4301)))%Z as H6
      by (by vm_compute).
  destruct (to_int_reads_digits_through_noise " Rp 1.250 " "1250" H1 H2)
    as [Ha _].
  destruct (to_int_reads_digits_through_noise "- Rp 1,250" "1250" H1 H2)
    as [Hb _].
  destruct (to_int_reads_digits_through_noise ("Rp " +:+ ones 4301)
                                              (ones 4301) H4 H5)
    as [_ Hc].
  split; [exact H1 |]. split; [exact H2 |]. split; [exact H3 |].
  split; [reflexivity |].
  split; [apply (proj1 (Ha H3)); reflexivity |].
  split; [apply (proj2 (Hb H3)); reflexivity |].
  split; [exact H4 |]. split; [exact H5 |]. split; [exact H6 |].
  apply (Hc H6). left. by vm_compute.
Defined.

(** X3.  In every other case, that is when what is left is neither a run
    of digits nor a minus sign followed by one, [to_int] returns 0: so
    for a date such as 2025-08-01, a range such as 10-20, or a number
    with a trailing minus sign. *)
Theorem to_int_zero_without_a_number (s : string) :
  (forall digits,
      digits <> "" -> Str.all Char.is_digit digits = true ->
      Str.filter keep_digit_or_minus s <> digits
      /\ Str.filter keep_digit_or_minus s <> "-" +:+ digits) ->
  to_int (PyStr s) = Ok 0%Z.
Proof. apply to_int_text_other. Qed.

Lemma to_int_zero_without_a_number_witness :
  to_int (PyStr "2025-08-01") = Ok 0%Z.
Proof.
  apply to_int_zero_without_a_number.
  intros digits _ Hall. split; intros E.
  - rewrite <- E in Hall. vm_compute in Hall. discriminate.
  - vm_compute in E. discriminate.
Defined.

(** ** Decimal text of integers *)

Lemma of_uint_acc_decimal (d : Decimal.uint) (acc : positive) :
  Zpos (Pos.of_uint_acc d acc)
  = decimal_from (Zpos acc) (NilEmpty.string_of_uint d).
Proof.
  revert acc. induction d; intros acc; simpl; [done | ..];
    rewrite IHd; f_equal; lia.
Qed.

Lemma of_uint_decimal (d : Decimal.uint) :
  Z.of_N (Pos.of_uint d) = decimal (NilEmpty.string_of_uint d).
Proof.
  unfold decimal. induction d; simpl; [done | done | ..];
    by rewrite of_uint_acc_decimal.
Qed.

Lemma string_of_uint_digits (d : Decimal.uint) :
  Str.all Char.is_digit (NilEmpty.string_of_uint d) = true.
Proof. induction d; simpl; [done | ..]; by rewrite IHd. Qed.

Lemma string_of_uint_nonnil (d : Decimal.uint) :
  d <> Decimal.Nil -> NilZero.string_of_uint d = NilEmpty.string_of_uint d
                      /\ NilEmpty.string_of_uint d <> "".
Proof. by destruct d. Qed.

(** The decimal text of a natural number: digits that denote it. *)
Lemma str_of_int_nonneg (n : Z) :
  (0 <= n)%Z ->
  str_of_int n <> "" /\ Str.all Char.is_digit (str_of_int n) = true
  /\ decimal (str_of_int n) = n.
Proof.
  intros Hn. unfold str_of_int. destruct n as [|p|p]; [done | | lia].
  simpl. destruct (string_of_uint_nonnil _ (Unsigned.to_uint_nonnil p))
    as [-> Hne].
  split_and!; [done | apply string_of_uint_digits |].
  by rewrite <- of_uint_decimal, Unsigned.of_to.
Qed.

Lemma str_of_int_neg (n : Z) :
  (n < 0)%Z -> str_of_int n = "-" +:+ str_of_int (- n).
Proof. by destruct n. Qed.

(** Commas are the only characters that grouping adds. *)
Lemma filter_group3 (digits : string) :
  Str.all Char.is_digit digits = true ->
  Str.filter keep_digit_or_minus (group3 digits) = digits.
Proof.
  induction digits as [|c d IH]; simpl; [done |].
  intros [Hc Hd]%andb_prop.
  destruct (_ && _); simpl; rewrite (digit_keep _ Hc), ?IH; try done.
Qed.

Lemma filter_format_thousands (z : Z) :
  Str.filter keep_digit_or_minus (format_thousands z)
  = Str.filter keep_digit_or_minus (str_of_int z).
Proof.
  unfold format_thousands.
  destruct (str_of_int_nonneg (Z.abs z) (Z.abs_nonneg z)) as (_ & Hall & _).
  destruct (Z.ltb_spec z 0) as [Hz|Hz].
  - rewrite (str_of_int_neg _ Hz). simpl.
    rewrite (filter_group3 _ Hall).
    rewrite <- (Z.abs_neq z) by lia.
    by rewrite (filter_all _ _ (all_impl _ _ _ digit_keep Hall)).
  - rewrite (filter_group3 _ Hall). rewrite Z.abs_eq by done.
    rewrite Z.abs_eq in Hall by done.
    by rewrite (filter_all _ _ (all_impl _ _ _ digit_keep Hall)).
Qed.

Lemma to_int_text_same_kept (s s' : string) :
  Str.filter keep_digit_or_minus s = Str.filter keep_digit_or_minus s' ->
  to_int_text s = to_int_text s'.
Proof. intros E. by rewrite !to_int_text_filter, E. Qed.

Lemma to_int_text_str_of_int (z : Z) :
  (Z.of_nat (String.length (str_of_int (Z.abs z))) <= int_max_str_digits)%Z ->
  to_int_text (str_of_int z) = Ok z.
Proof.
  intros Hcap%Z.ltb_ge.
  destruct (Z.ltb_spec z 0) as [Hz|Hz].
  - rewrite Z.abs_neq in Hcap by lia.
    destruct (str_of_int_nonneg (- z)) as (Hne & Hall & Hd); [lia |].
    rewrite (to_int_text_minus_digits _ (str_of_int (- z))); try done.
    + rewrite Hcap, Hd. f_equal. lia.
    + rewrite (str_of_int_neg _ Hz). simpl.
      by rewrite (filter_all _ _ (all_impl _ _ _ digit_keep Hall)).
  - rewrite Z.abs_eq in Hcap by lia.
    destruct (str_of_int_nonneg z Hz) as (Hne & Hall & Hd).
    rewrite (to_int_text_digits _ (str_of_int z)); try done.
    + by rewrite Hcap, Hd.
    + by rewrite (filter_all _ _ (all_impl _ _ _ digit_keep Hall)).
Qed.

(** The decimal text tells the integer. *)
Lemma str_of_int_inj (a b : Z) : str_of_int a = str_of_int b -> a = b.
Proof.
  assert (forall n m : Z, (0 <= n)%Z -> (m < 0)%Z ->
                          str_of_int n <> str_of_int m) as Hsign.
  { intros n m Hn Hm E.
    destruct (str_of_int_nonneg n Hn) as (_ & Hall & _).
    rewrite E, (str_of_int_neg _ Hm) in Hall. done. }
  intros E.
  destruct (Z.ltb_spec a 0) as [Ha|Ha], (Z.ltb_spec b 0) as [Hb|Hb].
  - rewrite (str_of_int_neg _ Ha), (str_of_int_neg _ Hb) in E.
    injection E as E.
    destruct (str_of_int_nonneg (- a)) as (_ & _ & Hda); [lia |].
    destruct (str_of_int_nonneg (- b)) as (_ & _ & Hdb); [lia |].
    rewrite E in Hda. lia.
  - by destruct (Hsign b a Hb Ha).
  - by destruct (Hsign a b Ha Hb).
  - destruct (str_of_int_nonneg a Ha) as (_ & _ & Hda).
    destruct (str_of_int_nonneg b Hb) as (_ & _ & Hdb).
    rewrite E in Hda. lia.
Qed.

(** X4.  [to_int] reads back the amounts the program prints: the decimal
    text of an integer, and the integer with thousands separators after
    the mark "Rp ", as the views print their totals; the integer has at
    most 4300 digits, the most that [int] accepts. *)
Theorem to_int_reads_printed_amount (z : Z) :
  (Z.of_nat (String.length (str_of_int (Z.abs z))) <= int_max_str_digits)%Z ->
  to_int (PyStr (str_of_int z)) = Ok z
  /\ to_int (PyStr (format_thousands z)) = Ok z
  /\ to_int (PyStr ("Rp " +:+ format_thousands z)) = Ok z.
Proof.
  intros Hcap. cbn [to_int]. split_and!.
  - by apply to_int_text_str_of_int.
  - rewrite <- (to_int_text_str_of_int z Hcap).
    apply to_int_text_same_kept, filter_format_thousands.
  - rewrite <- (to_int_text_str_of_int z Hcap).
    apply to_int_text_same_kept.
    by rewrite filter_append, filter_format_thousands.
Qed.

Lemma to_int_reads_printed_amount_witness :
  (Z.of_nat (String.length (str_of_int (Z.abs (-1250000))))
   <= int_max_str_digits)%Z
  /\ format_thousands (-1250000) = "-1,250,000"
  /\ to_int (PyStr "-1250000") = Ok (-1250000)%Z
  /\ to_int (PyStr "-1,250,000") = Ok (-1250000)%Z
  /\ to_int (PyStr "Rp -1,250,000") = Ok (-1250000)%Z.
Proof.
  assert (Z.of_nat (String.length (str_of_int (Z.abs (-1250000))))
          <= int_max_str_digits)%Z as H by (by vm_compute).
  split; [exact H |]. split; [reflexivity |].
  exact (to_int_reads_printed_amount (-1250000) H).
Defined.

(** ** What the parser returns *)

Lemma decimal_chars_nonneg (py : python) (digits : list string) (acc : Z) :
  (0 <= acc)%Z -> (0 <= decimal_chars py acc digits)%Z.
Proof.
  revert acc. induction digits as [|c d IH]; intros acc Hacc; [done |].
  unfold decimal_chars. cbn [foldl]. apply IH.
  destruct (Py.digit py c) as [v|] eqn:E; simpl;
    [pose proof (digit_range py _ _ E) |]; lia.
Qed.

Lemma lower_is_word c : Char.is_word c = true -> Char.is_word (Char.lower c) = true.
Proof. destruct c as [[] [] [] [] [] [] [] []]; by vm_compute. Qed.

Lemma all_map (p : ascii -> bool) (f : ascii -> ascii) (s : string) :
  (forall c, p c = true -> p (f c) = true) ->
  Str.all p s = true -> Str.all p (Str.map f s) = true.
Proof.
  intros H. induction s as [|c s IH]; simpl; [done |].
  intros [Hc Hs]%andb_prop. by rewrite (H _ Hc), IH.
Qed.

Lemma singles_word (py : python) (s : string) :
  forallb (Py.is_word py) (singles s) = true -> Str.all Char.is_word s = true.
Proof.
  induction s as [|a s IH]; [done |]. cbn [singles forallb Str.all].
  change (Py.is_word py (String a "")) with (Char.is_word a).
  by intros [-> H%IH]%andb_prop.
Qed.

Lemma parse_fields (py : python)
      (line kategori deskripsi : string) (jumlah : Z) :
  parse_expense_message py line = Some (kategori, jumlah, deskripsi) ->
  (exists token,
      token <> "" /\ forallb (Py.is_word py) (Str.chars token) = true
      /\ kategori = Py.lower py token
      /\ (Str.is_ascii token = true ->
          kategori <> "" /\ Str.all Char.is_word kategori = true))
  /\ Py.lower py kategori = kategori
  /\ (0 <= jumlah)%Z
  /\ first_is not_space (Str.chars deskripsi) = true
  /\ last_is not_space (Str.chars deskripsi) = true
  /\ forallb Re.is_dot (Str.chars deskripsi) = true.
Proof.
  intros H.
  destruct (parse_accepts_expense_line py _ _ H) as (token & digits & d & Hline).
  rewrite (parse_expense_line py _ _ _ _ Hline) in H.
  destruct (_ <? _)%Z; [done |].
  injection H as <- <- <-.
  destruct Hline as (lead & sep1 & sep2 & trail & _ & _ & _ & Ht & Wt & _ & _
                     & _ & Wd & _ & _ & Hs & He & Wdesc).
  split_and!; try done.
  - exists token. split_and!; try done. intros Ha.
    rewrite (py_lower_ascii py _ Ha). split.
    + by destruct token.
    + apply all_map; [apply lower_is_word |].
      apply (singles_word py). by rewrite <- chars_ascii.
  - apply py_lower_lower.
  - by apply decimal_chars_nonneg.
Qed.

(** ** Whitespace around a message *)

Lemma strip_chars_spaces (l : list string) :
  forallb Str.isspace l = true -> Str.strip_chars l = [].
Proof.
  intros H. unfold Str.strip_chars.
  by rewrite <- (app_nil_r l), (lstrip_chars_spaces _ _ H).
Qed.

Lemma strip_chars_surrounded (lead l trail : list string) :
  forallb Str.isspace lead = true ->
  forallb Str.isspace trail = true ->
  Str.strip_chars (lead ++ l ++ trail) = Str.strip_chars l.
Proof.
  intros Hl Ht.
  destruct (strip_chars_split l) as (l1 & t1 & E & Hl1 & Ht1 & Hcore).
  set (core := Str.strip_chars l) in *. rewrite E.
  replace (lead ++ (l1 ++ core ++ t1) ++ trail)%list
    with ((lead ++ l1) ++ core ++ (t1 ++ trail))%list
    by (by rewrite <- !app_assoc).
  destruct Hcore as [-> | [Hs He]].
  - apply strip_chars_spaces. simpl.
    by rewrite !forallb_app, Hl, Hl1, Ht1, Ht.
  - apply strip_chars_core; try done; by rewrite forallb_app, ?Hl, ?Hl1, ?Ht1, ?Ht.
Qed.

(** X5.  Whatever [parse_expense_message] returns, the category is the
    lower-cased form of a non-empty run of word characters, and
    lower-casing it again changes nothing; when that run is of ASCII
    characters, the category is itself a non-empty run of word
    characters.  The amount is not negative, and the description is not
    empty, starts and ends with a character that is not whitespace, and
    holds no line feed. *)
Theorem parse_expense_message_fields
        (py : python) (message kategori deskripsi : string) (jumlah : Z) :
  parse_expense_message py message = Some (kategori, jumlah, deskripsi) ->
  (exists token,
      token <> "" /\ forallb (Py.is_word py) (Str.chars token) = true
      /\ kategori = Py.lower py token
      /\ (Str.is_ascii token = true ->
          kategori <> "" /\ Str.all Char.is_word kategori = true))
  /\ Py.lower py kategori = kategori
  /\ (0 <= jumlah)%Z
  /\ first_is not_space (Str.chars deskripsi) = true
  /\ last_is not_space (Str.chars deskripsi) = true
  /\ forallb Re.is_dot (Str.chars deskripsi) = true.
Proof. apply parse_fields. Qed.

Lemma parse_expense_message_fields_witness :
  parse_expense_message py1 " café 007  nasi goreng "
  = Some ("café", 7%Z, "nasi goreng")
  /\ Py.lower py1 "café" = "café" /\ (0 <= 7)%Z
  /\ last_is not_space (Str.chars "nasi goreng") = true.
Proof.
  assert (parse_expense_message py1 " café 007  nasi goreng "
          = Some ("café", 7%Z, "nasi goreng")) as H by (by vm_compute).
  destruct (parse_expense_message_fields py1 _ _ _ _ H)
    as (_ & H2 & H3 & _ & H5 & _).
  split; [exact H |]. split; [exact H2 |]. split; [exact H3 | exact H5].
Defined.

(** X6.  Whitespace before and after a message does not count, be it of
    ASCII or not: a line whose characters are whitespace, then the
    characters of a message, then whitespace, parses as the message
    does. *)
Theorem parse_expense_message_ignores_outer_whitespace
        (py : python) (line message : string) (lead trail : list string) :
  Str.chars line = (lead ++ Str.chars message ++ trail)%list ->
  forallb Str.isspace lead = true ->
  forallb Str.isspace trail = true ->
  parse_expense_message py line = parse_expense_message py message.
Proof.
  intros E Hl Ht. unfold parse_expense_message.
  replace (Str.strip line) with (Str.strip message); [done |].
  unfold Str.strip. by rewrite E, strip_chars_surrounded.
Qed.

Lemma parse_expense_message_ignores_outer_whitespace_witness :
  let lead := [Char.utf8 160; " "; " "] in
  let trail := [" "; Char.utf8 8195] in
  let line := Char.utf8 160 +:+ "  makan 25000 nasi " +:+ Char.utf8 8195 in
  Str.chars line = (lead ++ Str.chars "makan 25000 nasi" ++ trail)%list
  /\ forallb Str.isspace lead = true
  /\ forallb Str.isspace trail = true
  /\ parse_expense_message py0 line
     = parse_expense_message py0 "makan 25000 nasi".
Proof.
  intros lead trail line.
  assert (Str.chars line
          = (lead ++ Str.chars "makan 25000 nasi" ++ trail)%list) as H1
      by (by vm_compute).
  assert (forallb Str.isspace lead = true) as H2 by (by vm_compute).
  assert (forallb Str.isspace trail = true) as H3 by (by vm_compute).
  split_and!; [exact H1 | exact H2 | exact H3 |].
  exact (parse_expense_message_ignores_outer_whitespace py0 _ _ _ _ H1 H2 H3).
Defined.

(** ** Totals of the ledger *)

Section Totals.
Variable py : python.
Variable month : string.

Lemma amount_in_six (r : record) :
  (amount_in py month "makan" r
   + amount_in py month "transport" r
   + amount_in py month "belanja" r
   + amount_in py month "hiburan" r
   + amount_in py month "kesehatan" r
   + amount_in py month "lainnya" r)%Z
  = amount_of py month r.
Proof.
  unfold amount_in, amount_of, contribution.
  destruct (_ && _); [|done].
  destruct (to_int _) as [a|]; [|done].
  pose proof (bucket_in_categories
                (Py.lower py (py_str py (get_or_empty r H_KATEGORI))))
    as Hb.
  apply in_categories in Hb.
  destruct Hb as [-> | [-> | [-> | [-> | [-> | ->]]]]];
    repeat case_bool_decide; try done; lia.
Qed.

Lemma bucket_sum_six (records : list record) :
  (bucket_sum py month "makan" records
   + bucket_sum py month "transport" records
   + bucket_sum py month "belanja" records
   + bucket_sum py month "hiburan" records
   + bucket_sum py month "kesehatan" records
   + bucket_sum py month "lainnya" records)%Z
  = ledger_total py month records.
Proof.
  induction records as [|r records IH]; [done |].
  cbn [bucket_sum ledger_total foldr]. fold (bucket_sum py month).
  fold (ledger_total py month records).
  rewrite <- IH, <- (amount_in_six r). unfold bucket_sum. lia.
Qed.

Lemma aggregate_month_bucket (records : list record) (c : string) :
  c ∈ categories ->
  value (aggregate_month py month records) c
  = bucket_sum py month c records.
Proof.
  intros Hc. unfold value. by rewrite aggregate_month_value.
Qed.

Lemma aggregate_month_total (records : list record) :
  sum_values (aggregate_month py month records)
  = ledger_total py month records.
Proof.
  rewrite sum_values_six_keys by apply aggregate_month_six_keys.
  rewrite !aggregate_month_bucket by (apply in_categories; tauto).
  apply bucket_sum_six.
Qed.

Lemma bucket_sum_nonneg (records : list record) (c : string) :
  (forall r, r ∈ records -> (0 <= amount_of py month r)%Z) ->
  (0 <= bucket_sum py month c records)%Z.
Proof.
  induction records as [|r records IH]; intros H; [done |].
  cbn [bucket_sum foldr]. fold (bucket_sum py month c records).
  assert (0 <= amount_in py month c r)%Z.
  { pose proof (H r ltac:(left)) as Hr. unfold amount_of, amount_in in *.
    destruct (contribution _ _ _) as [[b a]|]; [|done].
    by case_bool_decide. }
  assert (0 <= bucket_sum py month c records)%Z; [|lia].
  apply IH. intros r' Hr'. apply H. by right.
Qed.

Lemma bucket_sum_app (records records' : list record) (c : string) :
  bucket_sum py month c (records ++ records')
  = (bucket_sum py month c records
     + bucket_sum py month c records')%Z.
Proof.
  unfold bucket_sum. induction records as [|r records IH]; simpl; lia.
Qed.

End Totals.

(** ** The summary after an update *)

Lemma update_monthly_summary_upsert
      (py : python) (now_prefix now_label : datetime) (bot : ExpenseBot) :
  update_monthly_summary py now_prefix now_label bot
  = {| worksheet := worksheet bot;
       summary_worksheet :=
         upsert_summary
           (summary_row (strftime_BY now_label)
              (aggregate_month py (strftime_Ym now_prefix)
                 (get_all_records MAIN_HEADER_ROW (worksheet bot))))
           (strftime_BY now_label) (summary_worksheet bot) |}.
Proof.
  unfold update_monthly_summary.
  by rewrite make_row_data_six_keys by apply aggregate_month_six_keys.
Qed.

Section UpsertFrame.
Variables (name : string) (cells : row) (ws : grid).
Hypothesis layout : summary_layout ws.

Let row_data : row := PyStr name :: cells.
Let ws' := upsert_summary row_data name ws.

(** The row of the period holds the new cells; every other row, and
    the rows above the data, are as before. *)
Lemma upsert_row :
  exists j r,
    first_index name (data_rows ws') = Some j
    /\ data_rows ws' !! j = Some r
    /\ take (length row_data) r = row_data
    /\ (forall i, i <> j -> data_rows ws' !! i = data_rows ws !! i)
    /\ take SUMMARY_HEADER_ROW ws' = take SUMMARY_HEADER_ROW ws.
Proof.
  assert (has_label name row_data = true) as Hrd by apply eqb_refl.
  unfold ws'. destruct (first_index name (data_rows ws)) as [j|] eqn:Ej.
  - destruct (first_index_Some _ _ _ Ej) as (old & Ho & Hlab & _).
    rewrite (upsert_found _ _ _ _ _ layout Ej Ho), data_rows_insert.
    assert (j < length (data_rows ws)) as Hj by (by eapply lookup_lt_Some).
    exists j, (overwrite row_data old). split_and!.
    + apply first_index_insert; [done |].
      unfold row_data. rewrite overwrite_label. apply eqb_refl.
    + by apply list_lookup_insert_eq.
    + unfold overwrite. by rewrite take_app_length.
    + intros i Hi. by rewrite list_lookup_insert_ne.
    + by rewrite take_insert_ge by lia.
  - rewrite (upsert_not_found _ _ _ layout Ej), data_rows_app by done.
    exists (length (data_rows ws)), row_data. split_and!.
    + by apply first_index_app_new.
    + by rewrite lookup_app_r, Nat.sub_diag.
    + by rewrite firstn_all.
    + intros i Hi. destruct (decide (i < length (data_rows ws))).
      * by rewrite lookup_app_l.
      * rewrite lookup_app_r by lia.
        rewrite (lookup_ge_None_2 (data_rows ws)) by lia.
        destruct (i - length (data_rows ws)) as [|k] eqn:Ek; [lia | done].
    + rewrite take_app_le; [done |]. by apply layout_length.
Qed.

Lemma upsert_one_row :
  one_row_per_label ws ->
  one_row_per_label ws' /\ count_label name ws' = 1.
Proof.
  intros H. split.
  - intros l. unfold ws', row_data. rewrite upsert_count by done.
    specialize (H l). case_bool_decide; lia.
  - unfold ws', row_data. rewrite upsert_count by done.
    specialize (H name). rewrite bool_decide_eq_true_2 by done. lia.
Qed.

Lemma upsert_keeps_one (l : string) :
  one_row_per_label ws -> count_label l ws = 1 -> count_label l ws' = 1.
Proof.
  intros H H1. unfold ws', row_data. rewrite upsert_count by done.
  case_bool_decide; lia.
Qed.

End UpsertFrame.

(** ** A run of messages *)

Section Run.
Variable py : python.

Lemma handle_update_main (u : update) (bot : ExpenseBot) :
  worksheet (handle_update py u bot)
  = (worksheet bot ++ option_list (row_of py u))%list.
Proof.
  unfold handle_update, handle_expense, row_of.
  destruct (parse_expense_message py (update_text u)) as [[[k n] d]|]; simpl.
  - apply add_expense_main.
  - by rewrite app_nil_r.
Qed.

Lemma handle_all_main (updates : list update) (bot : ExpenseBot) :
  worksheet (handle_all py updates bot)
  = (worksheet bot ++ omap (row_of py) updates)%list.
Proof.
  revert bot. induction updates as [|u updates IH]; intros bot; simpl.
  - by rewrite app_nil_r.
  - unfold handle_all in *. simpl. rewrite IH.
    rewrite handle_update_main, <- app_assoc. f_equal.
    by destruct (row_of py _).
Qed.

Lemma handle_update_summary (u : update) (bot : ExpenseBot) :
  summary_worksheet (handle_update py u bot)
  = match row_of py u with
    | Some r =>
        upsert_summary
          (summary_row (strftime_BY (update_label_time u))
             (aggregate_month py (strftime_Ym (update_prefix_time u))
                (get_all_records MAIN_HEADER_ROW (worksheet bot ++ [r]))))
          (strftime_BY (update_label_time u)) (summary_worksheet bot)
    | None => summary_worksheet bot
    end.
Proof.
  unfold handle_update, handle_expense, row_of.
  destruct (parse_expense_message py (update_text u)) as [[[k n] d]|]; [|done].
  unfold add_expense_to_sheet. by rewrite update_monthly_summary_upsert.
Qed.

Lemma handle_update_invariant (u : update) (bot : ExpenseBot) :
  let bot' := handle_update py u bot in
  (main_layout bot -> main_layout bot')
  /\ (summary_layout (summary_worksheet bot) ->
      summary_layout (summary_worksheet bot')
      /\ (one_row_per_label (summary_worksheet bot) ->
          one_row_per_label (summary_worksheet bot')
          /\ (forall l, count_label l (summary_worksheet bot) = 1 ->
                        count_label l (summary_worksheet bot') = 1)
          /\ (is_Some (parse_expense_message py (update_text u)) ->
              count_label (strftime_BY (update_label_time u))
                          (summary_worksheet bot') = 1))).
Proof.
  intros bot'. split.
  - unfold bot', main_layout. rewrite handle_update_main.
    intros H. by apply lookup_app_l_Some.
  - intros Hs. unfold bot'. rewrite handle_update_summary.
    unfold row_of.
    destruct (parse_expense_message py (update_text u)) as [[[k n] d]|].
    + split; [by apply upsert_layout |]. intros H1. split_and!.
      * by apply upsert_one_row.
      * intros l. by apply upsert_keeps_one.
      * intros _. by apply upsert_one_row.
    + split; [done |]. intros H1. split_and!; [done | done |].
      by intros [? [=]].
Qed.

Lemma handle_all_invariant (updates : list update) (bot : ExpenseBot) :
  main_layout bot ->
  summary_layout (summary_worksheet bot) ->
  one_row_per_label (summary_worksheet bot) ->
  let bot' := handle_all py updates bot in
  main_layout bot'
  /\ summary_layout (summary_worksheet bot')
  /\ one_row_per_label (summary_worksheet bot')
  /\ (forall l, count_label l (summary_worksheet bot) = 1 ->
                count_label l (summary_worksheet bot') = 1)
  /\ forall u, u ∈ updates -> is_Some (row_of py u) ->
       count_label (strftime_BY (update_label_time u))
                   (summary_worksheet bot') = 1.
Proof.
  revert bot. induction updates as [|u updates IH]; intros bot Hm Hs H1.
  - simpl. split_and!; try done. intros u Hu. by apply elem_of_nil in Hu.
  - cbn zeta. unfold handle_all. simpl.
    destruct (handle_update_invariant u bot) as [Hm' Hs'].
    specialize (Hm' Hm). destruct (Hs' Hs) as (Hl' & H1').
    destruct (H1' H1) as (Ho' & Hk' & Hn').
    destruct (IH _ Hm' Hl' Ho') as (A1 & A2 & A3 & A4 & A5).
    split_and!; try done.
    + intros l Hl. by apply A4, Hk'.
    + intros u' [->|Hu]%elem_of_cons Hr.
      * apply A4, Hn'. unfold row_of in Hr.
        destruct (parse_expense_message py (update_text u)) as [[[k n] d]|];
          [done |].
        by destruct Hr.
      * by apply A5.
Qed.

End Run.

(** ** The aggregates after an expense *)

Section ExpenseEffect.
Variable py : python.
Variables (now : datetime) (user_id : Z).
Variables (kategori : string) (jumlah : Z) (deskripsi : string).

Let rec := expense_record py now user_id kategori jumlah deskripsi.

(** What the row of an expense adds to the aggregate of any month. *)
Lemma expense_record_contribution_any (month : string) :
  contribution py month rec
  = if Str.startswith (strftime_Ymd now) month
    then Some (bucket (Py.lower py kategori), jumlah)
    else None.
Proof.
  unfold contribution, rec, expense_record, expense_row, get, get_or_empty.
  destruct (main_record_cells
              (PyStr (strftime_Ymd now)) (PyStr (strftime_HMS now))
              (PyStr (Py.title py kategori)) (PyStr deskripsi)
              (PyInt jumlah) (PyInt user_id) (PyStr status_ok))
    as (-> & -> & -> & _).
  cbn [default from_option id truthy py_str to_int].
  pose proof (strftime_Ymd_nonempty now) as Hne.
  destruct (strftime_Ymd now) as [|c s] eqn:E; [done |].
  cbn [Str.is_empty negb andb].
  destruct (Str.startswith _ _); [|done].
  by rewrite py_bucket_title.
Qed.

Lemma expense_record_amount (month : string) :
  amount_of py month rec
  = if Str.startswith (strftime_Ymd now) month then jumlah else 0%Z.
Proof.
  unfold amount_of. rewrite expense_record_contribution_any.
  by destruct (Str.startswith _ _).
Qed.

End ExpenseEffect.

Lemma ledger_total_app (py : python) (month : string)
      (l1 l2 : list record) :
  ledger_total py month (l1 ++ l2)
  = (ledger_total py month l1 + ledger_total py month l2)%Z.
Proof.
  unfold ledger_total. induction l1 as [|r l1 IH]; simpl; lia.
Qed.

(** Folding a record that adds nothing leaves the aggregate as it is. *)
Lemma aggregate_month_snoc (py : python)
      (month : string) (records : list record) (r : record) :
  aggregate_month py month (records ++ [r])
  = match contribution py month r with
    | Some (b, a) =>
        <[b := (value (aggregate_month py month records) b + a)%Z]>
          (aggregate_month py month records)
    | None => aggregate_month py month records
    end.
Proof.
  unfold aggregate_month. rewrite foldl_app. simpl.
  apply accumulate_contribution, aggregate_month_six_keys.
Qed.

(** ** The ledger written by the bot *)

Lemma row_of_record (py : python) (u : update) (r : row) :
  row_of py u = Some r ->
  exists kategori jumlah deskripsi,
    parse_expense_message py (update_text u)
    = Some (kategori, jumlah, deskripsi)
    /\ record_of (PyStr <$> main_headers) r
       = expense_record py (update_time u) (update_user u) kategori jumlah
                        deskripsi.
Proof.
  unfold row_of.
  destruct (parse_expense_message _ _) as [[[k n] d]|]; [|done].
  intros [= <-]. by exists k, n, d.
Qed.

Lemma length_omap_le {A B} (f : A -> option B) (l : list A) :
  length (omap f l) <= length l.
Proof.
  induction l as [|x l IH]; [done |].
  change (x :: l) with ([x] ++ l)%list.
  rewrite omap_app, length_app. simpl.
  destruct (f x); simpl; lia.
Qed.

(** X7.  The ledger only grows, and only at its end: after any run of
    text messages it is the ledger before, followed by one row for each
    message that parses, in the order of the messages.  No row that was
    there is changed or removed, and a message that does not parse
    leaves no row. *)
Theorem ledger_is_append_only
        (py : python) (updates : list update)
        (bot : ExpenseBot) :
  let bot' := handle_all py updates bot in
  worksheet bot' = (worksheet bot ++ omap (row_of py) updates)%list
  /\ length (worksheet bot') <= length (worksheet bot) + length updates
  /\ forall i r, worksheet bot !! i = Some r -> worksheet bot' !! i = Some r.
Proof.
  intros bot'. unfold bot'. rewrite handle_all_main. split_and!.
  - done.
  - rewrite length_app. pose proof (length_omap_le (row_of py) updates). lia.
  - intros i r H. by apply lookup_app_l_Some.
Qed.

(** X8.  Started on worksheets with their header rows and with no
    period label on two summary rows, the bot keeps it so after any run
    of text messages; and every month in which a message was accepted,
    as the clock reads when the label of its summary row is made, has
    exactly one row in the summary. *)
Theorem one_summary_row_per_month
        (py : python) (updates : list update)
        (bot : ExpenseBot) :
  main_layout bot ->
  summary_layout (summary_worksheet bot) ->
  one_row_per_label (summary_worksheet bot) ->
  let bot' := handle_all py updates bot in
  main_layout bot'
  /\ summary_layout (summary_worksheet bot')
  /\ one_row_per_label (summary_worksheet bot')
  /\ forall u, u ∈ updates ->
       is_Some (parse_expense_message py (update_text u)) ->
       count_label (strftime_BY (update_label_time u))
                   (summary_worksheet bot') = 1.
Proof.
  intros Hm Hs H1 bot'.
  destruct (handle_all_invariant py updates bot Hm Hs H1)
    as (A1 & A2 & A3 & _ & A5).
  split_and!; try done.
  intros u Hu Hp. apply A5; [done |]. unfold row_of.
  destruct (parse_expense_message _ _) as [[[k n] d]|]; [done |].
  by destruct Hp.
Qed.

Lemma one_summary_row_per_month_witness :
  let bot' := handle_all py0 [update_aug; update_bad; update_sep; update_aug]
                         bot0 in
  main_layout bot0
  /\ one_row_per_label (summary_worksheet bot0)
  /\ one_row_per_label (summary_worksheet bot')
  /\ count_label "August 2025" (summary_worksheet bot') = 1
  /\ count_label "September 2025" (summary_worksheet bot') = 1.
Proof.
  assert (main_layout bot0) as Hm by reflexivity.
  assert (summary_layout (summary_worksheet bot0)) as Hs by reflexivity.
  assert (one_row_per_label (summary_worksheet bot0)) as H1
      by (intros l; unfold count_label; simpl; lia).
  destruct (one_summary_row_per_month
              py0 [update_aug; update_bad; update_sep; update_aug] bot0
              Hm Hs H1) as (_ & _ & A3 & A4).
  split; [exact Hm |]. split; [exact H1 |]. split; [exact A3 |]. split.
  - apply (A4 update_aug); [left | by eexists].
  - apply (A4 update_sep); [do 2 right; left | by eexists].
Defined.

(** X9.  An accepted expense raises one bucket of its month, the one of
    its category, and the total, by exactly its amount; the bucket is
    the category itself when it is one of the six; no other bucket
    moves, and the aggregate of a month that is not a prefix of the
    expense's date is as before. *)
Theorem expense_adds_amount_to_its_bucket
        (py : python) (now now_prefix now_label : datetime) (user_id : Z)
        (message token description : string) (amount : Z) (bot : ExpenseBot) :
  main_layout bot ->
  parse_expense_message py message = Some (token, amount, description) ->
  let bot' := handle_expense py now now_prefix now_label user_id message bot in
  let before m :=
    aggregate_month py m
                    (get_all_records MAIN_HEADER_ROW (worksheet bot)) in
  let after m :=
    aggregate_month py m
                    (get_all_records MAIN_HEADER_ROW (worksheet bot')) in
  let month := strftime_Ym now in
  after month
  = <[bucket token := (value (before month) (bucket token) + amount)%Z]>
      (before month)
  /\ sum_values (after month) = (sum_values (before month) + amount)%Z
  /\ (token ∈ categories -> bucket token = token)
  /\ (forall c, c <> bucket token ->
                value (after month) c = value (before month) c)
  /\ forall m, Str.startswith (strftime_Ymd now) m = false ->
               after m = before m.
Proof.
  intros Hl Hp bot' before after month.
  pose proof (parse_category_lower py _ _ _ _ Hp) as Hlow.
  assert (forall m, after m
                    = match contribution py m
                              (expense_record py now user_id token amount
                                              description) with
                      | Some (b, a) => <[b := (value (before m) b + a)%Z]>
                                         (before m)
                      | None => before m
                      end) as Hafter.
  { intros m. unfold after, before, bot', handle_expense. rewrite Hp.
    rewrite add_expense_records by done. apply aggregate_month_snoc. }
  assert (after month
          = <[bucket token := (value (before month) (bucket token) + amount)%Z]>
              (before month)) as Hmonth.
  { rewrite Hafter. unfold month.
    by rewrite expense_record_contribution by done. }
  split_and!.
  - done.
  - unfold after, before, bot', handle_expense. rewrite Hp.
    rewrite !aggregate_month_total, add_expense_records by done.
    rewrite ledger_total_app. cbn [ledger_total foldr].
    rewrite expense_record_amount. unfold month.
    rewrite strftime_Ymd_startswith. lia.
  - intros Hin. unfold bucket. by rewrite bool_decide_eq_true_2.
  - intros c Hc. rewrite Hmonth, value_insert.
    by rewrite bool_decide_eq_false_2.
  - intros m Hm. rewrite Hafter, expense_record_contribution_any.
    by rewrite Hm.
Qed.

Lemma expense_adds_amount_to_its_bucket_witness :
  let bot' := handle_expense py0 now0 now0 now0 42 "Makan 25000 nasi goreng"
                             bot0 in
  main_layout bot0
  /\ parse_expense_message py0 "Makan 25000 nasi goreng"
     = Some ("makan", 25000%Z, "nasi goreng")
  /\ sum_values (aggregate_month py0 (strftime_Ym now0)
                   (get_all_records MAIN_HEADER_ROW (worksheet bot')))
     = (sum_values (aggregate_month py0 (strftime_Ym now0)
                      (get_all_records MAIN_HEADER_ROW (worksheet bot0)))
        + 25000)%Z.
Proof.
  assert (main_layout bot0) as Hm by reflexivity.
  assert (parse_expense_message py0 "Makan 25000 nasi goreng"
          = Some ("makan", 25000%Z, "nasi goreng")) as Hp by reflexivity.
  split; [exact Hm |]. split; [exact Hp |].
  exact (proj1 (proj2 (expense_adds_amount_to_its_bucket
                         py0 now0 now0 now0 42 _ _ _ _ bot0 Hm Hp))).
Defined.

(** X10.  The total of the monthly aggregate is the sum, over the
    records of the ledger, of what each adds to the month: the
    normalized amount of a record whose date text starts with the month
    prefix and whose amount can be normalized, nothing for any other
    record.  No amount is lost between the buckets or counted twice, and
    the total of two ledgers put end to end is the sum of their totals. *)
Theorem monthly_total_is_ledger_total
        (py : python) (month : string)
        (records records' : list record) :
  sum_values (aggregate_month py month records)
  = ledger_total py month records
  /\ sum_values (aggregate_month py month (records ++ records'))
     = (sum_values (aggregate_month py month records)
        + sum_values (aggregate_month py month records'))%Z.
Proof.
  split; [apply aggregate_month_total |].
  rewrite !aggregate_month_total. apply ledger_total_app.
Qed.

(** X11.  On a ledger that the bot wrote from the empty one, whatever
    the messages, no bucket and no total of any month is negative. *)
Theorem bot_ledger_has_no_negative_total
        (py : python) (updates : list update)
        (month c : string) :
  let bot := handle_all py updates bot0 in
  let d := aggregate_month py month
             (get_all_records MAIN_HEADER_ROW (worksheet bot)) in
  (0 <= value d c)%Z /\ (0 <= sum_values d)%Z.
Proof.
  intros bot d.
  assert (forall c, (0 <= bucket_sum
                            py month c
                            (get_all_records MAIN_HEADER_ROW (worksheet bot)))%Z)
    as Hb.
  { intros c'. apply bucket_sum_nonneg. intros r Hr.
    unfold bot in Hr. rewrite handle_all_main in Hr.
    change (worksheet bot0) with [PyStr <$> main_headers] in Hr.
    cbn [app] in Hr. rewrite get_all_records_main in Hr.
    apply list_elem_of_fmap in Hr as (cells & -> & Hcells).
    apply list_elem_of_omap in Hcells as (u & _ & Hu).
    destruct (row_of_record py _ _ Hu) as (k & n & t & Hp & ->).
    rewrite expense_record_amount.
    destruct (parse_fields py _ _ _ _ Hp) as (_ & _ & Hn & _).
    by destruct (Str.startswith _ _). }
  split.
  - destruct (decide (c ∈ categories)) as [Hc|Hc].
    + unfold d. rewrite aggregate_month_bucket by done. apply Hb.
    + unfold value.
      destruct (d !! c) as [v|] eqn:E; [|done].
      destruct Hc. apply (aggregate_month_six_keys py month
                            (get_all_records MAIN_HEADER_ROW (worksheet bot))).
      by exists v.
  - unfold d. rewrite aggregate_month_total, <- bucket_sum_six.
    pose proof (Hb "makan"). pose proof (Hb "transport").
    pose proof (Hb "belanja"). pose proof (Hb "hiburan").
    pose proof (Hb "kesehatan"). pose proof (Hb "lainnya"). lia.
Qed.

(** X12.  [update_monthly_summary] reads the clock twice: for the month
    prefix and for the period label.  It leaves the ledger as it is and,
    on a summary worksheet with its header row, leaves the first row
    whose label is the month of the second reading holding that label,
    the six buckets of the aggregate of the ledger for the month of the
    first reading and their total, in this order: the aggregate of the
    month of the label when both readings fall in one month.  Every
    other data row, and the rows above the data, are as before. *)
Theorem summary_row_holds_the_aggregate
        (py : python) (now_prefix now_label : datetime)
        (bot : ExpenseBot) :
  summary_layout (summary_worksheet bot) ->
  let bot' := update_monthly_summary py now_prefix now_label bot in
  let records := get_all_records MAIN_HEADER_ROW (worksheet bot) in
  worksheet bot' = worksheet bot
  /\ (exists j r,
      first_index (strftime_BY now_label) (data_rows (summary_worksheet bot'))
      = Some j
      /\ data_rows (summary_worksheet bot') !! j = Some r
      /\ take 8 r
         = summary_row (strftime_BY now_label)
                       (aggregate_month py (strftime_Ym now_prefix) records)
      /\ (forall i, i <> j ->
                    data_rows (summary_worksheet bot') !! i
                    = data_rows (summary_worksheet bot) !! i)
      /\ take SUMMARY_HEADER_ROW (summary_worksheet bot')
         = take SUMMARY_HEADER_ROW (summary_worksheet bot))
  /\ (same_month now_prefix now_label = true ->
      aggregate_month py (strftime_Ym now_prefix) records
      = aggregate_month py (strftime_Ym now_label) records).
Proof.
  intros Hl bot' records. unfold bot'. rewrite update_monthly_summary_upsert.
  cbn [worksheet summary_worksheet]. split; [done |]. split.
  - unfold summary_row. exact (upsert_row (strftime_BY now_label) _ _ Hl).
  - by intros [_ ->]%same_month_labels.
Qed.

Lemma summary_row_holds_the_aggregate_witness :
  let bot := {| worksheet := sample_main;
                summary_worksheet := summary_with_duplicates |} in
  summary_layout (summary_worksheet bot)
  /\ (exists j r,
      first_index "August 2025"
        (data_rows (summary_worksheet
                      (update_monthly_summary py0 now0 now0 bot)))
      = Some j
      /\ data_rows (summary_worksheet
                      (update_monthly_summary py0 now0 now0 bot))
         !! j = Some r
      /\ take 8 r
         = summary_row "August 2025"
             (aggregate_month py0 "2025-08" sample_records))
  /\ (exists j r,
      first_index "September 2025"
        (data_rows (summary_worksheet
                      (update_monthly_summary py0 now0 now_sep bot)))
      = Some j
      /\ data_rows (summary_worksheet
                      (update_monthly_summary py0 now0 now_sep bot))
         !! j = Some r
      /\ take 8 r
         = summary_row "September 2025"
             (aggregate_month py0 "2025-08" sample_records)).
Proof.
  intros bot.
  assert (summary_layout (summary_worksheet bot)) as Hl by reflexivity.
  split; [exact Hl |]. split.
  - destruct (summary_row_holds_the_aggregate py0 now0 now0 bot Hl)
      as (_ & (j & r & H1 & H2 & H3 & _) & _).
    exists j, r. split; [exact H1 |]. split; [exact H2 | exact H3].
  - destruct (summary_row_holds_the_aggregate py0 now0 now_sep bot Hl)
      as (_ & (j & r & H1 & H2 & H3 & _) & _).
    exists j, r. split; [exact H1 |]. split; [exact H2 | exact H3].
Defined.

(** ** The text of a date *)

Lemma all_repeat_char (p : ascii -> bool) (c : ascii) (n : nat) :
  p c = true -> Str.all p (repeat_char c n) = true.
Proof. intros H. induction n as [|n IH]; simpl; [done | by rewrite H, IH]. Qed.

Lemma length_repeat_char (c : ascii) (n : nat) :
  String.length (repeat_char c n) = n.
Proof. induction n as [|n IH]; simpl; [done | by rewrite IH]. Qed.

Lemma decimal_from_append (a b : string) (acc : Z) :
  decimal_from acc (a +:+ b) = decimal_from (decimal_from acc a) b.
Proof. revert acc. induction a as [|c a IH]; intros acc; simpl; [done | apply IH]. Qed.

Lemma decimal_zeros (n : nat) : decimal_from 0 (repeat_char "0" n) = 0%Z.
Proof. induction n as [|n IH]; simpl; [done | apply IH]. Qed.

(** A zero-padded field: digits that denote the number. *)
Lemma zfill_dec (width n : nat) :
  Str.all Char.is_digit (zfill width (dec n)) = true
  /\ decimal (zfill width (dec n)) = Z.of_nat n
  /\ width <= String.length (zfill width (dec n)).
Proof.
  destruct (str_of_int_nonneg (Z.of_nat n) (Nat2Z.is_nonneg n))
    as (Hne & Hall & Hd).
  unfold zfill, dec. split_and!.
  - by rewrite all_append, all_repeat_char, Hall.
  - unfold decimal. by rewrite decimal_from_append, decimal_zeros.
  - rewrite length_append, length_repeat_char. lia.
Qed.

Lemma zfill_dec_inj (width a b : nat) :
  zfill width (dec a) = zfill width (dec b) -> a = b.
Proof.
  intros E. destruct (zfill_dec width a) as (_ & Ha & _).
  destruct (zfill_dec width b) as (_ & Hb & _).
  rewrite E, Hb in Ha. lia.
Qed.

Lemma is_digit_minus c : Char.is_digit c = true -> c <> "-"%char.
Proof. by intros H ->. Qed.

(** Two texts that agree, each a run of digits followed by a hyphen:
    the runs are the same. *)
Lemma digits_hyphen_inj (x x' y y' : string) :
  Str.all Char.is_digit x = true -> Str.all Char.is_digit x' = true ->
  x +:+ "-" +:+ y = x' +:+ "-" +:+ y' -> x = x' /\ y = y'.
Proof.
  revert x'. induction x as [|c x IH]; intros [|c' x']; simpl.
  - by intros _ _ [= ->].
  - intros _ [Hc _]%andb_prop [= <- _]. done.
  - intros [Hc _]%andb_prop _ [= -> _]. done.
  - intros [_ Hx]%andb_prop [_ Hx']%andb_prop [= -> E].
    destruct (IH _ Hx Hx' E) as [-> ->]. done.
Qed.

Lemma strftime_Ymd_inj (a b : datetime) :
  strftime_Ymd a = strftime_Ymd b <-> same_day a b = true.
Proof.
  unfold same_day. rewrite bool_decide_eq_true. split.
  - unfold strftime_Ymd, fmt_Y, fmt_m, fmt_d. intros E.
    destruct (zfill_dec 4 (year a)) as (Ya & _ & _).
    destruct (zfill_dec 4 (year b)) as (Yb & _ & _).
    destruct (zfill_dec 2 (month a)) as (Ma & _ & _).
    destruct (zfill_dec 2 (month b)) as (Mb & _ & _).
    apply digits_hyphen_inj in E as [Ey E]; [|done..].
    apply digits_hyphen_inj in E as [Em Ed]; [|done..].
    by split_and!; eapply zfill_dec_inj.
  - unfold strftime_Ymd, fmt_Y, fmt_m, fmt_d. by intros (-> & -> & ->).
Qed.

Lemma month_field_length (m : nat) :
  m <= 12 -> String.length (zfill 2 (dec m)) = 2.
Proof.
  intros H. do 13 (destruct m as [|m]; [by vm_compute |]). lia.
Qed.

(** A run of digits that is a prefix of digits followed by a hyphen is a
    prefix of the digits. *)
Lemma digits_prefix (x x' y rest : string) :
  Str.all Char.is_digit x = true -> Str.all Char.is_digit x' = true ->
  x +:+ "-" +:+ y = x' +:+ rest ->
  String.length x <= String.length x' -> x = x'.
Proof.
  revert x'. induction x as [|c x IH]; intros [|c' x']; simpl.
  - done.
  - intros _ [Hc _]%andb_prop [= <- _]. done.
  - intros. lia.
  - intros [_ Hx]%andb_prop [_ Hx']%andb_prop [= -> E] Hlen.
    f_equal. apply (IH _ Hx Hx' E). lia.
Qed.

Lemma strftime_Ym_prefix (a b : datetime) :
  month a <= 12 ->
  Str.startswith (strftime_Ymd a) (strftime_Ym b) = same_month a b.
Proof.
  intros Hm. apply eq_true_iff_eq.
  unfold same_month. rewrite bool_decide_eq_true, startswith_iff. split.
  - unfold strftime_Ymd, strftime_Ym, fmt_Y, fmt_m, fmt_d. intros [rest E].
    destruct (zfill_dec 4 (year a)) as (Ya & _ & _).
    destruct (zfill_dec 4 (year b)) as (Yb & _ & _).
    destruct (zfill_dec 2 (month a)) as (Ma & _ & _).
    destruct (zfill_dec 2 (month b)) as (Mb & _ & Lb).
    rewrite !append_assoc in E.
    apply digits_hyphen_inj in E as [Ey E]; [|done..].
    apply digits_prefix in E; [|done | done |].
    + by split; eapply zfill_dec_inj.
    + rewrite (month_field_length _ Hm). done.
  - intros [Ey Em]. exists ("-" +:+ fmt_d a).
    unfold strftime_Ymd, strftime_Ym, fmt_Y, fmt_m.
    by rewrite Ey, Em, !append_assoc.
Qed.

(** ** Which selections an expense enters *)

Section Selections.
Variable py : python.
Variables (now now_prefix now_label : datetime) (user_id : Z).
Variables (kategori : string) (jumlah : Z) (deskripsi : string).
Variable bot : ExpenseBot.
Hypothesis layout : main_layout bot.

Let bot' := add_expense_to_sheet py now now_prefix now_label user_id kategori
                                 jumlah deskripsi bot.
Let rec := expense_record py now user_id kategori jumlah deskripsi.

Lemma eqb_str_of_int (a b : Z) :
  Str.eqb (str_of_int a) (str_of_int b) = bool_decide (a = b).
Proof.
  unfold Str.eqb. apply bool_decide_ext. split; [apply str_of_int_inj | by intros ->].
Qed.

Lemma on_day_expense (now' : datetime) (user_id' : Z) :
  on_day py (strftime_Ymd now') user_id' rec
  = same_day now now' && bool_decide (user_id = user_id').
Proof.
  unfold on_day, rec, expense_record, expense_row, get_or_empty.
  destruct (main_record_cells
              (PyStr (strftime_Ymd now)) (PyStr (strftime_HMS now))
              (PyStr (Py.title py kategori)) (PyStr deskripsi)
              (PyInt jumlah) (PyInt user_id) (PyStr status_ok))
    as (-> & _ & _ & ->).
  cbn [default from_option id py_str]. rewrite eqb_str_of_int. f_equal.
  apply eq_true_iff_eq. rewrite eqb_true. apply strftime_Ymd_inj.
Qed.

Lemma in_month_expense (now' : datetime) (user_id' : Z) :
  month now <= 12 ->
  in_month py (strftime_Ym now') user_id' rec
  = same_month now now' && bool_decide (user_id = user_id').
Proof.
  intros Hm.
  unfold in_month, rec, expense_record, expense_row, get_or_empty.
  destruct (main_record_cells
              (PyStr (strftime_Ymd now)) (PyStr (strftime_HMS now))
              (PyStr (Py.title py kategori)) (PyStr deskripsi)
              (PyInt jumlah) (PyInt user_id) (PyStr status_ok))
    as (-> & _ & _ & ->).
  cbn [default from_option id py_str]. rewrite eqb_str_of_int. f_equal.
  by apply strftime_Ym_prefix.
Qed.

Lemma today_expenses_add (now' : datetime) (user_id' : Z) :
  today_expenses py now' user_id' bot'
  = (today_expenses py now' user_id' bot
     ++ if same_day now now' && bool_decide (user_id = user_id')
        then [rec] else [])%list.
Proof.
  unfold today_expenses, bot'. rewrite add_expense_records by done.
  rewrite List.filter_app. f_equal. cbn [List.filter].
  fold rec. by rewrite on_day_expense.
Qed.

Lemma monthly_expenses_add (now' : datetime) (user_id' : Z) :
  month now <= 12 ->
  monthly_expenses py now' user_id' bot'
  = (monthly_expenses py now' user_id' bot
     ++ if same_month now now' && bool_decide (user_id = user_id')
        then [rec] else [])%list.
Proof.
  intros Hm.
  unfold monthly_expenses, bot'. rewrite add_expense_records by done.
  rewrite List.filter_app. f_equal. cbn [List.filter].
  fold rec. by rewrite in_month_expense.
Qed.

(** Whatever the dates, the expense of one user enters no selection of
    another. *)
Lemma monthly_expenses_other_user (now' : datetime) (user_id' : Z) :
  user_id <> user_id' ->
  monthly_expenses py now' user_id' bot'
  = monthly_expenses py now' user_id' bot.
Proof.
  intros Hu.
  unfold monthly_expenses, bot'. rewrite add_expense_records by done.
  rewrite List.filter_app. cbn [List.filter].
  replace (in_month _ _ _ _) with false; [by rewrite app_nil_r |].
  unfold in_month, rec, expense_record, expense_row, get_or_empty.
  destruct (main_record_cells
              (PyStr (strftime_Ymd now)) (PyStr (strftime_HMS now))
              (PyStr (Py.title py kategori)) (PyStr deskripsi)
              (PyInt jumlah) (PyInt user_id) (PyStr status_ok))
    as (_ & _ & _ & ->).
  cbn [default from_option id py_str]. rewrite eqb_str_of_int.
  rewrite (bool_decide_eq_false_2 _ Hu). by rewrite andb_false_r.
Qed.

Lemma today_expenses_other_user (now' : datetime) (user_id' : Z) :
  user_id <> user_id' ->
  today_expenses py now' user_id' bot'
  = today_expenses py now' user_id' bot.
Proof.
  intros Hu. rewrite today_expenses_add.
  rewrite (bool_decide_eq_false_2 _ Hu), andb_false_r. by rewrite app_nil_r.
Qed.

End Selections.

Lemma summary_other_user (py : python)
      (now now_prefix now_label now' : datetime) (user_id user_id' : Z)
      (text : string) (bot : ExpenseBot) :
  main_layout bot -> user_id <> user_id' ->
  summary py now' user_id'
          (handle_expense py now now_prefix now_label user_id text bot)
  = summary py now' user_id' bot.
Proof.
  intros Hl Hu. unfold handle_expense.
  destruct (parse_expense_message py text) as [[[k n] d]|]; [|done].
  unfold summary, get_today_summary, get_monthly_summary.
  by rewrite today_expenses_other_user, monthly_expenses_other_user.
Qed.

Lemma sum_amounts_app (l1 l2 : list record) :
  sum_amounts (l1 ++ l2)
  = (a <-! sum_amounts l1 ;; b <-! sum_amounts l2 ;; Ok (a + b)%Z).
Proof.
  induction l1 as [|r l1 IH]; simpl.
  - by destruct (sum_amounts l2).
  - destruct (to_int (get r H_JUMLAH)) as [x|]; [|done]. cbn [rbind].
    rewrite IH. destruct (sum_amounts l1) as [a|]; [|done]. cbn [rbind].
    destruct (sum_amounts l2) as [b|]; [|done]. cbn [rbind].
    f_equal. lia.
Qed.

Lemma same_day_refl (a : datetime) : same_day a a = true.
Proof. unfold same_day. by apply bool_decide_eq_true. Qed.

Lemma same_month_refl (a : datetime) : same_month a a = true.
Proof. unfold same_month. by apply bool_decide_eq_true. Qed.

Lemma expense_record_amount_cell (py : python) (now : datetime) (user_id : Z)
      (kategori : string) (jumlah : Z) (deskripsi : string) :
  sum_amounts [expense_record py now user_id kategori jumlah deskripsi]
  = Ok jumlah.
Proof.
  cbn [sum_amounts]. unfold expense_record, expense_row, get.
  destruct (main_record_cells
              (PyStr (strftime_Ymd now)) (PyStr (strftime_HMS now))
              (PyStr (Py.title py kategori)) (PyStr deskripsi)
              (PyInt jumlah) (PyInt user_id) (PyStr status_ok))
    as (_ & _ & -> & _).
  cbn [default from_option id to_int rbind]. f_equal. lia.
Qed.

(** X13.  A recorded expense enters the selection of the daily view of
    exactly its own user on its own calendar day, and the selection of
    the monthly view of exactly its own user in its own month; it enters
    them last, and the records selected before stay selected. *)
Theorem expense_is_selected_by_date_and_user
        (py : python) (now now_prefix now_label now' : datetime)
        (user_id user_id' : Z) (kategori : string) (jumlah : Z)
        (deskripsi : string) (bot : ExpenseBot) :
  main_layout bot ->
  month now <= 12 ->
  let bot' := add_expense_to_sheet py now now_prefix now_label user_id
                                   kategori jumlah deskripsi bot in
  let rec := expense_record py now user_id kategori jumlah deskripsi in
  today_expenses py now' user_id' bot'
  = (today_expenses py now' user_id' bot
     ++ if same_day now now' && bool_decide (user_id = user_id')
        then [rec] else [])%list
  /\ monthly_expenses py now' user_id' bot'
     = (monthly_expenses py now' user_id' bot
        ++ if same_month now now' && bool_decide (user_id = user_id')
           then [rec] else [])%list.
Proof.
  intros Hl Hm bot' rec. split.
  - by apply today_expenses_add.
  - by apply monthly_expenses_add.
Qed.

Lemma expense_is_selected_by_date_and_user_witness :
  let bot' := add_expense_to_sheet py0 now0 now0 now0 42 "makan" 25000 "nasi"
                                   bot0 in
  main_layout bot0 /\ month now0 <= 12
  /\ today_expenses py0 now_other_day 42 bot' = []
  /\ monthly_expenses py0 now_other_day 42 bot'
     = [expense_record py0 now0 42 "makan" 25000 "nasi"]
  /\ monthly_expenses py0 now_other_day 7 bot' = [].
Proof.
  intros bot'.
  assert (main_layout bot0) as Hl by reflexivity.
  assert (month now0 <= 12) as Hm by (simpl; lia).
  split; [exact Hl |]. split; [exact Hm |]. split; [|split].
  - exact (proj1 (expense_is_selected_by_date_and_user
                    py0 now0 now0 now0 now_other_day 42 42 "makan" 25000 "nasi"
                    bot0 Hl Hm)).
  - exact (proj2 (expense_is_selected_by_date_and_user
                    py0 now0 now0 now0 now_other_day 42 42 "makan" 25000 "nasi"
                    bot0 Hl Hm)).
  - exact (proj2 (expense_is_selected_by_date_and_user
                    py0 now0 now0 now0 now_other_day 42 7 "makan" 25000 "nasi"
                    bot0 Hl Hm)).
Defined.

(** X14.  What one user sends never changes what another user is
    answered: the text of the summary command for a user is the same
    before and after any message of a different user, whenever the two
    are handled. *)
Theorem summary_of_another_user_is_unchanged
        (py : python) (now now_prefix now_label now' : datetime)
        (user_id user_id' : Z) (message : string) (bot : ExpenseBot) :
  main_layout bot ->
  user_id <> user_id' ->
  summary py now' user_id'
          (handle_expense py now now_prefix now_label user_id message bot)
  = summary py now' user_id' bot.
Proof. apply summary_other_user. Qed.

Lemma summary_of_another_user_is_unchanged_witness :
  main_layout bot0 /\ 42%Z <> 7%Z
  /\ summary py0 now0 7
             (handle_expense py0 now0 now0 now0 42 "makan 25000 nasi" bot0)
     = summary py0 now0 7 bot0.
Proof.
  assert (main_layout bot0) as Hl by reflexivity.
  assert (42%Z <> 7%Z) as Hu by discriminate.
  split; [exact Hl |]. split; [exact Hu |].
  exact (summary_of_another_user_is_unchanged
           py0 now0 now0 now0 now0 42 7 "makan 25000 nasi" bot0 Hl Hu).
Defined.

(** X15.  Recording an expense raises the sender's total of the day and
    of the month, as the views compute them, by exactly its amount, and
    the number of their transactions by one. *)
Theorem expense_raises_the_totals_of_its_sender
        (py : python) (now now_prefix now_label : datetime) (user_id : Z)
        (kategori : string) (jumlah : Z) (deskripsi : string)
        (bot : ExpenseBot) (total_today total_monthly : Z) :
  main_layout bot ->
  month now <= 12 ->
  sum_amounts (today_expenses py now user_id bot) = Ok total_today ->
  sum_amounts (monthly_expenses py now user_id bot)
  = Ok total_monthly ->
  let bot' := add_expense_to_sheet py now now_prefix now_label user_id
                                   kategori jumlah deskripsi bot in
  sum_amounts (today_expenses py now user_id bot')
  = Ok (total_today + jumlah)%Z
  /\ length (today_expenses py now user_id bot')
     = S (length (today_expenses py now user_id bot))
  /\ sum_amounts (monthly_expenses py now user_id bot')
     = Ok (total_monthly + jumlah)%Z
  /\ length (monthly_expenses py now user_id bot')
     = S (length (monthly_expenses py now user_id bot)).
Proof.
  intros Hl Hm Ht Hmo bot'. unfold bot'.
  rewrite today_expenses_add, monthly_expenses_add by done.
  rewrite same_day_refl, same_month_refl, bool_decide_eq_true_2 by done.
  cbn [andb]. rewrite !sum_amounts_app, Ht, Hmo, expense_record_amount_cell.
  rewrite !length_app. cbn [rbind length]. split_and!; try done; lia.
Qed.

Lemma expense_raises_the_totals_of_its_sender_witness :
  let bot := {| worksheet := ledger_60000; summary_worksheet := [] |} in
  let bot' := add_expense_to_sheet py0 now0 now0 now0 42 "makan" 15000 "soto"
                                   bot in
  main_layout bot /\ month now0 <= 12
  /\ sum_amounts (today_expenses py0 now0 42 bot) = Ok 10000%Z
  /\ sum_amounts (monthly_expenses py0 now0 42 bot) = Ok 60000%Z
  /\ sum_amounts (today_expenses py0 now0 42 bot') = Ok 25000%Z
  /\ sum_amounts (monthly_expenses py0 now0 42 bot') = Ok 75000%Z.
Proof.
  intros bot bot'.
  assert (main_layout bot) as Hl by reflexivity.
  assert (month now0 <= 12) as Hm by (simpl; lia).
  assert (sum_amounts (today_expenses py0 now0 42 bot) = Ok 10000%Z)
    as Ht by (vm_compute; reflexivity).
  assert (sum_amounts (monthly_expenses py0 now0 42 bot) = Ok 60000%Z)
    as Hmo by (vm_compute; reflexivity).
  destruct (expense_raises_the_totals_of_its_sender
              py0 now0 now0 now0 42 "makan" 15000 "soto" bot _ _ Hl Hm Ht Hmo)
    as (H1 & _ & H3 & _).
  split; [exact Hl |]. split; [exact Hm |]. split; [exact Ht |].
  split; [exact Hmo |]. split; [exact H1 | exact H3].
Defined.

(** ** The label of a month *)

Lemma month_name_inj (m m' : nat) (y y' : string) :
  1 <= m <= 12 -> 1 <= m' <= 12 ->
  default "" (month_names !! (m - 1)) +:+ " " +:+ y
  = default "" (month_names !! (m' - 1)) +:+ " " +:+ y' ->
  m = m' /\ y = y'.
Proof.
  intros Hm Hm'.
  assert (m = 1 \/ m = 2 \/ m = 3 \/ m = 4 \/ m = 5 \/ m = 6 \/ m = 7
          \/ m = 8 \/ m = 9 \/ m = 10 \/ m = 11 \/ m = 12) as Hc by lia.
  assert (m' = 1 \/ m' = 2 \/ m' = 3 \/ m' = 4 \/ m' = 5 \/ m' = 6 \/ m' = 7
          \/ m' = 8 \/ m' = 9 \/ m' = 10 \/ m' = 11 \/ m' = 12) as Hc' by lia.
  clear Hm Hm'.
  repeat (destruct Hc as [->|Hc]); try subst m;
    repeat (destruct Hc' as [->|Hc']); try subst m';
    simpl; intros [=]; done.
Qed.

Lemma strftime_BY_inj (a b : datetime) :
  valid_month a -> valid_month b ->
  strftime_BY a = strftime_BY b -> same_month a b = true.
Proof.
  intros Ha Hb E. unfold strftime_BY, fmt_B, fmt_Y in E.
  apply month_name_inj in E as [Em Ey]; [|done..].
  unfold same_month. apply bool_decide_eq_true. split; [|done].
  by eapply zfill_dec_inj.
Qed.

(** ** Rows of other periods under the upsert *)

Lemma first_index_insert_other (l : string) (rows : list row) (j : nat)
      (old new : row) :
  rows !! j = Some old -> has_label l old = false -> has_label l new = false ->
  first_index l (<[j := new]> rows) = first_index l rows.
Proof.
  revert j. induction rows as [|r rows IH]; intros [|j]; simpl; try done.
  - intros [= ->] -> ->. done.
  - intros Hj Ho Hn. by rewrite (IH j).
Qed.

Lemma first_index_app_found (l : string) (rows : list row) (new : row)
      (j : nat) :
  first_index l rows = Some j -> first_index l (rows ++ [new]) = Some j.
Proof.
  revert j. induction rows as [|r rows IH]; intros j; simpl; [done |].
  destruct (has_label l r); [done |].
  destruct (first_index l rows) as [j0|]; [|done].
  intros [= <-]. by rewrite (IH j0).
Qed.

Lemma upsert_other_label (name l : string) (cells : row) (ws : grid)
      (j : nat) (r : row) :
  summary_layout ws ->
  name <> l ->
  first_index l (data_rows ws) = Some j ->
  data_rows ws !! j = Some r ->
  let ws' := upsert_summary (PyStr name :: cells) name ws in
  first_index l (data_rows ws') = Some j /\ data_rows ws' !! j = Some r.
Proof.
  intros Hl Hne Hj Hr ws'. unfold ws'.
  assert (Str.eqb name l = false) as Hf
      by (by apply bool_decide_eq_false).
  destruct (first_index_Some _ _ _ Hj) as (r' & Hr' & Hlab & _).
  assert (r' = r) as -> by congruence.
  destruct (first_index name (data_rows ws)) as [j0|] eqn:Ej.
  - destruct (first_index_Some _ _ _ Ej) as (old & Ho & Hlo & _).
    rewrite (upsert_found _ _ _ _ _ Hl Ej Ho), data_rows_insert.
    assert (has_label l old = false) as Hlo'
        by (by rewrite (has_label_inj _ _ _ Hlo)).
    assert (j0 <> j) as Hjj by (intros ->; congruence).
    split.
    + by rewrite (first_index_insert_other _ _ _ old).
    + by rewrite list_lookup_insert_ne.
  - rewrite (upsert_not_found _ _ _ Hl Ej), data_rows_app by done.
    split; [by apply first_index_app_found |].
    by apply lookup_app_l_Some.
Qed.

(** ** The summary follows the ledger *)

Lemma upsert_row_holds (name : string) (cells : row) (ws : grid) :
  summary_layout ws ->
  let ws' := upsert_summary (PyStr name :: cells) name ws in
  exists j r,
    first_index name (data_rows ws') = Some j
    /\ data_rows ws' !! j = Some r
    /\ take (S (length cells)) r = PyStr name :: cells.
Proof.
  intros Hl ws'.
  destruct (upsert_row name cells ws Hl) as (j & r & H1 & H2 & H3 & _).
  by exists j, r.
Qed.

Lemma same_month_sym (a b : datetime) :
  same_month a b = true -> same_month b a = true.
Proof.
  unfold same_month. rewrite !bool_decide_eq_true. by intros [-> ->].
Qed.

Lemma same_month_trans (a b c : datetime) :
  same_month a b = true -> same_month b c = true -> same_month a c = true.
Proof.
  unfold same_month. rewrite !bool_decide_eq_true.
  by intros [-> ->] [-> ->].
Qed.

Lemma same_month_valid (a b : datetime) :
  same_month a b = true -> valid_month a -> valid_month b.
Proof.
  unfold same_month, valid_month. rewrite bool_decide_eq_true.
  by intros [_ ->].
Qed.

Section UpToDate.
Variable py : python.

Lemma up_to_date_same_month (t t' : datetime) (bot : ExpenseBot) :
  same_month t t' = true ->
  up_to_date py t' bot -> up_to_date py t bot.
Proof.
  intros [Eb Em]%same_month_labels. unfold up_to_date. by rewrite Eb, Em.
Qed.

Lemma update_monthly_summary_up_to_date
      (now_prefix now_label : datetime) (bot : ExpenseBot) :
  same_month now_prefix now_label = true ->
  summary_layout (summary_worksheet bot) ->
  up_to_date py now_label
             (update_monthly_summary py now_prefix now_label bot).
Proof.
  intros [_ Em]%same_month_labels Hl. unfold up_to_date.
  rewrite update_monthly_summary_upsert.
  cbn [worksheet summary_worksheet]. unfold summary_row. rewrite Em.
  exact (upsert_row_holds (strftime_BY now_label) _ _ Hl).
Qed.

(** An expense handled within one month leaves an up-to-date row of
    another month up to date, and brings the row of its own month up to
    date. *)
Lemma add_expense_keeps_up_to_date
      (now now_prefix now_label t : datetime) (user_id : Z)
      (kategori : string) (jumlah : Z) (deskripsi : string)
      (bot : ExpenseBot) :
  main_layout bot ->
  summary_layout (summary_worksheet bot) ->
  valid_month now -> valid_month t ->
  same_month now now_prefix = true ->
  same_month now now_label = true ->
  up_to_date py t bot ->
  up_to_date py t
    (add_expense_to_sheet py now now_prefix now_label user_id kategori jumlah
                          deskripsi bot).
Proof.
  intros Hm Hl Hnow Ht Hp Hb Hup.
  pose proof (same_month_valid _ _ Hb Hnow) as Hlabel.
  destruct (same_month t now_label) eqn:Esame.
  - apply (up_to_date_same_month _ now_label); [done |].
    unfold add_expense_to_sheet.
    apply update_monthly_summary_up_to_date; [|done].
    by apply (same_month_trans _ now); [apply same_month_sym |].
  - assert (strftime_BY now_label <> strftime_BY t) as Hne.
    { intros E. apply strftime_BY_inj in E; [|done..].
      apply same_month_sym in E. congruence. }
    assert (Str.startswith (strftime_Ymd now) (strftime_Ym t) = false) as Hpre.
    { rewrite strftime_Ym_prefix by (destruct Hnow; lia).
      destruct (same_month now t) eqn:E; [|done].
      apply same_month_sym in E.
      by rewrite (same_month_trans _ _ _ E Hb) in Esame. }
    destruct Hup as (j & r & H1 & H2 & H3).
    unfold up_to_date.
    rewrite add_expense_records by done.
    rewrite aggregate_month_snoc, expense_record_contribution_any, Hpre.
    unfold add_expense_to_sheet. rewrite update_monthly_summary_upsert.
    cbn [worksheet summary_worksheet]. unfold summary_row at 1.
    pose proof (fun cells =>
                  upsert_other_label (strftime_BY now_label) (strftime_BY t)
                                     cells _ j r Hl Hne H1 H2) as G.
    exists j, r.
    split; [exact (proj1 (G _)) |]. split; [exact (proj2 (G _)) | done].
Qed.

Lemma handle_all_up_to_date (updates : list update) :
  forall (bot : ExpenseBot) (seen : list datetime),
    main_layout bot ->
    summary_layout (summary_worksheet bot) ->
    (forall u, u ∈ updates -> valid_month (update_time u) /\ one_month u) ->
    (forall t, t ∈ seen -> valid_month t /\ up_to_date py t bot) ->
    let bot' := handle_all py updates bot in
    (forall t, t ∈ seen -> up_to_date py t bot')
    /\ forall u, u ∈ updates ->
         is_Some (parse_expense_message py (update_text u)) ->
         up_to_date py (update_time u) bot'.
Proof.
  induction updates as [|u updates IH]; intros bot seen Hm Hl Hv Hs.
  - simpl. split; [intros t Ht; by apply Hs |].
    intros u Hu. by apply elem_of_nil in Hu.
  - cbn zeta. unfold handle_all. simpl.
    set (bot1 := handle_update py u bot).
    destruct (handle_update_invariant py u bot) as [Hm1 Hl1].
    specialize (Hm1 Hm). destruct (Hl1 Hl) as [Hl1' _]. fold bot1 in Hm1, Hl1'.
    destruct (Hv u ltac:(left)) as (Hnow & Hp & Hb).
    assert (forall u, u ∈ updates ->
                      valid_month (update_time u) /\ one_month u) as Hv'
        by (intros u' Hu; apply Hv; by right).
    destruct (parse_expense_message py (update_text u)) as [[[k n] d]|] eqn:Ep.
    + assert (bot1 = add_expense_to_sheet
                       py (update_time u) (update_prefix_time u)
                       (update_label_time u) (update_user u) k n d bot)
        as E1 by (unfold bot1, handle_update, handle_expense; by rewrite Ep).
      assert (forall t, t ∈ update_time u :: seen ->
                        valid_month t /\ up_to_date py t bot1) as Hs1.
      { intros t [->|Ht]%elem_of_cons.
        - split; [done |]. rewrite E1.
          apply (up_to_date_same_month _ (update_label_time u)); [done |].
          unfold add_expense_to_sheet.
          apply update_monthly_summary_up_to_date; [|done].
          by apply (same_month_trans _ (update_time u));
            [apply same_month_sym |].
        - destruct (Hs t Ht) as [Hvt Hut]. split; [done |].
          rewrite E1. by apply add_expense_keeps_up_to_date. }
      destruct (IH bot1 (update_time u :: seen) Hm1 Hl1' Hv' Hs1) as [A1 A2].
      split.
      * intros t Ht. apply A1. by right.
      * intros u' [->|Hu]%elem_of_cons Hp'; [|by apply A2].
        apply A1. by left.
    + assert (bot1 = bot) as E1
          by (unfold bot1, handle_update, handle_expense; by rewrite Ep).
      rewrite E1 in *.
      destruct (IH bot seen Hm Hl Hv' Hs) as [A1 A2].
      split; [done |].
      intros u' [->|Hu]%elem_of_cons Hp'; [|by apply A2].
      rewrite Ep in Hp'. by destruct Hp'.
Qed.

End UpToDate.

(** X16.  The summary follows the ledger.  Started on worksheets with
    their header rows, after any run of text messages, each handled
    within one month of the calendar (the three readings of the clock
    fall in it), every month in which a message was accepted has its
    summary row up to date with the whole ledger: the first row with the
    label of that month holds the label, the six buckets of the month's
    aggregate of the ledger as it is at the end of the run, and their
    total.  Messages of other months, before or after, do not disturb
    it.  A message handled across the end of a month is another matter:
    with the row written on the last day of August and the clock read
    again in September, the row of August lacks the expense. *)
Theorem summary_follows_the_ledger
        (py : python) (updates : list update)
        (bot : ExpenseBot) :
  main_layout bot ->
  summary_layout (summary_worksheet bot) ->
  (forall u, u ∈ updates -> valid_month (update_time u) /\ one_month u) ->
  let bot' := handle_all py updates bot in
  (forall u, u ∈ updates ->
    is_Some (parse_expense_message py (update_text u)) ->
    exists j r,
      first_index (strftime_BY (update_time u))
                  (data_rows (summary_worksheet bot')) = Some j
      /\ data_rows (summary_worksheet bot') !! j = Some r
      /\ take 8 r
         = summary_row (strftime_BY (update_time u))
             (aggregate_month py (strftime_Ym (update_time u))
                (get_all_records MAIN_HEADER_ROW (worksheet bot'))))
  /\ let late := handle_all py0 [update_aug; update_across] bot0 in
     data_rows (summary_worksheet late)
     = [summary_row "August 2025" (six 25000 0 0 0 0 0);
        summary_row "September 2025" (six 0 0 0 0 0 0)]
     /\ aggregate_month py0 "2025-08"
          (get_all_records MAIN_HEADER_ROW (worksheet late))
        = six 25000 7000 0 0 0 0.
Proof.
  intros Hm Hl Hv bot'. split; [|by vm_compute].
  intros u Hu Hp.
  destruct (handle_all_up_to_date py updates bot [] Hm Hl Hv)
    as [_ A]; [intros t Ht; by apply elem_of_nil in Ht |].
  by apply A.
Qed.

Lemma summary_follows_the_ledger_witness :
  let updates := [update_aug; update_bad; update_sep; update_aug] in
  let bot' := handle_all py0 updates bot0 in
  main_layout bot0 /\ summary_layout (summary_worksheet bot0)
  /\ (forall u, u ∈ updates -> valid_month (update_time u) /\ one_month u)
  /\ exists j r,
      first_index "August 2025" (data_rows (summary_worksheet bot')) = Some j
      /\ data_rows (summary_worksheet bot') !! j = Some r
      /\ take 8 r
         = summary_row "August 2025"
             (aggregate_month py0 "2025-08"
                (get_all_records MAIN_HEADER_ROW (worksheet bot'))).
Proof.
  intros updates bot'.
  assert (main_layout bot0) as Hm by reflexivity.
  assert (summary_layout (summary_worksheet bot0)) as Hl by reflexivity.
  assert (forall u, u ∈ updates -> valid_month (update_time u) /\ one_month u)
    as Hv.
  { intros u Hu. unfold updates in Hu.
    repeat (apply elem_of_cons in Hu as [->|Hu];
            [unfold valid_month, one_month; simpl; split; [lia | done] |]).
    by apply elem_of_nil in Hu. }
  split; [exact Hm |]. split; [exact Hl |]. split; [exact Hv |].
  apply (proj1 (summary_follows_the_ledger py0 updates bot0 Hm Hl Hv)
               update_aug).
  - left.
  - by eexists.
Defined.

(** ** The per-category dictionary of the views *)

Lemma odict_add_keys (d : list (string * Z)) (k : string) (a : Z) :
  (odict_add d k a).*1
  = if bool_decide (k ∈ d.*1) then d.*1 else (d.*1 ++ [k])%list.
Proof.
  induction d as [|[k' v] d IH].
  - rewrite bool_decide_eq_false_2; [done | by intros ?%elem_of_nil].
  - cbn [odict_add]. unfold Str.eqb.
    destruct (decide (k' = k)) as [->|Hk].
    + rewrite bool_decide_eq_true_2 by done.
      rewrite bool_decide_eq_true_2; [done | by left].
    + rewrite (bool_decide_eq_false_2 _ Hk).
      cbn [fmap list_fmap fst]. fold (fmap (M:=list) (@fst string Z)).
      rewrite IH. destruct (decide (k ∈ d.*1)) as [Hin|Hin].
      * rewrite !bool_decide_eq_true_2; [done | by right | done].
      * rewrite !bool_decide_eq_false_2; [done | | done].
        intros [->|]%elem_of_cons; done.
Qed.

Lemma odict_add_NoDup (d : list (string * Z)) (k : string) (a : Z) :
  NoDup d.*1 -> NoDup (odict_add d k a).*1.
Proof.
  intros H. rewrite odict_add_keys. case_bool_decide as E; [done |].
  apply NoDup_app. split_and!; [done | | apply NoDup_singleton].
  intros x Hx ->%list_elem_of_singleton. done.
Qed.

Lemma odict_sum_add (d : list (string * Z)) (k : string) (a : Z) :
  odict_sum (odict_add d k a) = (odict_sum d + a)%Z.
Proof.
  induction d as [|[k' v] d IH]; simpl; [lia |].
  destruct (Str.eqb k' k); simpl; [lia |]. rewrite IH. lia.
Qed.

Section Breakdown.
Variable py : python.

Lemma categories_of_sound (expenses : list record) :
  forall d d',
    categories_of py d expenses = Ok d' ->
    NoDup d.*1 ->
    sum_amounts expenses = Ok (odict_sum d' - odict_sum d)%Z
    /\ NoDup d'.*1
    /\ (forall k, k ∈ d'.*1 <->
                  k ∈ d.*1
                  \/ exists r, r ∈ expenses /\ category_of py r = k)
    /\ forall k, default 0%Z (odict_get d' k)
                 = (default 0%Z (odict_get d k)
                    + sum_under py k expenses)%Z.
Proof.
  induction expenses as [|r expenses IH]; intros d d'.
  - simpl. intros [= <-] Hd. split_and!; [f_equal; lia | done | | intros; lia].
    intros k. split; [by left |]. intros [H|(r & Hr & _)]; [done |].
    by apply elem_of_nil in Hr.
  - cbn [categories_of sum_amounts]. fold (category_of py r).
    destruct (to_int (get r H_JUMLAH)) as [a|e] eqn:Ea; [|done].
    cbn [rbind]. intros H Hd.
    destruct (IH _ _ H (odict_add_NoDup _ (category_of py r) a Hd))
      as (Hs & Hn & Hk & Hv).
    rewrite Hs. cbn [rbind]. split_and!.
    + f_equal. rewrite odict_sum_add. lia.
    + done.
    + intros k. rewrite Hk, odict_add_keys. split.
      * intros [Hin | (r' & Hr' & E)].
        -- case_bool_decide; [by left |].
           apply elem_of_app in Hin as [Hin | ->%list_elem_of_singleton];
             [by left |].
           right. exists r. split; [by left | done].
        -- right. exists r'. split; [by right | done].
      * intros [Hin | (r' & [->|Hr']%elem_of_cons & E)].
        -- left. case_bool_decide; [done |]. apply elem_of_app. by left.
        -- left. subst k. case_bool_decide; [done |].
           apply elem_of_app. right. by apply list_elem_of_singleton.
        -- right. by exists r'.
    + intros k. rewrite Hv, odict_get_add.
      cbn [sum_under foldr]. fold (sum_under py k expenses).
      unfold amount_under. rewrite Ea.
      case_bool_decide as E; [subst k |]; simpl; lia.
Qed.

End Breakdown.

(** X17.  When the per-category loop of a view ends, the amounts it
    lists add up to the total of the view; no category is listed twice;
    a category is listed exactly when a selected record has it; and the
    amount under a category is the sum of the amounts of the selected
    records that have it. *)
Theorem category_breakdown_adds_up
        (py : python) (expenses : list record)
        (cats : list (string * Z)) :
  categories_of py [] expenses = Ok cats ->
  sum_amounts expenses = Ok (odict_sum cats)
  /\ NoDup cats.*1
  /\ (forall k, k ∈ cats.*1 <->
                exists r, r ∈ expenses /\ category_of py r = k)
  /\ forall k, default 0%Z (odict_get cats k)
               = sum_under py k expenses.
Proof.
  intros H.
  destruct (categories_of_sound py expenses [] cats H)
    as (Hs & Hn & Hk & Hv); [constructor |].
  split_and!.
  - rewrite Hs. f_equal. simpl. lia.
  - done.
  - intros k. rewrite Hk. split; [|by right].
    intros [Hin|Hr]; [by apply elem_of_nil in Hin | done].
  - intros k. rewrite Hv. simpl. lia.
Qed.

Lemma category_breakdown_adds_up_witness :
  let expenses := monthly_expenses
                    py0 now0 42
                    {| worksheet := ledger_60000; summary_worksheet := [] |} in
  categories_of py0 [] expenses
  = Ok [("makan", 50000%Z); ("transport", 10000%Z)]
  /\ sum_amounts expenses = Ok 60000%Z.
Proof.
  intros expenses.
  assert (categories_of py0 [] expenses
          = Ok [("makan", 50000%Z); ("transport", 10000%Z)]) as H
      by (vm_compute; reflexivity).
  split; [exact H |].
  exact (proj1 (category_breakdown_adds_up py0 expenses _ H)).
Defined.

(** ** The order of the monthly view *)

Lemma insert_desc_Permutation (x : string * Z) (l : list (string * Z)) :
  insert_desc x l ≡ₚ x :: l.
Proof.
  induction l as [|y l IH]; simpl; [done |].
  destruct (snd y <? snd x)%Z; [done |].
  rewrite IH. apply Permutation_swap.
Qed.

Lemma insert_desc_sorted (x : string * Z) (l : list (string * Z)) :
  StronglySorted amount_ge l -> StronglySorted amount_ge (insert_desc x l).
Proof.
  induction 1 as [|y l Hl IH Hy]; simpl.
  - repeat constructor.
  - destruct (Z.ltb_spec (snd y) (snd x)) as [Hlt|Hge].
    + constructor; [by constructor |].
      constructor; [unfold amount_ge; lia |].
      eapply Forall_impl; [exact Hy |]. unfold amount_ge. intros z. simpl. lia.
    + constructor; [done |].
      rewrite insert_desc_Permutation. by constructor.
Qed.

Lemma filter_none {A} (p : A -> bool) (l : list A) :
  (forall z, z ∈ l -> p z = false) -> List.filter p l = [].
Proof.
  induction l as [|y l IH]; intros H; simpl; [done |].
  rewrite (H y) by (by left). apply IH. intros z Hz. apply H. by right.
Qed.

(** Among the items of one amount the new one comes last. *)
Lemma insert_desc_stable (v : Z) (x : string * Z) (l : list (string * Z)) :
  StronglySorted amount_ge l ->
  List.filter (has_amount v) (insert_desc x l)
  = (List.filter (has_amount v) l
     ++ if has_amount v x then [x] else [])%list.
Proof.
  induction 1 as [|y l Hl IH Hy]; simpl; [by destruct (has_amount v x) |].
  destruct (Z.ltb_spec (snd y) (snd x)) as [Hlt|Hge].
  - cbn [List.filter]. destruct (has_amount v x) eqn:Ex.
    + unfold has_amount in Ex. apply Z.eqb_eq in Ex.
      assert (List.filter (has_amount v) (y :: l) = []) as E.
      { apply filter_none. intros z Hz.
        unfold has_amount. apply Z.eqb_neq.
        apply elem_of_cons in Hz as [->|Hz]; [lia |].
        rewrite Forall_forall in Hy. specialize (Hy z Hz).
        unfold amount_ge in Hy. lia. }
      cbn [List.filter] in E. by rewrite E.
    + by rewrite app_nil_r.
  - cbn [List.filter]. destruct (has_amount v y); [|done].
    by rewrite IH.
Qed.

Lemma sorted_desc_from (l acc : list (string * Z)) :
  StronglySorted amount_ge acc ->
  let s := foldl (fun acc x => insert_desc x acc) acc l in
  StronglySorted amount_ge s
  /\ s ≡ₚ (acc ++ l)%list
  /\ forall v, List.filter (has_amount v) s
               = (List.filter (has_amount v) acc
                  ++ List.filter (has_amount v) l)%list.
Proof.
  revert acc. induction l as [|x l IH]; intros acc Hacc; simpl.
  - split_and!; [done | by rewrite app_nil_r | intros; by rewrite app_nil_r].
  - destruct (IH _ (insert_desc_sorted x _ Hacc)) as (Hs & Hp & Hf).
    split_and!; [done | |].
    + rewrite Hp, insert_desc_Permutation.
      by rewrite <- Permutation_middle.
    + intros v. rewrite Hf, (insert_desc_stable _ _ _ Hacc), <- app_assoc.
      by destruct (has_amount v x).
Qed.

(** X18.  The monthly view lists the categories by amount, largest
    first: the listed items are the items of the dictionary, each as
    often as it was there, no item follows one with a smaller amount,
    and items of equal amount keep the order they had. *)
Theorem monthly_view_order (cats : list (string * Z)) :
  StronglySorted amount_ge (sorted_desc cats)
  /\ sorted_desc cats ≡ₚ cats
  /\ forall v, List.filter (has_amount v) (sorted_desc cats)
               = List.filter (has_amount v) cats.
Proof.
  destruct (sorted_desc_from cats []) as (Hs & Hp & Hf); [constructor |].
  split_and!; done.
Qed.

(** ** Division in the monthly view *)

Lemma py_truediv_nonzero (a b : Z) :
  b <> 0%Z -> py_truediv a b <> Raise ZeroDivisionError.
Proof.
  intros Hb. unfold py_truediv.
  rewrite (proj2 (Z.eqb_neq b 0) Hb). by destruct (SFdiv _ _ _ _).
Qed.

(** X19.  The monthly view never divides by zero: neither the daily
    average nor a percentage raises [ZeroDivisionError]; with a total
    that is not positive every percentage is the integer 0, printed as
    0.0, and on day 0 the average is the integer 0, printed as 0. *)
Theorem monthly_view_never_divides_by_zero
        (amount total : Z) (current_day : nat) :
  percentage amount total <> Raise ZeroDivisionError
  /\ daily_average total current_day <> Raise ZeroDivisionError
  /\ ((total <= 0)%Z -> percentage amount total = Ok (PyInt 0))
  /\ (current_day = 0 -> daily_average total current_day = Ok (PyInt 0))
  /\ format_percentage (PyInt 0) = "0.0"
  /\ format_average (PyInt 0) = "0".
Proof.
  split_and!.
  - unfold percentage. destruct (Z.ltb_spec 0 total) as [H|H]; [|done].
    pose proof (py_truediv_nonzero amount total) as Hd.
    destruct (py_truediv amount total) as [q|e]; [done |].
    simpl. intros [= ->]. apply Hd; [lia | done].
  - unfold daily_average.
    destruct (Z.ltb_spec 0 (Z.of_nat current_day)) as [H|H]; [|done].
    pose proof (py_truediv_nonzero total (Z.of_nat current_day)) as Hd.
    destruct (py_truediv total _) as [q|e]; [done |].
    simpl. intros [= ->]. apply Hd; [lia | done].
  - intros H. unfold percentage.
    by destruct (Z.ltb_spec 0 total) as [H'|H']; [lia |].
  - by intros ->.
  - reflexivity.
  - reflexivity.
Qed.

